(** * Poll-and-notify monitors of the StreamDeck UI plugins

    A shallow embedding of the two plugins
    [plugins/alertmanager/alertmanager_plugin.py] and
    [plugins/arch_update/arch_update_plugin.py], and the properties of
    their poll / tick / activate / render cycle.

    Conventions of the embedding:
    - a Python [int] is a [Z]; a reading of [time.time()] is a rational
      ([Q]); every finite double is one, and the rounding of the float
      subtraction is not modelled;
    - a [str] is a [string] whose characters stand for the code points
      of their numbers, so the text of a subprocess is modelled for the
      code points below 256;
    - a plugin object is a record of its attributes; a method is a
      computation in the monad [M], which threads the object, may raise a
      Python exception, and records the calls made to the host (log lines,
      renders, page switch requests) and to the operating system (process
      launches) as a trace of events;
    - what the outside world answers (the HTTP response, the output of a
      subprocess, the clock, whether a launch succeeds) is an argument of
      the method that asks for it. *)

From Stdlib Require Import ZArith QArith Bool List String Ascii Lia.
From Stdlib Require Import DecimalString.
Import ListNotations.

Local Open Scope string_scope.
Local Open Scope Z_scope.

(** ** Python values *)

Definition nl : string := String (ascii_of_nat 10) EmptyString.

(** [str(n)] for an [int]. *)
Definition str_of_int (n : Z) : string := NilZero.string_of_int (Z.to_int n).

(** Truth value of a [str]: the empty string is false. *)
Definition truthy (s : string) : bool :=
  match s with EmptyString => false | String _ _ => true end.

(** Truth value of an attribute that is [None] or a [str]. *)
Definition truthy_opt (o : option string) : bool :=
  match o with None => false | Some s => truthy s end.

(** [sep.join(parts)]. *)
Fixpoint join (sep : string) (parts : list string) : string :=
  match parts with
  | [] => EmptyString
  | [p] => p
  | p :: rest => p ++ sep ++ join sep rest
  end.

(** ** Exceptions *)

(** The exception classes the two plugins distinguish.  The three
    [Requests*] classes are subclasses of
    [requests.exceptions.RequestException]; everything else that derives
    from [Exception] is [OtherException]. *)
Inductive exn_class : Type :=
| RequestsTimeout
| RequestsConnectionError
| RequestsHTTPError
| TimeoutExpired
| FileNotFoundError
| OtherException.

Record exn : Type := mkExn { exn_cls : exn_class; exn_str : string }.

Definition is_RequestException (e : exn) : bool :=
  match exn_cls e with
  | RequestsTimeout | RequestsConnectionError | RequestsHTTPError => true
  | _ => false
  end.

(** ** The host and the operating system *)

Inductive LogLevel : Type := DEBUG | INFO | WARNING | ERROR.

(** The keyword arguments of [update_image_render]. *)
Record render_spec : Type := mkRender {
  text : string;
  icon : option string;
  background_color : string;
  font_color : string;
  font_size : Z;
  text_vertical_align : string;
  text_horizontal_align : string
}.

Inductive event : Type :=
| Log (level : LogLevel) (message : string)
| UpdateImageRender (spec : render_spec)
| RequestPageSwitch (duration : Z)
| Popen (argv : list string) (start_new_session : bool)
| WebbrowserOpen (url : string).

Definition is_render (ev : event) : bool :=
  match ev with UpdateImageRender _ => true | _ => false end.

Definition is_page_switch (ev : event) : bool :=
  match ev with RequestPageSwitch _ => true | _ => false end.

Definition is_error_log (ev : event) : bool :=
  match ev with Log ERROR _ => true | _ => false end.

(** ** The monad of plugin methods *)

Inductive result (A : Type) : Type :=
| Ok (a : A)
| Raise (e : exn).
Arguments Ok {A} a.
Arguments Raise {A} e.

Definition M (St A : Type) : Type := St -> result A * St * list event.

Section Monad.
Context {St : Type}.

Definition ret {A} (a : A) : M St A := fun s => (Ok a, s, []).

Definition bind {A B} (m : M St A) (k : A -> M St B) : M St B :=
  fun s =>
    match m s with
    | (Ok a, s1, t1) =>
        match k a s1 with (r, s2, t2) => (r, s2, (t1 ++ t2)%list) end
    | (Raise e, s1, t1) => (Raise e, s1, t1)
    end.

Definition get : M St St := fun s => (Ok s, s, []).

Definition modify (f : St -> St) : M St unit := fun s => (Ok tt, f s, []).

Definition emit (ev : event) : M St unit := fun s => (Ok tt, s, [ev]).

Definition raise {A} (e : exn) : M St A := fun s => (Raise e, s, []).

(** [try: body / except ... as e: handler e].  The handler chooses by
    the class of [e] and re-raises what no clause catches. *)
Definition try_except {A} (body : M St A) (handler : exn -> M St A) : M St A :=
  fun s =>
    match body s with
    | (Ok a, s1, t1) => (Ok a, s1, t1)
    | (Raise e, s1, t1) =>
        match handler e s1 with (r, s2, t2) => (r, s2, (t1 ++ t2)%list) end
    end.

(** [try: body / finally: fin].  An exception of [fin] replaces the
    outcome of [body]. *)
Definition try_finally {A} (body : M St A) (fin : M St unit) : M St A :=
  fun s =>
    match body s with
    | (r, s1, t1) =>
        match fin s1 with
        | (Ok _, s2, t2) => (r, s2, (t1 ++ t2)%list)
        | (Raise e, s2, t2) => (Raise e, s2, (t1 ++ t2)%list)
        end
    end.

Definition when (b : bool) (m : M St unit) : M St unit :=
  if b then m else ret tt.

Definition state_of {A} (x : result A * St * list event) : St := snd (fst x).
Definition trace_of {A} (x : result A * St * list event) : list event := snd x.
Definition outcome_of {A} (x : result A * St * list event) : result A := fst (fst x).
End Monad.

Declare Scope plugin_scope.
Delimit Scope plugin_scope with plugin.
Notation "x <- m ;; k" := (bind m (fun x => k))
  (at level 100, m at next level, right associativity) : plugin_scope.
Notation "m ;; k" := (bind m (fun _ => k))
  (at level 100, right associativity) : plugin_scope.

(** Host calls of [BasePlugin]. *)

(** Modelled from the spec: [BasePlugin.log], [update_image_render] and
    [request_page_switch] are not among the sources; section 6 describes
    them as [log(level, message)], [render(spec)] and
    [requestAttention(duration)], calls that hand a value to the host.
    Each is one event of the trace. *)
Definition log {St} (level : LogLevel) (message : string) : M St unit :=
  emit (Log level message).

(** Modelled from the spec: [BasePlugin.update_image_render], the
    [render(spec)] of section 6. *)
Definition update_image_render {St} (spec : render_spec) : M St unit :=
  emit (UpdateImageRender spec).

(** Modelled from the spec: [BasePlugin.request_page_switch], the
    [requestAttention(duration)] of section 6. *)
Definition request_page_switch {St} (duration : Z) : M St unit :=
  emit (RequestPageSwitch duration).

(** [subprocess.Popen(argv, ...)] and [webbrowser.open(url)]: the launch
    succeeds or raises, as the operating system decides. *)
Definition popen {St} (argv : list string) (start_new_session : bool)
    (failure : option exn) : M St unit :=
  match failure with
  | None => emit (Popen argv start_new_session)
  | Some e => raise e
  end.

Definition webbrowser_open {St} (url : string) (failure : option exn) : M St unit :=
  match failure with
  | None => emit (WebbrowserOpen url)
  | Some e => raise e
  end.

(** [now - since >= seconds], with [seconds] an [int]. *)
Definition elapsed (now since : Q) (seconds : Z) : bool :=
  Qle_bool (inject_Z seconds) (now - since).

(** ** Values of a configuration dictionary *)

(** What [int(v)] makes of a value [v] found under an integer key: it
    returns an [int], or it raises ([ValueError] for a string that is no
    number, [TypeError] for [None] or a list). *)
Inductive int_arg : Type :=
| Converts (n : Z)
| Rejected (e : exn).

(** [int(config.get(key, default))]; [None] is a missing key. *)
Definition int_ {St} (v : option int_arg) (default : Z) : M St Z :=
  match v with
  | None => ret default
  | Some (Converts n) => ret n
  | Some (Rejected e) => raise e
  end.

(** ** The request of the AlertManager poll *)

Module AlertManagerRequest.

(** The authentication attributes of [AlertManagerPlugin], as [__init__]
    and [on_config_update] read them: [config.get(key)] for all but
    [auth_type], which defaults to ['none']. *)
Record credentials : Type := mkCredentials {
  client_cert : option string;
  client_key : option string;
  ca_cert : option string;
  cert_password : option string;
  auth_type : string;
  username : option string;
  password : option string;
  bearer_token : option string
}.

(** The value of [kwargs['verify']]: a CA bundle, or [False]. *)
Inductive verify_arg : Type :=
| VerifyCa (path : string)
| VerifyFalse.

(** The keyword arguments of [requests.get]; [None] is a key that was
    not set. *)
Record request_kwargs : Type := mkKwargs {
  kw_timeout : Z;
  kw_auth : option (string * string);
  kw_headers : option (list (string * string));
  kw_cert : option (string * string);
  kw_verify : verify_arg
}.

(** [a and b] on two attributes that are [None] or a [str], with the
    values when both are true. *)
Definition both (a b : option string) : option (string * string) :=
  match a, b with
  | Some x, Some y => if truthy x && truthy y then Some (x, y) else None
  | _, _ => None
  end.

(** The dictionary [kwargs] that [_poll_alertmanager] builds. *)
Definition build_kwargs (cr : credentials) : request_kwargs :=
  let basic :=
    if String.eqb (auth_type cr) "basic"
    then both (username cr) (password cr) else None in
  let bearer :=
    match basic with
    | Some _ => None
    | None =>
        if String.eqb (auth_type cr) "bearer" && truthy_opt (bearer_token cr)
        then match bearer_token cr with
             | Some tok => Some [("Authorization", "Bearer " ++ tok)]
             | None => None
             end
        else None
    end in
  {| kw_timeout := 10;
     kw_auth := basic;
     kw_headers := bearer;
     kw_cert := both (client_cert cr) (client_key cr);
     kw_verify := match ca_cert cr with
                  | Some ca => if truthy ca then VerifyCa ca else VerifyFalse
                  | None => VerifyFalse
                  end |}.

End AlertManagerRequest.

(** ** The AlertManager plugin *)

Module AlertManager.

Local Open Scope plugin_scope.

(** The attributes of [AlertManagerPlugin].  The eight authentication and
    certificate attributes are kept together in [auth]; [icon_exists] is
    what [os.path.exists(self.icon_path)] answers. *)
Record AlertManagerPlugin : Type := mkPlugin {
  alertmanager_url : string;
  environment_name : string;
  poll_interval : Z;
  flash_duration : Z;
  browser_command : string;
  auth : AlertManagerRequest.credentials;
  last_alert_count : Z;
  current_alert_count : Z;
  last_poll_time : Q;
  is_flashing : bool;
  flash_state : bool;
  flash_start_time : Q;
  icon_path : string;
  icon_exists : bool
}.

Definition set_alertmanager_url (v : string) (p : AlertManagerPlugin) :=
  mkPlugin v (environment_name p) (poll_interval p) (flash_duration p)
    (browser_command p) (auth p) (last_alert_count p) (current_alert_count p)
    (last_poll_time p) (is_flashing p) (flash_state p) (flash_start_time p)
    (icon_path p) (icon_exists p).

Definition set_environment_name (v : string) (p : AlertManagerPlugin) :=
  mkPlugin (alertmanager_url p) v (poll_interval p) (flash_duration p)
    (browser_command p) (auth p) (last_alert_count p) (current_alert_count p)
    (last_poll_time p) (is_flashing p) (flash_state p) (flash_start_time p)
    (icon_path p) (icon_exists p).

Definition set_poll_interval (v : Z) (p : AlertManagerPlugin) :=
  mkPlugin (alertmanager_url p) (environment_name p) v (flash_duration p)
    (browser_command p) (auth p) (last_alert_count p) (current_alert_count p)
    (last_poll_time p) (is_flashing p) (flash_state p) (flash_start_time p)
    (icon_path p) (icon_exists p).

Definition set_flash_duration (v : Z) (p : AlertManagerPlugin) :=
  mkPlugin (alertmanager_url p) (environment_name p) (poll_interval p) v
    (browser_command p) (auth p) (last_alert_count p) (current_alert_count p)
    (last_poll_time p) (is_flashing p) (flash_state p) (flash_start_time p)
    (icon_path p) (icon_exists p).

Definition set_browser_command (v : string) (p : AlertManagerPlugin) :=
  mkPlugin (alertmanager_url p) (environment_name p) (poll_interval p)
    (flash_duration p) v (auth p) (last_alert_count p) (current_alert_count p)
    (last_poll_time p) (is_flashing p) (flash_state p) (flash_start_time p)
    (icon_path p) (icon_exists p).

Definition set_auth (v : AlertManagerRequest.credentials) (p : AlertManagerPlugin) :=
  mkPlugin (alertmanager_url p) (environment_name p) (poll_interval p)
    (flash_duration p) (browser_command p) v (last_alert_count p)
    (current_alert_count p) (last_poll_time p) (is_flashing p) (flash_state p)
    (flash_start_time p) (icon_path p) (icon_exists p).

Definition set_last_alert_count (v : Z) (p : AlertManagerPlugin) :=
  mkPlugin (alertmanager_url p) (environment_name p) (poll_interval p)
    (flash_duration p) (browser_command p) (auth p) v (current_alert_count p)
    (last_poll_time p) (is_flashing p) (flash_state p) (flash_start_time p)
    (icon_path p) (icon_exists p).

Definition set_current_alert_count (v : Z) (p : AlertManagerPlugin) :=
  mkPlugin (alertmanager_url p) (environment_name p) (poll_interval p)
    (flash_duration p) (browser_command p) (auth p) (last_alert_count p) v
    (last_poll_time p) (is_flashing p) (flash_state p) (flash_start_time p)
    (icon_path p) (icon_exists p).

Definition set_last_poll_time (v : Q) (p : AlertManagerPlugin) :=
  mkPlugin (alertmanager_url p) (environment_name p) (poll_interval p)
    (flash_duration p) (browser_command p) (auth p) (last_alert_count p)
    (current_alert_count p) v (is_flashing p) (flash_state p)
    (flash_start_time p) (icon_path p) (icon_exists p).

Definition set_is_flashing (v : bool) (p : AlertManagerPlugin) :=
  mkPlugin (alertmanager_url p) (environment_name p) (poll_interval p)
    (flash_duration p) (browser_command p) (auth p) (last_alert_count p)
    (current_alert_count p) (last_poll_time p) v (flash_state p)
    (flash_start_time p) (icon_path p) (icon_exists p).

Definition set_flash_state (v : bool) (p : AlertManagerPlugin) :=
  mkPlugin (alertmanager_url p) (environment_name p) (poll_interval p)
    (flash_duration p) (browser_command p) (auth p) (last_alert_count p)
    (current_alert_count p) (last_poll_time p) (is_flashing p) v
    (flash_start_time p) (icon_path p) (icon_exists p).

Definition set_flash_start_time (v : Q) (p : AlertManagerPlugin) :=
  mkPlugin (alertmanager_url p) (environment_name p) (poll_interval p)
    (flash_duration p) (browser_command p) (auth p) (last_alert_count p)
    (current_alert_count p) (last_poll_time p) (is_flashing p) (flash_state p)
    v (icon_path p) (icon_exists p).

(** The configuration dictionary, as far as the plugin reads it; [None]
    is a missing key.  The integer keys hold values of type [int]: [Z]
    for a dictionary whose numbers [__init__] has converted, [int_arg]
    for a dictionary as [on_config_update] receives it. *)
Record config (int : Type) : Type := mkConfig {
  cfg_alertmanager_url : option string;
  cfg_environment_name : option string;
  cfg_poll_interval : option int;
  cfg_flash_duration : option int;
  cfg_browser_command : option string;
  cfg_client_cert : option string;
  cfg_client_key : option string;
  cfg_ca_cert : option string;
  cfg_cert_password : option string;
  cfg_auth_type : option string;
  cfg_username : option string;
  cfg_password : option string;
  cfg_bearer_token : option string
}.
Arguments mkConfig {int}.
Arguments cfg_alertmanager_url {int}.
Arguments cfg_environment_name {int}.
Arguments cfg_poll_interval {int}.
Arguments cfg_flash_duration {int}.
Arguments cfg_browser_command {int}.
Arguments cfg_client_cert {int}.
Arguments cfg_client_key {int}.
Arguments cfg_ca_cert {int}.
Arguments cfg_cert_password {int}.
Arguments cfg_auth_type {int}.
Arguments cfg_username {int}.
Arguments cfg_password {int}.
Arguments cfg_bearer_token {int}.

Definition dict_get {A} (o : option A) (default : A) : A :=
  match o with Some v => v | None => default end.

(** The authentication attributes as [__init__] and [on_config_update]
    both assign them: [config.get(key)], with no fall back on the current
    value, and ['none'] for a missing [auth_type]. *)
Definition read_credentials {int} (c : config int)
    : AlertManagerRequest.credentials :=
  {| AlertManagerRequest.client_cert := cfg_client_cert c;
     AlertManagerRequest.client_key := cfg_client_key c;
     AlertManagerRequest.ca_cert := cfg_ca_cert c;
     AlertManagerRequest.cert_password := cfg_cert_password c;
     AlertManagerRequest.auth_type := dict_get (cfg_auth_type c) "none";
     AlertManagerRequest.username := cfg_username c;
     AlertManagerRequest.password := cfg_password c;
     AlertManagerRequest.bearer_token := cfg_bearer_token c |}.

(** [__init__], for a dictionary whose integer keys convert; with one
    that does not, [int] raises and no plugin comes to exist. *)
Definition init (c : config Z) (path : string) (present : bool) : AlertManagerPlugin :=
  {| alertmanager_url := dict_get (cfg_alertmanager_url c) EmptyString;
     environment_name := dict_get (cfg_environment_name c) "Unknown";
     poll_interval := dict_get (cfg_poll_interval c) 30;
     flash_duration := dict_get (cfg_flash_duration c) 10;
     browser_command := dict_get (cfg_browser_command c) EmptyString;
     auth := read_credentials c;
     last_alert_count := 0;
     current_alert_count := 0;
     last_poll_time := 0%Q;
     is_flashing := false;
     flash_state := false;
     flash_start_time := 0%Q;
     icon_path := path;
     icon_exists := present |}.

(** One element of the JSON array of [/api/v2/alerts]: what
    [a.get('status', {}).get('state')] evaluates to. *)
Record alert : Type := mkAlert { status_state : option string }.

(** What [requests.get], [raise_for_status] and [response.json()] end
    in: an exception, or the decoded alerts. *)
Inductive http_outcome : Type :=
| HttpRaises (e : exn)
| HttpAlerts (alerts : list alert).

Definition is_active (a : alert) : bool :=
  match status_state a with
  | Some st => String.eqb st "active"
  | None => false
  end.

(** [len(firing_alerts)]. *)
Definition firing_count (alerts : list alert) : Z :=
  Z.of_nat (List.length (List.filter is_active alerts)).

Definition icon_arg (p : AlertManagerPlugin) : option string :=
  if icon_exists p then Some (icon_path p) else None.

(** The arguments [_update_display] passes to [update_image_render]. *)
Definition display (p : AlertManagerPlugin) : render_spec :=
  if is_flashing p && flash_state p then
    {| text := environment_name p ++ nl ++ nl ++ "NEW!";
       icon := icon_arg p;
       background_color := "#FF0000";
       font_color := "#FFFFFF";
       font_size := 14;
       text_vertical_align := "middle";
       text_horizontal_align := "center" |}
  else
    let bg_color :=
      if current_alert_count p >? 0 then
        if current_alert_count p >=? 5 then "#FF4500" else "#FFA500"
      else "#2E7D32" in
    let text_color := "#FFFFFF" in
    {| text := environment_name p ++ nl ++ nl
               ++ str_of_int (current_alert_count p) ++ " alerts";
       icon := icon_arg p;
       background_color := bg_color;
       font_color := text_color;
       font_size := 12;
       text_vertical_align := "middle";
       text_horizontal_align := "center" |}.

Definition _update_display : M AlertManagerPlugin unit :=
  try_except
    (p <- get ;; update_image_render (display p))
    (fun e => log ERROR ("Failed to update display: " ++ exn_str e)).

(** [_poll_alertmanager]; [now] is the reading of [time.time()] taken
    when new alerts are found. *)
Definition _poll_alertmanager (response : http_outcome) (now : Q)
    : M AlertManagerPlugin unit :=
  try_except
    (alerts <- match response with
               | HttpRaises e => raise e
               | HttpAlerts alerts => ret alerts
               end ;;
     modify (set_current_alert_count (firing_count alerts)) ;;
     p <- get ;;
     log DEBUG ("Polled AlertManager: " ++ str_of_int (current_alert_count p)
                ++ " alerts") ;;
     when ((current_alert_count p >? last_alert_count p)
           && (last_alert_count p >? 0))
       (let new_alert_count := current_alert_count p - last_alert_count p in
        log WARNING ("NEW ALERTS DETECTED! +" ++ str_of_int new_alert_count
                     ++ " alerts") ;;
        modify (set_is_flashing true) ;;
        modify (set_flash_start_time now) ;;
        modify (set_flash_state true) ;;
        request_page_switch (flash_duration p)) ;;
     p <- get ;;
     modify (set_last_alert_count (current_alert_count p)))
    (fun e =>
       if is_RequestException e then
         log ERROR ("Failed to poll AlertManager: " ++ exn_str e)
       else
         log ERROR ("Unexpected error polling AlertManager: " ++ exn_str e)).

Definition on_start : M AlertManagerPlugin unit :=
  p <- get ;;
  log INFO ("AlertManager plugin started for " ++ environment_name p) ;;
  log INFO ("Monitoring: " ++ alertmanager_url p) ;;
  _update_display.

(** [on_button_pressed]; [launch] is [Some e] when starting the browser
    raises [e]. *)
Definition on_button_pressed (launch : option exn) : M AlertManagerPlugin unit :=
  log INFO "Button pressed, opening AlertManager" ;;
  try_except
    (p <- get ;;
     (if truthy (browser_command p) then
        popen [browser_command p; alertmanager_url p] false launch
      else
        webbrowser_open (alertmanager_url p) launch) ;;
     p <- get ;;
     when (is_flashing p)
       (modify (set_is_flashing false) ;;
        _update_display))
    (fun e => log ERROR ("Failed to open browser: " ++ exn_str e)).

Definition on_button_released : M AlertManagerPlugin unit := ret tt.

Definition on_button_visible (page button : Z) : M AlertManagerPlugin unit :=
  log INFO ("Button now visible on page " ++ str_of_int page ++ ", button "
            ++ str_of_int button) ;;
  _update_display.

Definition on_button_hidden : M AlertManagerPlugin unit :=
  log INFO "Button now hidden".

(** The assignments of [on_config_update], in their order.  A value that
    [int] rejects raises there and then: the attributes assigned before
    keep their new values and the later ones their old ones. *)
Definition apply_config (c : config int_arg) : M AlertManagerPlugin unit :=
  p <- get ;;
  modify (set_alertmanager_url
            (dict_get (cfg_alertmanager_url c) (alertmanager_url p))) ;;
  modify (set_environment_name
            (dict_get (cfg_environment_name c) (environment_name p))) ;;
  n <- int_ (cfg_poll_interval c) (poll_interval p) ;;
  modify (set_poll_interval n) ;;
  n <- int_ (cfg_flash_duration c) (flash_duration p) ;;
  modify (set_flash_duration n) ;;
  modify (set_browser_command
            (dict_get (cfg_browser_command c) (browser_command p))) ;;
  modify (set_auth (read_credentials c)).

Definition on_config_update (c : config int_arg) (response : http_outcome)
    (now : Q) : M AlertManagerPlugin unit :=
  log INFO "Configuration updated" ;;
  apply_config c ;;
  _poll_alertmanager response now ;;
  _update_display.

(** The URL [_poll_alertmanager] requests. *)
Definition api_url (p : AlertManagerPlugin) : string :=
  alertmanager_url p ++ "/api/v2/alerts".

(** The first [if] of [update]: a poll when the interval has passed. *)
Definition poll_phase (current_time : Q) (response : http_outcome) (poll_now : Q)
    : M AlertManagerPlugin unit :=
  p <- get ;;
  when (elapsed current_time (last_poll_time p) (poll_interval p))
    (_poll_alertmanager response poll_now ;;
     modify (set_last_poll_time current_time)).

(** The second [if] of [update]: expiry, toggle and render while
    flashing. *)
Definition flash_phase (current_time : Q) : M AlertManagerPlugin unit :=
  p <- get ;;
  when (is_flashing p)
    (when (elapsed current_time (flash_start_time p) (flash_duration p))
       (modify (set_is_flashing false) ;;
        log INFO "Flash duration expired") ;;
     p <- get ;;
     modify (set_flash_state (negb (flash_state p))) ;;
     _update_display).

(** [update], the tick.  [current_time] is the reading of the clock at
    its first line; [response] and [poll_now] are what a poll made by
    this tick meets. *)
Definition update (current_time : Q) (response : http_outcome) (poll_now : Q)
    : M AlertManagerPlugin unit :=
  poll_phase current_time response poll_now ;;
  flash_phase current_time.

(** A sequence of polls, each with its response and clock reading. *)
Fixpoint poll_run (polls : list (http_outcome * Q)) (p : AlertManagerPlugin)
    : AlertManagerPlugin :=
  match polls with
  | [] => p
  | (response, now) :: rest =>
      poll_run rest (state_of (_poll_alertmanager response now p))
  end.

(** [n] alerts in state [active]. *)
Definition firing (n : nat) : http_outcome :=
  HttpAlerts (List.repeat (mkAlert (Some "active")) n).

Definition default_config : config Z :=
  mkConfig None None None None None None None None None None None None None.

Definition fresh : AlertManagerPlugin := init default_config "icon.png" false.

End AlertManager.

(** ** Text of a subprocess *)

(** The characters [str.isspace] accepts, and so [str.strip] removes.  A
    character of a [string] stands for the code point of its number; below
    256 these are the white space characters: 9 to 13, 28 to 32, 133
    (next line) and 160 (no-break space). *)
Definition is_space (c : ascii) : bool :=
  let n := nat_of_ascii c in
  ((9 <=? n) && (n <=? 13) || (28 <=? n) && (n <=? 32)
   || (n =? 133) || (n =? 160))%nat.

Fixpoint lstrip (s : string) : string :=
  match s with
  | EmptyString => EmptyString
  | String c r => if is_space c then lstrip r else s
  end.

Fixpoint rstrip (s : string) : string :=
  match s with
  | EmptyString => EmptyString
  | String c r =>
      match rstrip r with
      | EmptyString => if is_space c then EmptyString else String c EmptyString
      | r' => String c r'
      end
  end.

(** [s.strip()]. *)
Definition strip (s : string) : string := rstrip (lstrip s).

(** [s.split('\n')]: never empty. *)
Fixpoint split_lines (s : string) : list string :=
  match s with
  | EmptyString => [EmptyString]
  | String c r =>
      if Ascii.eqb c (ascii_of_nat 10) then EmptyString :: split_lines r
      else match split_lines r with
           | h :: t => String c h :: t
           | [] => [String c EmptyString]
           end
  end.

(** [sub in s]. *)
Fixpoint contains (sub s : string) : bool :=
  String.prefix sub s ||
  match s with
  | EmptyString => false
  | String _ r => contains sub r
  end.

(** What [subprocess.run(..., capture_output=True, text=True, timeout=...)]
    ends in: an exception ([TimeoutExpired], [FileNotFoundError], or one of
    [shlex.split]), or a completed process with its standard output. *)
Inductive proc_outcome : Type :=
| ProcRaises (e : exn)
| ProcCompleted (stdout : string).

(** ** The Arch update plugin *)

Module ArchUpdate.

Local Open Scope plugin_scope.

(** The attributes of [ArchUpdatePlugin]; [icon_exists] is what
    [os.path.exists(self.icon_path)] answers. *)
Record ArchUpdatePlugin : Type := mkPlugin {
  check_command : string;
  aur_check_command : string;
  flatpak_check : bool;
  update_command : string;
  terminal : string;
  terminal_execute_flag : string;
  check_interval : Z;
  notify_on_updates : bool;
  notify_duration : Z;
  show_count_when_zero : bool;
  system_name : string;
  last_check_time : Q;
  last_update_count : Z;
  current_update_count : Z;
  pacman_updates : Z;
  aur_updates : Z;
  flatpak_updates : Z;
  check_error : option string;
  is_checking : bool;
  icon_path : string;
  icon_exists : bool
}.

Definition set_last_check_time (v : Q) (p : ArchUpdatePlugin) :=
  mkPlugin (check_command p) (aur_check_command p) (flatpak_check p)
    (update_command p) (terminal p) (terminal_execute_flag p)
    (check_interval p) (notify_on_updates p) (notify_duration p)
    (show_count_when_zero p) (system_name p) v (last_update_count p)
    (current_update_count p) (pacman_updates p) (aur_updates p)
    (flatpak_updates p) (check_error p) (is_checking p) (icon_path p)
    (icon_exists p).

Definition set_last_update_count (v : Z) (p : ArchUpdatePlugin) :=
  mkPlugin (check_command p) (aur_check_command p) (flatpak_check p)
    (update_command p) (terminal p) (terminal_execute_flag p)
    (check_interval p) (notify_on_updates p) (notify_duration p)
    (show_count_when_zero p) (system_name p) (last_check_time p) v
    (current_update_count p) (pacman_updates p) (aur_updates p)
    (flatpak_updates p) (check_error p) (is_checking p) (icon_path p)
    (icon_exists p).

Definition set_current_update_count (v : Z) (p : ArchUpdatePlugin) :=
  mkPlugin (check_command p) (aur_check_command p) (flatpak_check p)
    (update_command p) (terminal p) (terminal_execute_flag p)
    (check_interval p) (notify_on_updates p) (notify_duration p)
    (show_count_when_zero p) (system_name p) (last_check_time p)
    (last_update_count p) v (pacman_updates p) (aur_updates p)
    (flatpak_updates p) (check_error p) (is_checking p) (icon_path p)
    (icon_exists p).

Definition set_pacman_updates (v : Z) (p : ArchUpdatePlugin) :=
  mkPlugin (check_command p) (aur_check_command p) (flatpak_check p)
    (update_command p) (terminal p) (terminal_execute_flag p)
    (check_interval p) (notify_on_updates p) (notify_duration p)
    (show_count_when_zero p) (system_name p) (last_check_time p)
    (last_update_count p) (current_update_count p) v (aur_updates p)
    (flatpak_updates p) (check_error p) (is_checking p) (icon_path p)
    (icon_exists p).

Definition set_aur_updates (v : Z) (p : ArchUpdatePlugin) :=
  mkPlugin (check_command p) (aur_check_command p) (flatpak_check p)
    (update_command p) (terminal p) (terminal_execute_flag p)
    (check_interval p) (notify_on_updates p) (notify_duration p)
    (show_count_when_zero p) (system_name p) (last_check_time p)
    (last_update_count p) (current_update_count p) (pacman_updates p) v
    (flatpak_updates p) (check_error p) (is_checking p) (icon_path p)
    (icon_exists p).

Definition set_flatpak_updates (v : Z) (p : ArchUpdatePlugin) :=
  mkPlugin (check_command p) (aur_check_command p) (flatpak_check p)
    (update_command p) (terminal p) (terminal_execute_flag p)
    (check_interval p) (notify_on_updates p) (notify_duration p)
    (show_count_when_zero p) (system_name p) (last_check_time p)
    (last_update_count p) (current_update_count p) (pacman_updates p)
    (aur_updates p) v (check_error p) (is_checking p) (icon_path p)
    (icon_exists p).

Definition set_check_error (v : option string) (p : ArchUpdatePlugin) :=
  mkPlugin (check_command p) (aur_check_command p) (flatpak_check p)
    (update_command p) (terminal p) (terminal_execute_flag p)
    (check_interval p) (notify_on_updates p) (notify_duration p)
    (show_count_when_zero p) (system_name p) (last_check_time p)
    (last_update_count p) (current_update_count p) (pacman_updates p)
    (aur_updates p) (flatpak_updates p) v (is_checking p) (icon_path p)
    (icon_exists p).

Definition set_is_checking (v : bool) (p : ArchUpdatePlugin) :=
  mkPlugin (check_command p) (aur_check_command p) (flatpak_check p)
    (update_command p) (terminal p) (terminal_execute_flag p)
    (check_interval p) (notify_on_updates p) (notify_duration p)
    (show_count_when_zero p) (system_name p) (last_check_time p)
    (last_update_count p) (current_update_count p) (pacman_updates p)
    (aur_updates p) (flatpak_updates p) (check_error p) v (icon_path p)
    (icon_exists p).

Definition set_check_command (v : string) (p : ArchUpdatePlugin) :=
  mkPlugin v (aur_check_command p) (flatpak_check p) (update_command p)
    (terminal p) (terminal_execute_flag p) (check_interval p)
    (notify_on_updates p) (notify_duration p) (show_count_when_zero p)
    (system_name p) (last_check_time p) (last_update_count p)
    (current_update_count p) (pacman_updates p) (aur_updates p)
    (flatpak_updates p) (check_error p) (is_checking p) (icon_path p)
    (icon_exists p).

Definition set_aur_check_command (v : string) (p : ArchUpdatePlugin) :=
  mkPlugin (check_command p) v (flatpak_check p) (update_command p)
    (terminal p) (terminal_execute_flag p) (check_interval p)
    (notify_on_updates p) (notify_duration p) (show_count_when_zero p)
    (system_name p) (last_check_time p) (last_update_count p)
    (current_update_count p) (pacman_updates p) (aur_updates p)
    (flatpak_updates p) (check_error p) (is_checking p) (icon_path p)
    (icon_exists p).

Definition set_flatpak_check (v : bool) (p : ArchUpdatePlugin) :=
  mkPlugin (check_command p) (aur_check_command p) v (update_command p)
    (terminal p) (terminal_execute_flag p) (check_interval p)
    (notify_on_updates p) (notify_duration p) (show_count_when_zero p)
    (system_name p) (last_check_time p) (last_update_count p)
    (current_update_count p) (pacman_updates p) (aur_updates p)
    (flatpak_updates p) (check_error p) (is_checking p) (icon_path p)
    (icon_exists p).

Definition set_update_command (v : string) (p : ArchUpdatePlugin) :=
  mkPlugin (check_command p) (aur_check_command p) (flatpak_check p) v
    (terminal p) (terminal_execute_flag p) (check_interval p)
    (notify_on_updates p) (notify_duration p) (show_count_when_zero p)
    (system_name p) (last_check_time p) (last_update_count p)
    (current_update_count p) (pacman_updates p) (aur_updates p)
    (flatpak_updates p) (check_error p) (is_checking p) (icon_path p)
    (icon_exists p).

Definition set_terminal (v : string) (p : ArchUpdatePlugin) :=
  mkPlugin (check_command p) (aur_check_command p) (flatpak_check p)
    (update_command p) v (terminal_execute_flag p) (check_interval p)
    (notify_on_updates p) (notify_duration p) (show_count_when_zero p)
    (system_name p) (last_check_time p) (last_update_count p)
    (current_update_count p) (pacman_updates p) (aur_updates p)
    (flatpak_updates p) (check_error p) (is_checking p) (icon_path p)
    (icon_exists p).

Definition set_terminal_execute_flag (v : string) (p : ArchUpdatePlugin) :=
  mkPlugin (check_command p) (aur_check_command p) (flatpak_check p)
    (update_command p) (terminal p) v (check_interval p) (notify_on_updates p)
    (notify_duration p) (show_count_when_zero p) (system_name p)
    (last_check_time p) (last_update_count p) (current_update_count p)
    (pacman_updates p) (aur_updates p) (flatpak_updates p) (check_error p)
    (is_checking p) (icon_path p) (icon_exists p).

Definition set_check_interval (v : Z) (p : ArchUpdatePlugin) :=
  mkPlugin (check_command p) (aur_check_command p) (flatpak_check p)
    (update_command p) (terminal p) (terminal_execute_flag p) v
    (notify_on_updates p) (notify_duration p) (show_count_when_zero p)
    (system_name p) (last_check_time p) (last_update_count p)
    (current_update_count p) (pacman_updates p) (aur_updates p)
    (flatpak_updates p) (check_error p) (is_checking p) (icon_path p)
    (icon_exists p).

Definition set_notify_on_updates (v : bool) (p : ArchUpdatePlugin) :=
  mkPlugin (check_command p) (aur_check_command p) (flatpak_check p)
    (update_command p) (terminal p) (terminal_execute_flag p)
    (check_interval p) v (notify_duration p) (show_count_when_zero p)
    (system_name p) (last_check_time p) (last_update_count p)
    (current_update_count p) (pacman_updates p) (aur_updates p)
    (flatpak_updates p) (check_error p) (is_checking p) (icon_path p)
    (icon_exists p).

Definition set_notify_duration (v : Z) (p : ArchUpdatePlugin) :=
  mkPlugin (check_command p) (aur_check_command p) (flatpak_check p)
    (update_command p) (terminal p) (terminal_execute_flag p)
    (check_interval p) (notify_on_updates p) v (show_count_when_zero p)
    (system_name p) (last_check_time p) (last_update_count p)
    (current_update_count p) (pacman_updates p) (aur_updates p)
    (flatpak_updates p) (check_error p) (is_checking p) (icon_path p)
    (icon_exists p).

Definition set_show_count_when_zero (v : bool) (p : ArchUpdatePlugin) :=
  mkPlugin (check_command p) (aur_check_command p) (flatpak_check p)
    (update_command p) (terminal p) (terminal_execute_flag p)
    (check_interval p) (notify_on_updates p) (notify_duration p) v
    (system_name p) (last_check_time p) (last_update_count p)
    (current_update_count p) (pacman_updates p) (aur_updates p)
    (flatpak_updates p) (check_error p) (is_checking p) (icon_path p)
    (icon_exists p).

Definition set_system_name (v : string) (p : ArchUpdatePlugin) :=
  mkPlugin (check_command p) (aur_check_command p) (flatpak_check p)
    (update_command p) (terminal p) (terminal_execute_flag p)
    (check_interval p) (notify_on_updates p) (notify_duration p)
    (show_count_when_zero p) v (last_check_time p) (last_update_count p)
    (current_update_count p) (pacman_updates p) (aur_updates p)
    (flatpak_updates p) (check_error p) (is_checking p) (icon_path p)
    (icon_exists p).

(** The configuration dictionary, as far as the plugin reads it; [None]
    is a missing key.  The integer keys hold values of type [int]: [Z]
    for a dictionary whose numbers [__init__] has converted, [int_arg]
    for a dictionary as [on_config_update] receives it. *)
Record config (int : Type) : Type := mkConfig {
  cfg_check_command : option string;
  cfg_aur_check_command : option string;
  cfg_flatpak_check : option bool;
  cfg_update_command : option string;
  cfg_terminal : option string;
  cfg_terminal_execute_flag : option string;
  cfg_check_interval : option int;
  cfg_notify_on_updates : option bool;
  cfg_notify_duration : option int;
  cfg_show_count_when_zero : option bool;
  cfg_system_name : option string
}.
Arguments mkConfig {int}.
Arguments cfg_check_command {int}.
Arguments cfg_aur_check_command {int}.
Arguments cfg_flatpak_check {int}.
Arguments cfg_update_command {int}.
Arguments cfg_terminal {int}.
Arguments cfg_terminal_execute_flag {int}.
Arguments cfg_check_interval {int}.
Arguments cfg_notify_on_updates {int}.
Arguments cfg_notify_duration {int}.
Arguments cfg_show_count_when_zero {int}.
Arguments cfg_system_name {int}.

Definition dict_get {A} (o : option A) (default : A) : A :=
  match o with Some v => v | None => default end.

(** [__init__]; [last_update_count] starts at -1, not checked yet. *)
Definition init (c : config Z) (path : string) (present : bool) : ArchUpdatePlugin :=
  {| check_command := dict_get (cfg_check_command c) "checkupdates";
     aur_check_command := dict_get (cfg_aur_check_command c) EmptyString;
     flatpak_check := dict_get (cfg_flatpak_check c) false;
     update_command := dict_get (cfg_update_command c) "sudo pacman -Syu";
     terminal := dict_get (cfg_terminal c) "gnome-terminal";
     terminal_execute_flag := dict_get (cfg_terminal_execute_flag c) "--";
     check_interval := dict_get (cfg_check_interval c) 3600;
     notify_on_updates := dict_get (cfg_notify_on_updates c) true;
     notify_duration := dict_get (cfg_notify_duration c) 10;
     show_count_when_zero := dict_get (cfg_show_count_when_zero c) false;
     system_name := dict_get (cfg_system_name c) "System";
     last_check_time := 0%Q;
     last_update_count := -1;
     current_update_count := 0;
     pacman_updates := 0;
     aur_updates := 0;
     flatpak_updates := 0;
     check_error := None;
     is_checking := false;
     icon_path := path;
     icon_exists := present |}.

Definition icon_arg (p : ArchUpdatePlugin) : option string :=
  if icon_exists p then Some (icon_path p) else None.

(** [len([line for line in stdout.strip().split('\n') if line])]. *)
Definition count_lines (stdout : string) : Z :=
  Z.of_nat (List.length (List.filter truthy (split_lines (strip stdout)))).

(** The same with the lines that hold [->] only. *)
Definition count_arrow_lines (stdout : string) : Z :=
  Z.of_nat (List.length
    (List.filter (fun line => truthy line && contains "->" line)
                 (split_lines (strip stdout)))).

Definition run {A} (r : proc_outcome) (k : string -> M ArchUpdatePlugin A)
    : M ArchUpdatePlugin A :=
  match r with
  | ProcRaises e => raise e
  | ProcCompleted stdout => k stdout
  end.

Definition _check_pacman (r : proc_outcome) : M ArchUpdatePlugin Z :=
  try_except
    (run r (fun stdout =>
       if truthy stdout then ret (count_lines stdout) else ret 0))
    (fun e =>
       match exn_cls e with
       | TimeoutExpired =>
           log ERROR "Pacman check timed out" ;; ret 0
       | FileNotFoundError =>
           p <- get ;;
           log ERROR ("Command not found: " ++ check_command p) ;;
           modify (set_check_error
                     (Some ("Command not found: " ++ check_command p))) ;;
           ret 0
       | _ =>
           log ERROR ("Pacman check failed: " ++ exn_str e) ;; ret 0
       end).

Definition _check_aur (r : proc_outcome) : M ArchUpdatePlugin Z :=
  try_except
    (run r (fun stdout =>
       if truthy stdout then ret (count_arrow_lines stdout) else ret 0))
    (fun e =>
       match exn_cls e with
       | TimeoutExpired =>
           log ERROR "AUR check timed out" ;; ret 0
       | FileNotFoundError =>
           p <- get ;;
           log ERROR ("AUR helper not found: " ++ aur_check_command p) ;;
           ret 0
       | _ =>
           log ERROR ("AUR check failed: " ++ exn_str e) ;; ret 0
       end).

Definition _check_flatpak (r : proc_outcome) : M ArchUpdatePlugin Z :=
  try_except
    (run r (fun stdout =>
       if truthy stdout then ret (count_lines stdout) else ret 0))
    (fun e =>
       match exn_cls e with
       | TimeoutExpired =>
           log ERROR "Flatpak check timed out" ;; ret 0
       | FileNotFoundError =>
           log WARNING "Flatpak not installed" ;; ret 0
       | _ =>
           log ERROR ("Flatpak check failed: " ++ exn_str e) ;; ret 0
       end).

(** The list [parts] of [_update_display]. *)
Definition breakdown (p : ArchUpdatePlugin) : list string :=
  List.app
    (if pacman_updates p >? 0
     then ["P:" ++ str_of_int (pacman_updates p)] else [])
    (List.app
       (if aur_updates p >? 0
        then ["A:" ++ str_of_int (aur_updates p)] else [])
       (if flatpak_updates p >? 0
        then ["F:" ++ str_of_int (flatpak_updates p)] else [])).

Definition status_render (p : ArchUpdatePlugin) (label bg : string) : render_spec :=
  {| text := system_name p ++ nl ++ nl ++ label;
     icon := icon_arg p;
     background_color := bg;
     font_color := "#FFFFFF";
     font_size := 12;
     text_vertical_align := "middle";
     text_horizontal_align := "center" |}.

(** The arguments [_update_display] passes to [update_image_render]. *)
Definition display (p : ArchUpdatePlugin) : render_spec :=
  if is_checking p then status_render p "Checking..." "#555555"
  else if truthy_opt (check_error p) then status_render p "Error" "#AA0000"
  else if last_update_count p <? 0 then status_render p "Starting..." "#555555"
  else if current_update_count p =? 0 then
    status_render p
      (if show_count_when_zero p then "0 updates" else "Up to date")
      "#2E7D32"
  else
    let parts := breakdown p in
    let many := (1 <? List.length parts)%nat in
    {| text := system_name p ++ nl ++ nl
               ++ str_of_int (current_update_count p) ++ " update"
               ++ (if current_update_count p =? 1 then EmptyString else "s")
               ++ (if many then nl ++ "(" ++ join " " parts ++ ")"
                   else EmptyString);
       icon := icon_arg p;
       background_color :=
         if current_update_count p >=? 20 then "#D32F2F"
         else if current_update_count p >=? 10 then "#F57C00"
         else "#1976D2";
       font_color := "#FFFFFF";
       font_size := if (current_update_count p >? 0) && many then 11 else 12;
       text_vertical_align := "middle";
       text_horizontal_align := "center" |}.

Definition _update_display : M ArchUpdatePlugin unit :=
  try_except
    (p <- get ;; update_image_render (display p))
    (fun e => log ERROR ("Failed to update display: " ++ exn_str e)).

(** The body of the [try] of [_check_updates]. *)
Definition check_updates_body (pacman aur flatpak : proc_outcome)
    : M ArchUpdatePlugin unit :=
  log DEBUG "Checking for updates..." ;;
  modify (set_pacman_updates 0) ;;
  modify (set_aur_updates 0) ;;
  modify (set_flatpak_updates 0) ;;
  n <- _check_pacman pacman ;;
  modify (set_pacman_updates n) ;;
  log DEBUG ("Pacman updates: " ++ str_of_int n) ;;
  p <- get ;;
  when (truthy (aur_check_command p))
    (n <- _check_aur aur ;;
     modify (set_aur_updates n) ;;
     log DEBUG ("AUR updates: " ++ str_of_int n)) ;;
  p <- get ;;
  when (flatpak_check p)
    (n <- _check_flatpak flatpak ;;
     modify (set_flatpak_updates n) ;;
     log DEBUG ("Flatpak updates: " ++ str_of_int n)) ;;
  p <- get ;;
  modify (set_current_update_count
            (pacman_updates p + aur_updates p + flatpak_updates p)) ;;
  p <- get ;;
  log INFO ("Total updates available: "
            ++ str_of_int (current_update_count p)) ;;
  when (last_update_count p >=? 0)
    (when ((current_update_count p >? last_update_count p)
           && (current_update_count p >? 0))
       (let new_updates := current_update_count p - last_update_count p in
        log WARNING ("NEW UPDATES DETECTED! +" ++ str_of_int new_updates
                     ++ " updates") ;;
        when (notify_on_updates p)
          (request_page_switch (notify_duration p)))) ;;
  modify (set_last_update_count (current_update_count p)).

(** [_check_updates] around the body of its [try]. *)
Definition guarded_check (body : M ArchUpdatePlugin unit)
    : M ArchUpdatePlugin unit :=
  modify (set_is_checking true) ;;
  modify (set_check_error None) ;;
  try_finally
    (try_except body
       (fun e =>
          log ERROR ("Failed to check updates: " ++ exn_str e) ;;
          modify (set_check_error (Some (exn_str e)))))
    (modify (set_is_checking false) ;;
     _update_display).

Definition _check_updates (pacman aur flatpak : proc_outcome)
    : M ArchUpdatePlugin unit :=
  guarded_check (check_updates_body pacman aur flatpak).

Definition on_start (pacman aur flatpak : proc_outcome)
    : M ArchUpdatePlugin unit :=
  p <- get ;;
  log INFO ("Arch Update plugin started for " ++ system_name p) ;;
  log INFO ("Check command: " ++ check_command p) ;;
  _update_display ;;
  _check_updates pacman aur flatpak.

(** The list [terminal_cmd] of [on_button_pressed]. *)
Definition terminal_cmd (p : ArchUpdatePlugin) : list string :=
  let flag := terminal_execute_flag p in
  (terminal p ::
    (if truthy flag then
       if String.eqb flag "--" then ["--"; "bash"; "-c"; update_command p]
       else if String.eqb flag "-e" then ["-e"; "bash"; "-c"; update_command p]
       else if String.eqb flag "-x" then ["-x"; "bash"; "-c"; update_command p]
       else [flag; update_command p]
     else ["bash"; "-c"; update_command p]))%list.

Definition on_button_pressed (launch : option exn) : M ArchUpdatePlugin unit :=
  log INFO "Button pressed, launching update command" ;;
  try_except
    (p <- get ;;
     popen (terminal_cmd p) true launch ;;
     log INFO ("Launched: " ++ join " " (terminal_cmd p)))
    (fun e =>
       log ERROR ("Failed to launch update command: " ++ exn_str e) ;;
       modify (set_check_error (Some ("Launch error: " ++ exn_str e))) ;;
       _update_display).

Definition on_button_released : M ArchUpdatePlugin unit := ret tt.

Definition on_button_visible (page button : Z) : M ArchUpdatePlugin unit :=
  log INFO ("Button now visible on page " ++ str_of_int page ++ ", button "
            ++ str_of_int button) ;;
  _update_display.

Definition on_button_hidden : M ArchUpdatePlugin unit :=
  log INFO "Button now hidden".

(** The assignments of [on_config_update], in their order.  A value that
    [int] rejects raises there and then: the attributes assigned before
    keep their new values and the later ones their old ones. *)
Definition apply_config (c : config int_arg) : M ArchUpdatePlugin unit :=
  p <- get ;;
  modify (set_check_command (dict_get (cfg_check_command c) (check_command p))) ;;
  modify (set_aur_check_command
            (dict_get (cfg_aur_check_command c) (aur_check_command p))) ;;
  modify (set_flatpak_check (dict_get (cfg_flatpak_check c) (flatpak_check p))) ;;
  modify (set_update_command
            (dict_get (cfg_update_command c) (update_command p))) ;;
  modify (set_terminal (dict_get (cfg_terminal c) (terminal p))) ;;
  modify (set_terminal_execute_flag
            (dict_get (cfg_terminal_execute_flag c) (terminal_execute_flag p))) ;;
  n <- int_ (cfg_check_interval c) (check_interval p) ;;
  modify (set_check_interval n) ;;
  modify (set_notify_on_updates
            (dict_get (cfg_notify_on_updates c) (notify_on_updates p))) ;;
  n <- int_ (cfg_notify_duration c) (notify_duration p) ;;
  modify (set_notify_duration n) ;;
  modify (set_show_count_when_zero
            (dict_get (cfg_show_count_when_zero c) (show_count_when_zero p))) ;;
  modify (set_system_name (dict_get (cfg_system_name c) (system_name p))).

Definition on_config_update (c : config int_arg)
    (pacman aur flatpak : proc_outcome) : M ArchUpdatePlugin unit :=
  log INFO "Configuration updated" ;;
  apply_config c ;;
  _check_updates pacman aur flatpak ;;
  _update_display.

(** [update], the tick. *)
Definition update (current_time : Q) (pacman aur flatpak : proc_outcome)
    : M ArchUpdatePlugin unit :=
  p <- get ;;
  when (negb (is_checking p)
        && elapsed current_time (last_check_time p) (check_interval p))
    (_check_updates pacman aur flatpak ;;
     modify (set_last_check_time current_time)).

(** The count a sub-source check returns for [r]: the lines found, and
    zero when the command raised. *)
Definition lines_found (count : string -> Z) (r : proc_outcome) : Z :=
  match r with
  | ProcRaises _ => 0
  | ProcCompleted stdout => if truthy stdout then count stdout else 0
  end.

(** The value of [check_error] after [_check_pacman]. *)
Definition pacman_error (r : proc_outcome) (p : ArchUpdatePlugin) : option string :=
  match r with
  | ProcRaises e =>
      match exn_cls e with
      | FileNotFoundError => Some ("Command not found: " ++ check_command p)
      | _ => check_error p
      end
  | ProcCompleted _ => check_error p
  end.

(** The callbacks the host invokes, with what the outside world answers
    during each. *)
Inductive callback : Type :=
| OnStart (pacman aur flatpak : proc_outcome)
| OnButtonPressed (launch : option exn)
| OnButtonReleased
| OnButtonVisible (page button : Z)
| OnButtonHidden
| OnConfigUpdate (c : config int_arg) (pacman aur flatpak : proc_outcome)
| Update (current_time : Q) (pacman aur flatpak : proc_outcome).

Definition dispatch (cb : callback) : M ArchUpdatePlugin unit :=
  match cb with
  | OnStart pacman aur flatpak => on_start pacman aur flatpak
  | OnButtonPressed launch => on_button_pressed launch
  | OnButtonReleased => on_button_released
  | OnButtonVisible page button => on_button_visible page button
  | OnButtonHidden => on_button_hidden
  | OnConfigUpdate c pacman aur flatpak => on_config_update c pacman aur flatpak
  | Update current_time pacman aur flatpak => update current_time pacman aur flatpak
  end.

(** Modelled from the spec: the loop of [BasePlugin.run] is not among the
    sources; section 5 has the host invoke the callbacks serially, one
    after the other, on the one plugin object. *)
Fixpoint run_callbacks (cbs : list callback) (p : ArchUpdatePlugin)
    : ArchUpdatePlugin :=
  match cbs with
  | [] => p
  | cb :: rest => run_callbacks rest (state_of (dispatch cb p))
  end.

(** Standard output with [n] pending packages, one per line. *)
Fixpoint pending (n : nat) : string :=
  match n with
  | O => EmptyString
  | S k => "pkg 1.0-1 -> 1.1-1" ++ nl ++ pending k
  end.

Definition default_config : config Z :=
  mkConfig None None None None None None None None None None None.

Definition fresh : ArchUpdatePlugin := init default_config "arch_icon.png" false.

(** A plugin configured with all three sub-sources. *)
Definition three_sources : ArchUpdatePlugin :=
  init (mkConfig None (Some "yay -Qu") (Some true) None None None None None
          None None None) "arch_icon.png" false.

(** A plugin configured not to request page switches. *)
Definition silent : ArchUpdatePlugin :=
  init (mkConfig None None None None None None None (Some false) None None
          None) "arch_icon.png" false.

Definition quiet : proc_outcome := ProcCompleted EmptyString.

Definition timed_out : proc_outcome :=
  ProcRaises (mkExn TimeoutExpired "Command timed out after 30 seconds").

End ArchUpdate.

(** ** The host loop of the AlertManager plugin *)

Module AlertManagerHost.

(** The callbacks the host invokes on the AlertManager plugin, with what
    the outside world answers during each. *)
Inductive callback : Type :=
| OnStart
| OnButtonPressed (launch : option exn)
| OnButtonReleased
| OnButtonVisible (page button : Z)
| OnButtonHidden
| OnConfigUpdate (c : AlertManager.config int_arg)
    (response : AlertManager.http_outcome) (now : Q)
| Update (current_time : Q) (response : AlertManager.http_outcome) (poll_now : Q).

Definition dispatch (cb : callback) : M AlertManager.AlertManagerPlugin unit :=
  match cb with
  | OnStart => AlertManager.on_start
  | OnButtonPressed launch => AlertManager.on_button_pressed launch
  | OnButtonReleased => AlertManager.on_button_released
  | OnButtonVisible page button => AlertManager.on_button_visible page button
  | OnButtonHidden => AlertManager.on_button_hidden
  | OnConfigUpdate c response now => AlertManager.on_config_update c response now
  | Update current_time response poll_now =>
      AlertManager.update current_time response poll_now
  end.

(** Modelled from the spec: the loop of [BasePlugin.run] is not among the
    sources; section 5 has the host invoke the callbacks serially, one
    after the other, on the one plugin object. *)
Fixpoint run_callbacks (cbs : list callback) (p : AlertManager.AlertManagerPlugin)
    : AlertManager.AlertManagerPlugin :=
  match cbs with
  | [] => p
  | cb :: rest => run_callbacks rest (state_of (dispatch cb p))
  end.

(** The callbacks that neither poll nor launch anything. *)
Definition is_passive (cb : callback) : bool :=
  match cb with
  | OnStart | OnButtonReleased | OnButtonVisible _ _ | OnButtonHidden => true
  | _ => false
  end.

End AlertManagerHost.

(** ** Derived notions *)

(** The guard of [_poll_alertmanager] on a poll that counts [n] alerts. *)
Definition raises_attention (n : Z) (p : AlertManager.AlertManagerPlugin) : bool :=
  (n >? AlertManager.last_alert_count p) && (AlertManager.last_alert_count p >? 0).

(** The trace [t] ends with a render of [r]. *)
Definition ends_with_render (r : render_spec) (t : list event) : Prop :=
  exists t0, t = (t0 ++ [UpdateImageRender r])%list.

Definition requests_page_switch (t : list event) : bool :=
  List.existsb is_page_switch t.

Definition renders (t : list event) : bool := List.existsb is_render t.

(** What the three sub-sources of the Arch update plugin contribute. *)
Definition aur_found (aur : proc_outcome) (p : ArchUpdate.ArchUpdatePlugin) : Z :=
  if truthy (ArchUpdate.aur_check_command p)
  then ArchUpdate.lines_found ArchUpdate.count_arrow_lines aur else 0.

Definition flatpak_found (flatpak : proc_outcome) (p : ArchUpdate.ArchUpdatePlugin) : Z :=
  if ArchUpdate.flatpak_check p
  then ArchUpdate.lines_found ArchUpdate.count_lines flatpak else 0.

Definition pacman_found (pacman : proc_outcome) : Z :=
  ArchUpdate.lines_found ArchUpdate.count_lines pacman.

Definition total_found (pacman aur flatpak : proc_outcome)
    (p : ArchUpdate.ArchUpdatePlugin) : Z :=
  pacman_found pacman + aur_found aur p + flatpak_found flatpak p.

(** The guards of [_check_updates] around its page switch request. *)
Definition notifies (total : Z) (p : ArchUpdate.ArchUpdatePlugin) : bool :=
  (ArchUpdate.last_update_count p >=? 0)
  && ((total >? ArchUpdate.last_update_count p) && (total >? 0))
  && ArchUpdate.notify_on_updates p.

(** The plugin after a check that ran to its end. *)
Definition counted (pacman aur flatpak : proc_outcome)
    (p : ArchUpdate.ArchUpdatePlugin) : ArchUpdate.ArchUpdatePlugin :=
  let total := total_found pacman aur flatpak p in
  ArchUpdate.mkPlugin
    (ArchUpdate.check_command p) (ArchUpdate.aur_check_command p)
    (ArchUpdate.flatpak_check p) (ArchUpdate.update_command p)
    (ArchUpdate.terminal p) (ArchUpdate.terminal_execute_flag p)
    (ArchUpdate.check_interval p) (ArchUpdate.notify_on_updates p)
    (ArchUpdate.notify_duration p) (ArchUpdate.show_count_when_zero p)
    (ArchUpdate.system_name p) (ArchUpdate.last_check_time p)
    total total
    (pacman_found pacman) (aur_found aur p) (flatpak_found flatpak p)
    (ArchUpdate.pacman_error pacman p) (ArchUpdate.is_checking p)
    (ArchUpdate.icon_path p) (ArchUpdate.icon_exists p).

(** The plugin after [_check_updates]. *)
Definition checked (pacman aur flatpak : proc_outcome)
    (p : ArchUpdate.ArchUpdatePlugin) : ArchUpdate.ArchUpdatePlugin :=
  ArchUpdate.set_is_checking false
    (counted pacman aur flatpak
       (ArchUpdate.set_check_error None (ArchUpdate.set_is_checking true p))).

(** The counters of the Arch update plugin are consistent: no sub-source
    count is negative, the total is their sum, and the stored previous
    count is the total or still the start value -1. *)
Definition arch_counts_ok (a : ArchUpdate.ArchUpdatePlugin) : Prop :=
  0 <= ArchUpdate.pacman_updates a
  /\ 0 <= ArchUpdate.aur_updates a
  /\ 0 <= ArchUpdate.flatpak_updates a
  /\ ArchUpdate.current_update_count a
     = ArchUpdate.pacman_updates a + ArchUpdate.aur_updates a
       + ArchUpdate.flatpak_updates a
  /\ (ArchUpdate.last_update_count a = -1
      \/ ArchUpdate.last_update_count a = ArchUpdate.current_update_count a).

(** The number of sub-sources with pending updates. *)
Definition positive_sources (a : ArchUpdate.ArchUpdatePlugin) : nat :=
  ((if ArchUpdate.pacman_updates a >? 0 then 1 else 0)
   + (if ArchUpdate.aur_updates a >? 0 then 1 else 0)
   + (if ArchUpdate.flatpak_updates a >? 0 then 1 else 0))%nat.

(** The plugin shows its count view: no check is running, no error is
    recorded and a check has completed. *)
Definition shows_count (a : ArchUpdate.ArchUpdatePlugin) : Prop :=
  ArchUpdate.is_checking a = false
  /\ truthy_opt (ArchUpdate.check_error a) = false
  /\ 0 <= ArchUpdate.last_update_count a.

(** Shapes of the output of a check command. *)

(** Every character of [s] is white space. *)
Fixpoint all_space (s : string) : bool :=
  match s with
  | EmptyString => true
  | String c r => is_space c && all_space r
  end.

(** [s] is not empty and does not start with white space. *)
Definition starts_clean (s : string) : bool :=
  match s with
  | EmptyString => false
  | String c _ => negb (is_space c)
  end.

(** [s] is not empty and does not end with white space. *)
Fixpoint ends_clean (s : string) : bool :=
  match s with
  | EmptyString => false
  | String c EmptyString => negb (is_space c)
  | String _ r => ends_clean r
  end.

(** [s] holds no newline. *)
Fixpoint no_newline (s : string) : bool :=
  match s with
  | EmptyString => true
  | String c r => negb (Ascii.eqb c (ascii_of_nat 10)) && no_newline r
  end.

(** A line as a package manager prints it: not empty, no white space
    at either end, no newline inside. *)
Definition clean_line (s : string) : bool :=
  starts_clean s && ends_clean s && no_newline s.

(** The lines [ls], each followed by a newline. *)
Fixpoint lines_text (ls : list string) : string :=
  match ls with
  | [] => EmptyString
  | l :: rest => l ++ nl ++ lines_text rest
  end.

(** Everything the Arch update plugin hands to the host and to the
    operating system during a sequence of callbacks. *)
Fixpoint callbacks_trace (cbs : list ArchUpdate.callback)
    (a : ArchUpdate.ArchUpdatePlugin) : list event :=
  match cbs with
  | [] => []
  | cb :: rest =>
      (trace_of (ArchUpdate.dispatch cb a)
       ++ callbacks_trace rest (state_of (ArchUpdate.dispatch cb a)))%list
  end.

(** A render of the display of a state whose [is_checking] flag is off. *)
Definition idle_render (ev : event) : Prop :=
  exists q, ev = UpdateImageRender (ArchUpdate.display q)
            /\ ArchUpdate.is_checking q = false.

(** Configuration updates whose integers convert. *)

(** The dictionary [c] as [on_config_update] receives it. *)
Definition am_accepted (c : AlertManager.config Z) : AlertManager.config int_arg :=
  AlertManager.mkConfig
    (AlertManager.cfg_alertmanager_url c) (AlertManager.cfg_environment_name c)
    (option_map Converts (AlertManager.cfg_poll_interval c))
    (option_map Converts (AlertManager.cfg_flash_duration c))
    (AlertManager.cfg_browser_command c)
    (AlertManager.cfg_client_cert c) (AlertManager.cfg_client_key c)
    (AlertManager.cfg_ca_cert c) (AlertManager.cfg_cert_password c)
    (AlertManager.cfg_auth_type c) (AlertManager.cfg_username c)
    (AlertManager.cfg_password c) (AlertManager.cfg_bearer_token c).

(** The AlertManager plugin after the assignments of a configuration
    update that ran to their end. *)
Definition am_configured (c : AlertManager.config Z)
    (p : AlertManager.AlertManagerPlugin) : AlertManager.AlertManagerPlugin :=
  AlertManager.mkPlugin
    (AlertManager.dict_get (AlertManager.cfg_alertmanager_url c)
       (AlertManager.alertmanager_url p))
    (AlertManager.dict_get (AlertManager.cfg_environment_name c)
       (AlertManager.environment_name p))
    (AlertManager.dict_get (AlertManager.cfg_poll_interval c)
       (AlertManager.poll_interval p))
    (AlertManager.dict_get (AlertManager.cfg_flash_duration c)
       (AlertManager.flash_duration p))
    (AlertManager.dict_get (AlertManager.cfg_browser_command c)
       (AlertManager.browser_command p))
    (AlertManager.read_credentials c)
    (AlertManager.last_alert_count p) (AlertManager.current_alert_count p)
    (AlertManager.last_poll_time p) (AlertManager.is_flashing p)
    (AlertManager.flash_state p) (AlertManager.flash_start_time p)
    (AlertManager.icon_path p) (AlertManager.icon_exists p).

Definition arch_accepted (c : ArchUpdate.config Z) : ArchUpdate.config int_arg :=
  ArchUpdate.mkConfig
    (ArchUpdate.cfg_check_command c) (ArchUpdate.cfg_aur_check_command c)
    (ArchUpdate.cfg_flatpak_check c) (ArchUpdate.cfg_update_command c)
    (ArchUpdate.cfg_terminal c) (ArchUpdate.cfg_terminal_execute_flag c)
    (option_map Converts (ArchUpdate.cfg_check_interval c))
    (ArchUpdate.cfg_notify_on_updates c)
    (option_map Converts (ArchUpdate.cfg_notify_duration c))
    (ArchUpdate.cfg_show_count_when_zero c) (ArchUpdate.cfg_system_name c).

(** The Arch update plugin after the assignments of a configuration
    update that ran to their end. *)
Definition arch_configured (c : ArchUpdate.config Z)
    (p : ArchUpdate.ArchUpdatePlugin) : ArchUpdate.ArchUpdatePlugin :=
  ArchUpdate.mkPlugin
    (ArchUpdate.dict_get (ArchUpdate.cfg_check_command c) (ArchUpdate.check_command p))
    (ArchUpdate.dict_get (ArchUpdate.cfg_aur_check_command c)
       (ArchUpdate.aur_check_command p))
    (ArchUpdate.dict_get (ArchUpdate.cfg_flatpak_check c) (ArchUpdate.flatpak_check p))
    (ArchUpdate.dict_get (ArchUpdate.cfg_update_command c) (ArchUpdate.update_command p))
    (ArchUpdate.dict_get (ArchUpdate.cfg_terminal c) (ArchUpdate.terminal p))
    (ArchUpdate.dict_get (ArchUpdate.cfg_terminal_execute_flag c)
       (ArchUpdate.terminal_execute_flag p))
    (ArchUpdate.dict_get (ArchUpdate.cfg_check_interval c) (ArchUpdate.check_interval p))
    (ArchUpdate.dict_get (ArchUpdate.cfg_notify_on_updates c)
       (ArchUpdate.notify_on_updates p))
    (ArchUpdate.dict_get (ArchUpdate.cfg_notify_duration c)
       (ArchUpdate.notify_duration p))
    (ArchUpdate.dict_get (ArchUpdate.cfg_show_count_when_zero c)
       (ArchUpdate.show_count_when_zero p))
    (ArchUpdate.dict_get (ArchUpdate.cfg_system_name c) (ArchUpdate.system_name p))
    (ArchUpdate.last_check_time p) (ArchUpdate.last_update_count p)
    (ArchUpdate.current_update_count p) (ArchUpdate.pacman_updates p)
    (ArchUpdate.aur_updates p) (ArchUpdate.flatpak_updates p)
    (ArchUpdate.check_error p) (ArchUpdate.is_checking p)
    (ArchUpdate.icon_path p) (ArchUpdate.icon_exists p).

(** Callbacks that leave the cadence of the ticks alone. *)

(** An AlertManager callback that cannot poll before a full [interval]
    has passed since the reading [t]: anything but a configuration update,
    and a tick only when its own reading is less than [interval] after
    [t]. *)
Definition am_waits (t : Q) (interval : Z) (cb : AlertManagerHost.callback) : Prop :=
  match cb with
  | AlertManagerHost.Update t' _ _ => (t' - t < inject_Z interval)%Q
  | AlertManagerHost.OnConfigUpdate _ _ _ => False
  | _ => True
  end.

(** The same for the Arch update plugin, whose start callback checks
    too. *)
Definition arch_waits (t : Q) (interval : Z) (cb : ArchUpdate.callback) : Prop :=
  match cb with
  | ArchUpdate.Update t' _ _ _ => (t' - t < inject_Z interval)%Q
  | ArchUpdate.OnConfigUpdate _ _ _ _ => False
  | ArchUpdate.OnStart _ _ _ => False
  | _ => True
  end.

(** The breakdown as the sub-sources whose count is not zero: [P:], [A:]
    and [F:] for pacman, AUR and Flatpak, in this order, each with its
    count. *)
Definition nonzero_parts (a : ArchUpdate.ArchUpdatePlugin) : list string :=
  List.map (fun s => fst s ++ str_of_int (snd s))
    (List.filter (fun s => negb (snd s =? 0))
       [("P:", ArchUpdate.pacman_updates a);
        ("A:", ArchUpdate.aur_updates a);
        ("F:", ArchUpdate.flatpak_updates a)]).

(** ** Example states *)

(** An AlertManager plugin in attention mode: one alert seen at time 1,
    a second one at time 2. *)
Definition alerted : AlertManager.AlertManagerPlugin :=
  AlertManager.poll_run
    [(AlertManager.firing 1, 1%Q); (AlertManager.firing 2, 2%Q)]
    AlertManager.fresh.

(** The same plugin after a later poll that found no alert at all. *)
Definition alerted_then_clear : AlertManager.AlertManagerPlugin :=
  AlertManager.poll_run [(AlertManager.firing 0, 3%Q)] alerted.

(** An AlertManager plugin after its first tick, at time 100, with three
    alerts firing. *)
Definition ticked_once : AlertManager.AlertManagerPlugin :=
  state_of (AlertManager.update 100%Q (AlertManager.firing 3) 100%Q
              AlertManager.fresh).

(** An AlertManager plugin in attention mode whose configured browser
    does not exist: a configuration update has named it, and the poll of
    that update has found the two alerts again. *)
Definition alerted_without_browser : AlertManager.AlertManagerPlugin :=
  state_of
    (AlertManager.on_config_update
       (AlertManager.mkConfig None None None None (Some "no-such-browser")
          None None None None None None None None)
       (AlertManager.firing 2) (5 # 2) alerted).

(** An Arch update plugin caught with its [is_checking] flag set. *)
Definition busy : ArchUpdate.ArchUpdatePlugin :=
  ArchUpdate.set_is_checking true ArchUpdate.fresh.

Definition request_timeout : exn :=
  mkExn RequestsTimeout "Read timed out. (read timeout=10)".

Definition no_such_file : exn :=
  mkExn FileNotFoundError "[Errno 2] No such file or directory".

(** An Arch update plugin after a check that found [n] pacman updates. *)
Definition arch_after (n : nat) (p : ArchUpdate.ArchUpdatePlugin)
    : ArchUpdate.ArchUpdatePlugin :=
  state_of (ArchUpdate._check_updates
              (ProcCompleted (ArchUpdate.pending n))
              ArchUpdate.quiet ArchUpdate.quiet p).

(** ** Facts about the AlertManager plugin *)

Section AlertManagerFacts.
Import AlertManager.

Lemma am_eta (p : AlertManagerPlugin) :
  mkPlugin (alertmanager_url p) (environment_name p) (poll_interval p)
    (flash_duration p) (browser_command p) (auth p) (last_alert_count p)
    (current_alert_count p) (last_poll_time p) (is_flashing p)
    (flash_state p) (flash_start_time p) (icon_path p) (icon_exists p) = p.
Proof. destruct p; reflexivity. Qed.

(** A failed poll logs one line at error level and touches nothing. *)
Lemma poll_failure e now p :
  exists msg,
    _poll_alertmanager (HttpRaises e) now p = (Ok tt, p, [Log ERROR msg]).
Proof.
  unfold _poll_alertmanager, try_except, bind, raise, log, emit.
  destruct (is_RequestException e); eexists; reflexivity.
Qed.

(** A successful poll, in full. *)
Lemma poll_success alerts now p :
  let n := firing_count alerts in
  exists t,
    _poll_alertmanager (HttpAlerts alerts) now p =
      (Ok tt,
       set_last_alert_count n
         (if raises_attention n p
          then set_flash_state true
                 (set_flash_start_time now
                    (set_is_flashing true (set_current_alert_count n p)))
          else set_current_alert_count n p),
       t)
    /\ requests_page_switch t = raises_attention n p
    /\ (raises_attention n p = true ->
        In (RequestPageSwitch (flash_duration p)) t)
    /\ renders t = false.
Proof.
  intros n. unfold _poll_alertmanager, try_except, bind, raises_attention.
  cbn. fold n.
  destruct ((n >? last_alert_count p) && (last_alert_count p >? 0)); cbn;
    eexists; repeat split; try reflexivity; try discriminate.
  intros _. repeat (first [left; reflexivity | right]).
Qed.

Lemma poll_returns response now p :
  outcome_of (_poll_alertmanager response now p) = Ok tt.
Proof.
  destruct response as [e | alerts].
  - destruct (poll_failure e now p) as [msg ->]. reflexivity.
  - destruct (poll_success alerts now p) as (t & -> & _). reflexivity.
Qed.

Lemma poll_never_renders response now p :
  renders (trace_of (_poll_alertmanager response now p)) = false.
Proof.
  destruct response as [e | alerts].
  - destruct (poll_failure e now p) as [msg ->]. reflexivity.
  - destruct (poll_success alerts now p) as (t & -> & _ & _ & H). exact H.
Qed.

(** A poll never leaves attention mode, and never touches the
    configuration. *)
Lemma poll_keeps_flashing response now p :
  is_flashing p = true ->
  is_flashing (state_of (_poll_alertmanager response now p)) = true.
Proof.
  intros H. destruct response as [e | alerts].
  - destruct (poll_failure e now p) as [msg ->]. exact H.
  - destruct (poll_success alerts now p) as (t & -> & _).
    cbn. destruct (raises_attention _ p); cbn; auto.
Qed.

Lemma poll_keeps_flash_duration response now p :
  flash_duration (state_of (_poll_alertmanager response now p)) = flash_duration p.
Proof.
  destruct response as [e | alerts].
  - destruct (poll_failure e now p) as [msg ->]. reflexivity.
  - destruct (poll_success alerts now p) as (t & -> & _).
    cbn. destruct (raises_attention _ p); reflexivity.
Qed.

(** The start of the attention window after a poll: restarted at the
    reading of the poll when the poll raises attention, kept otherwise. *)
Lemma poll_flash_start response now p :
  flash_start_time (state_of (_poll_alertmanager response now p)) =
    match response with
    | HttpAlerts alerts =>
        if raises_attention (firing_count alerts) p then now
        else flash_start_time p
    | HttpRaises _ => flash_start_time p
    end.
Proof.
  destruct response as [e | alerts].
  - destruct (poll_failure e now p) as [msg ->]. reflexivity.
  - destruct (poll_success alerts now p) as (t & -> & _).
    cbn. destruct (raises_attention _ p); reflexivity.
Qed.

(** The poll phase of a tick. *)
Lemma poll_phase_run current_time response poll_now p :
  poll_phase current_time response poll_now p =
    if elapsed current_time (last_poll_time p) (poll_interval p)
    then (Ok tt,
          set_last_poll_time current_time
            (state_of (_poll_alertmanager response poll_now p)),
          trace_of (_poll_alertmanager response poll_now p))
    else (Ok tt, p, []).
Proof.
  unfold poll_phase, bind, get, when.
  destruct (elapsed current_time (last_poll_time p) (poll_interval p));
    [| reflexivity].
  pose proof (poll_returns response poll_now p) as Hr.
  destruct (_poll_alertmanager response poll_now p) as [[r q] t].
  cbn in Hr. subst r. cbn. rewrite !app_nil_r. reflexivity.
Qed.

(** The flash phase of a tick. *)
Lemma flash_phase_run current_time p :
  flash_phase current_time p =
    if is_flashing p then
      let expired := elapsed current_time (flash_start_time p) (flash_duration p) in
      let q := set_flash_state (negb (flash_state p))
                 (if expired then set_is_flashing false p else p) in
      (Ok tt, q,
       ((if expired then [Log INFO "Flash duration expired"] else [])
        ++ [UpdateImageRender (display q)])%list)
    else (Ok tt, p, []).
Proof.
  unfold flash_phase, bind, get, when.
  destruct (is_flashing p) eqn:Hf; [| reflexivity].
  destruct (elapsed current_time (flash_start_time p) (flash_duration p));
    reflexivity.
Qed.

Lemma update_run current_time response poll_now p :
  let x := poll_phase current_time response poll_now p in
  update current_time response poll_now p =
    (Ok tt, state_of (flash_phase current_time (state_of x)),
     (trace_of x ++ trace_of (flash_phase current_time (state_of x)))%list).
Proof.
  intros x. unfold update, bind. subst x.
  rewrite poll_phase_run.
  destruct (elapsed current_time (last_poll_time p) (poll_interval p));
    cbv beta iota; unfold state_of, trace_of; cbn [fst snd];
    rewrite flash_phase_run;
    match goal with |- context [is_flashing ?q] => destruct (is_flashing q) end;
    reflexivity.
Qed.

Lemma elapsed_iff now since seconds :
  elapsed now since seconds = true <-> (inject_Z seconds <= now - since)%Q.
Proof. unfold elapsed. apply Qle_bool_iff. Qed.

End AlertManagerFacts.

(** ** Facts about the Arch update plugin *)

Section ArchUpdateFacts.
Import ArchUpdate.

Lemma check_pacman_run r p :
  exists t,
    _check_pacman r p =
      (Ok (pacman_found r), set_check_error (pacman_error r p) p, t)
    /\ requests_page_switch t = false
    /\ renders t = false
    /\ (forall e, r = ProcRaises e -> exists msg, t = [Log ERROR msg]).
Proof.
  destruct p. destruct r as [[cls msg] | stdout];
    [destruct cls | destruct (truthy stdout) eqn:Hs];
    unfold _check_pacman, _check_aur, _check_flatpak, try_except, run, pacman_found, lines_found;
    cbn; try rewrite Hs; cbn; eexists;
    (split; [reflexivity | split; [reflexivity | split; [reflexivity |]]]);
    intros e H; first [discriminate H | eexists; reflexivity].
Qed.

Lemma check_aur_run r p :
  exists t,
    _check_aur r p = (Ok (lines_found count_arrow_lines r), p, t)
    /\ requests_page_switch t = false
    /\ renders t = false.
Proof.
  destruct r as [[cls msg] | stdout];
    [destruct cls | destruct (truthy stdout) eqn:Hs];
    unfold _check_pacman, _check_aur, _check_flatpak, try_except, run, pacman_found, lines_found;
    unfold _check_pacman, _check_aur, _check_flatpak, try_except, run, lines_found;
    cbn; try rewrite Hs; cbn; eexists; repeat split.
Qed.

Lemma check_flatpak_run r p :
  exists t,
    _check_flatpak r p = (Ok (lines_found count_lines r), p, t)
    /\ requests_page_switch t = false
    /\ renders t = false.
Proof.
  destruct r as [[cls msg] | stdout];
    [destruct cls | destruct (truthy stdout) eqn:Hs];
    unfold _check_pacman, _check_aur, _check_flatpak, try_except, run, pacman_found, lines_found;
    unfold _check_pacman, _check_aur, _check_flatpak, try_except, run, lines_found;
    cbn; try rewrite Hs; cbn; eexists; repeat split.
Qed.

Ltac run_check :=
  match goal with
  | |- context [_check_pacman ?r ?s] =>
      let t := fresh "t" in
      let E := fresh "E" in
      let P := fresh "P" in
      let R := fresh "R" in
      destruct (check_pacman_run r s) as (t & E & P & R & _);
      rewrite E; clear E; cbn
  | |- context [_check_aur ?r ?s] =>
      let t := fresh "t" in
      let E := fresh "E" in
      let P := fresh "P" in
      let R := fresh "R" in
      destruct (check_aur_run r s) as (t & E & P & R);
      rewrite E; clear E; cbn
  | |- context [_check_flatpak ?r ?s] =>
      let t := fresh "t" in
      let E := fresh "E" in
      let P := fresh "P" in
      let R := fresh "R" in
      destruct (check_flatpak_run r s) as (t & E & P & R);
      rewrite E; clear E; cbn
  end.

Opaque _check_pacman _check_aur _check_flatpak.
Lemma check_updates_body_run pacman aur flatpak p :
  exists t,
    check_updates_body pacman aur flatpak p =
      (Ok tt, counted pacman aur flatpak p, t)
    /\ requests_page_switch t = notifies (total_found pacman aur flatpak p) p
    /\ renders t = false.
Proof.
  unfold counted, notifies, total_found, aur_found, flatpak_found.
  destruct p. unfold check_updates_body, bind. cbn.
  run_check.
  destruct (truthy aur_check_command0); cbn; [run_check |];
  (destruct flatpak_check0; cbn; [run_check |]).
  all: repeat match goal with
       | |- context [if ?b then _ else _] => destruct b eqn:?
       | |- context [when ?b _] => destruct b eqn:?; cbn
       end.
  all: eexists; split;
    [ unfold pacman_error; cbn; reflexivity
    | unfold requests_page_switch, renders in *; cbn;
      repeat (rewrite existsb_app; cbn);
      rewrite ?P, ?P0, ?P1, ?R, ?R0, ?R1; cbn; split; reflexivity ].
Qed.
Transparent _check_pacman _check_aur _check_flatpak.

(** [_check_updates] around a body that returns. *)
Lemma guarded_check_ok body p q t :
  body (set_check_error None (set_is_checking true p)) = (Ok tt, q, t) ->
  guarded_check body p =
    (Ok tt, set_is_checking false q,
     (t ++ [UpdateImageRender (display (set_is_checking false q))])%list).
Proof.
  intros H. unfold guarded_check, bind, try_finally, try_except, modify.
  rewrite H. reflexivity.
Qed.

(** [_check_updates] around any body, returning or raising. *)
Lemma guarded_check_any body p :
  exists q t,
    guarded_check body p =
      (Ok tt, set_is_checking false q,
       (t ++ [UpdateImageRender (display (set_is_checking false q))])%list).
Proof.
  unfold guarded_check, bind, try_finally, try_except, modify.
  destruct (body (set_check_error None (set_is_checking true p)))
    as [[[[] | e] q] t].
  - exists q, t. reflexivity.
  - exists (set_check_error (Some (exn_str e)) q),
      (t ++ [Log ERROR ("Failed to check updates: " ++ exn_str e)])%list.
    reflexivity.
Qed.

Lemma check_updates_run pacman aur flatpak p :
  exists t,
    _check_updates pacman aur flatpak p =
      (Ok tt, checked pacman aur flatpak p,
       (t ++ [UpdateImageRender (display (checked pacman aur flatpak p))])%list)
    /\ requests_page_switch t = notifies (total_found pacman aur flatpak p) p
    /\ renders t = false.
Proof.
  destruct (check_updates_body_run pacman aur flatpak
              (set_check_error None (set_is_checking true p)))
    as (t & E & P & R).
  exists t. split; [| split; [| exact R]].
  - unfold _check_updates. rewrite (guarded_check_ok _ _ _ _ E). reflexivity.
  - rewrite P. destruct p; reflexivity.
Qed.

End ArchUpdateFacts.

(** ** Facts about configuration updates *)

Section AlertManagerConfig.
Import AlertManager.

(** The assignments touch the settings only, emit nothing, and either
    run to their end or raise what [int] raised. *)
Lemma am_apply_config_shape (c : config int_arg) (p : AlertManagerPlugin) :
  let x := apply_config c p in
  trace_of x = []
  /\ (outcome_of x = Ok tt \/ exists e, outcome_of x = Raise e)
  /\ last_alert_count (state_of x) = last_alert_count p
  /\ current_alert_count (state_of x) = current_alert_count p
  /\ last_poll_time (state_of x) = last_poll_time p
  /\ is_flashing (state_of x) = is_flashing p
  /\ flash_state (state_of x) = flash_state p
  /\ flash_start_time (state_of x) = flash_start_time p.
Proof.
  destruct p. destruct c as [u n pi fd bc cc ck ca cp at' un pw bt].
  destruct pi as [[i | e] |]; destruct fd as [[j | e'] |]; cbn;
    repeat split; eauto.
Qed.

Lemma am_apply_config_accepted (c : config Z) (p : AlertManagerPlugin) :
  apply_config (am_accepted c) p = (Ok tt, am_configured c p, []).
Proof.
  destruct p. destruct c as [u n pi fd bc cc ck ca cp at' un pw bt].
  destruct pi, fd; reflexivity.
Qed.

Lemma on_config_update_run c response now (p : AlertManagerPlugin) :
  let q := state_of (apply_config c p) in
  let x := _poll_alertmanager response now q in
  on_config_update c response now p =
    match outcome_of (apply_config c p) with
    | Ok _ =>
        (Ok tt, state_of x,
         Log INFO "Configuration updated"
         :: (trace_of x ++ [UpdateImageRender (display (state_of x))])%list)
    | Raise e => (Raise e, q, [Log INFO "Configuration updated"])
    end.
Proof.
  cbv zeta. unfold on_config_update, bind, log, emit.
  destruct (am_apply_config_shape c p) as (Ht & _). cbv zeta in Ht.
  destruct (apply_config c p) as [[r q] t]. cbn in Ht. subst t.
  cbn [outcome_of state_of fst snd]. destruct r as [[] | e]; [| reflexivity].
  pose proof (poll_returns response now q) as Hr.
  destruct (_poll_alertmanager response now q) as [[r q'] t].
  cbn in Hr. subst r. reflexivity.
Qed.

End AlertManagerConfig.

Section ArchConfig.
Import ArchUpdate.

Lemma arch_apply_config_shape (c : config int_arg) (a : ArchUpdatePlugin) :
  let x := apply_config c a in
  trace_of x = []
  /\ (outcome_of x = Ok tt \/ exists e, outcome_of x = Raise e)
  /\ last_check_time (state_of x) = last_check_time a
  /\ last_update_count (state_of x) = last_update_count a
  /\ current_update_count (state_of x) = current_update_count a
  /\ pacman_updates (state_of x) = pacman_updates a
  /\ aur_updates (state_of x) = aur_updates a
  /\ flatpak_updates (state_of x) = flatpak_updates a
  /\ check_error (state_of x) = check_error a
  /\ is_checking (state_of x) = is_checking a.
Proof.
  destruct a. destruct c as [cc ac fc uc te tf ci nu nd sc sn].
  destruct ci as [[i | e] |]; destruct nd as [[j | e'] |]; cbn;
    repeat split; eauto.
Qed.

Lemma arch_apply_config_accepted (c : config Z) (a : ArchUpdatePlugin) :
  apply_config (arch_accepted c) a = (Ok tt, arch_configured c a, []).
Proof.
  destruct a. destruct c as [cc ac fc uc te tf ci nu nd sc sn].
  destruct ci, nd; reflexivity.
Qed.

Lemma arch_on_config_update_run c pacman aur flatpak (a : ArchUpdatePlugin) :
  let q := state_of (apply_config c a) in
  exists t,
    on_config_update c pacman aur flatpak a =
      match outcome_of (apply_config c a) with
      | Ok _ =>
          (Ok tt, checked pacman aur flatpak q,
           (Log INFO "Configuration updated"
            :: (t ++ [UpdateImageRender (display (checked pacman aur flatpak q))])
               ++ [UpdateImageRender (display (checked pacman aur flatpak q))])%list)
      | Raise e => (Raise e, q, [Log INFO "Configuration updated"])
      end
    /\ requests_page_switch t = notifies (total_found pacman aur flatpak q) q
    /\ renders t = false.
Proof.
  cbv zeta.
  destruct (check_updates_run pacman aur flatpak (state_of (apply_config c a)))
    as (t & E & Hs & Hr).
  exists t. split; [| split; assumption].
  unfold on_config_update, bind, log, emit.
  destruct (arch_apply_config_shape c a) as (Ht & _). cbv zeta in Ht.
  destruct (apply_config c a) as [[r q] t0]. cbn in Ht. subst t0.
  cbn [outcome_of state_of fst snd] in *. destruct r as [[] | e]; [| reflexivity].
  rewrite E. reflexivity.
Qed.

End ArchConfig.

(** ** The poll commits the count it observed *)

Section PollCommits.
Import AlertManager.

Lemma poll_counts response now p :
  let p' := state_of (_poll_alertmanager response now p) in
  match response with
  | HttpAlerts alerts =>
      current_alert_count p' = firing_count alerts
      /\ last_alert_count p' = current_alert_count p'
  | HttpRaises _ => p' = p
  end.
Proof.
  destruct response as [e | alerts]; cbv zeta.
  - destruct (poll_failure e now p) as [msg ->]. reflexivity.
  - destruct (poll_success alerts now p) as (t & -> & _).
    cbn. destruct (raises_attention _ p); split; reflexivity.
Qed.

Lemma poll_run_counts polls :
  forall p,
    last_alert_count p = current_alert_count p ->
    last_alert_count (poll_run polls p) = current_alert_count (poll_run polls p).
Proof.
  induction polls as [| [response now] rest IH]; intros p Hp; cbn [poll_run].
  - exact Hp.
  - apply IH. pose proof (poll_counts response now p) as H. cbv zeta in H.
    destruct response as [e | alerts].
    + rewrite H. exact Hp.
    + apply H.
Qed.
End PollCommits.

(** C1, as the code has it.  After a successful AlertManager poll the
    stored previous count equals the count that poll observed; a failed
    AlertManager poll leaves the plugin, and so both counts, as they were;
    hence after every sequence of polls from start the two counts agree.
    In the Arch update plugin a sub-source whose command times out or
    fails does not fail the check: it contributes zero, and after the
    check both counts equal the sum of what the sub-sources contributed. *)
Theorem previous_count_follows_poll :
  forall (p : AlertManager.AlertManagerPlugin) response now
         (polls : list (AlertManager.http_outcome * Q)) c path present
         (a : ArchUpdate.ArchUpdatePlugin) pacman aur flatpak e,
    let p' := state_of (AlertManager._poll_alertmanager response now p) in
    let a' := state_of (ArchUpdate._check_updates pacman aur flatpak a) in
    let q := AlertManager.poll_run polls (AlertManager.init c path present) in
    match response with
    | AlertManager.HttpAlerts alerts =>
        AlertManager.current_alert_count p' = AlertManager.firing_count alerts
        /\ AlertManager.last_alert_count p' = AlertManager.current_alert_count p'
    | AlertManager.HttpRaises _ =>
        AlertManager.current_alert_count p' = AlertManager.current_alert_count p
        /\ AlertManager.last_alert_count p' = AlertManager.last_alert_count p
    end
    /\ AlertManager.last_alert_count q = AlertManager.current_alert_count q
    /\ ArchUpdate.last_update_count a' = ArchUpdate.current_update_count a'
    /\ ArchUpdate.current_update_count a' = total_found pacman aur flatpak a
    /\ total_found (ProcRaises e) aur flatpak a
       = aur_found aur a + flatpak_found flatpak a.
Proof.
  intros. repeat split.
  - pose proof (poll_counts response now p) as H. cbv zeta in H.
    subst p'. destruct response as [e0 | alerts]; [rewrite H; auto | exact H].
  - apply poll_run_counts. reflexivity.
  - subst a'. destruct (check_updates_run pacman aur flatpak a) as (t & -> & _).
    reflexivity.
  - subst a'. destruct (check_updates_run pacman aur flatpak a) as (t & -> & _).
    cbn. destruct a; reflexivity.
Qed.

(** C1 fails where it asks that a sub-source timeout leave the counts
    untouched: after a check that found five updates, a check whose pacman
    command times out stores zero in both counts. *)
Lemma pacman_timeout_resets_counts :
  let before := arch_after 5 ArchUpdate.fresh in
  let after :=
    state_of (ArchUpdate._check_updates ArchUpdate.timed_out ArchUpdate.quiet
                ArchUpdate.quiet before) in
  ArchUpdate.current_update_count before = 5
  /\ ArchUpdate.last_update_count before = 5
  /\ ArchUpdate.current_update_count after = 0
  /\ ArchUpdate.last_update_count after = 0
  /\ ~ (ArchUpdate.current_update_count after = ArchUpdate.current_update_count before
        /\ ArchUpdate.last_update_count after = ArchUpdate.last_update_count before).
Proof.
  repeat split; try (vm_compute; reflexivity).
  intros [H _]. vm_compute in H. discriminate H.
Qed.

(** ** Attention on an increase *)

Lemma existsb_snoc_render (f : event -> bool) t r :
  List.existsb f (t ++ [UpdateImageRender r])%list
  = List.existsb f t || f (UpdateImageRender r).
Proof. rewrite existsb_app. cbn. rewrite orb_false_r. reflexivity. Qed.

(** C2, as the code has it.  With a positive stored count, a successful
    AlertManager poll enters attention mode (it requests a page switch for
    the flash duration and sets [is_flashing] and [flash_state]) exactly
    when the count it observes is greater than the stored one; the first
    successful poll after start raises no attention.  An Arch update check
    requests a page switch exactly when an earlier check has stored a
    count, the new total is greater than it, and [notify_on_updates] is
    on; so it does when a stored count of zero rises, and does not on the
    first check. *)
Theorem attention_on_increase :
  forall (p : AlertManager.AlertManagerPlugin) alerts now c path present
         (a : ArchUpdate.ArchUpdatePlugin) pacman aur flatpak,
    let n := AlertManager.firing_count alerts in
    let x := AlertManager._poll_alertmanager (AlertManager.HttpAlerts alerts) now p in
    let first := AlertManager._poll_alertmanager (AlertManager.HttpAlerts alerts)
                   now (AlertManager.init c path present) in
    let y := ArchUpdate._check_updates pacman aur flatpak a in
    let total := total_found pacman aur flatpak a in
    (0 < AlertManager.last_alert_count p ->
     (requests_page_switch (trace_of x) = true
      <-> n > AlertManager.last_alert_count p)
     /\ (n > AlertManager.last_alert_count p ->
         In (RequestPageSwitch (AlertManager.flash_duration p)) (trace_of x)
         /\ AlertManager.is_flashing (state_of x) = true
         /\ AlertManager.flash_state (state_of x) = true))
    /\ (requests_page_switch (trace_of first) = false
        /\ AlertManager.is_flashing (state_of first) = false)
    /\ (requests_page_switch (trace_of y) = true
        <-> 0 <= ArchUpdate.last_update_count a
            /\ total > ArchUpdate.last_update_count a
            /\ ArchUpdate.notify_on_updates a = true).
Proof.
  intros. split; [| split].
  - intros Hset.
    assert (Hn : raises_attention n p = (n >? AlertManager.last_alert_count p)).
    { unfold raises_attention.
      replace (AlertManager.last_alert_count p >? 0) with true
        by (symmetry; apply Z.gtb_lt; lia).
      apply andb_true_r. }
    destruct (poll_success alerts now p) as (t & E & Hsw & Hin & _).
    fold n in E, Hsw, Hin. subst x. rewrite E. cbn [trace_of state_of fst snd].
    split.
    + rewrite Hsw, Hn. rewrite Z.gtb_lt. lia.
    + intros Hgt.
      assert (Ha : raises_attention n p = true)
        by (rewrite Hn; apply Z.gtb_lt; lia).
      split; [exact (Hin Ha) |]. rewrite Ha. split; reflexivity.
  - subst first.
    destruct (poll_success alerts now (AlertManager.init c path present))
      as (t1 & E1 & Hsw1 & _).
    rewrite E1. cbn [trace_of state_of fst snd]. rewrite Hsw1.
    unfold raises_attention. cbn. rewrite andb_false_r. split; reflexivity.
  - subst y. destruct (check_updates_run pacman aur flatpak a) as (t2 & E2 & Hsw2 & _).
    rewrite E2. cbn [trace_of snd]. unfold requests_page_switch in *.
    rewrite existsb_snoc_render, Hsw2, orb_false_r. fold total.
    unfold notifies. rewrite !andb_true_iff, Z.geb_le, !Z.gtb_lt.
    split; [intros [[H1 [H2 H3]] H4] | intros (H1 & H2 & H3)]; repeat split;
      auto; lia.
Qed.

Lemma attention_on_increase_witness :
  0 < AlertManager.last_alert_count alerted
  /\ requests_page_switch
       (trace_of (AlertManager._poll_alertmanager (AlertManager.firing 3) 4%Q alerted))
     = true.
Proof.
  assert (H : 0 < AlertManager.last_alert_count alerted) by (vm_compute; reflexivity).
  split; [exact H |].
  apply (proj1 (proj1 (attention_on_increase alerted
                         (List.repeat (AlertManager.mkAlert (Some "active")) 3)
                         4%Q AlertManager.default_config "icon.png" false
                         ArchUpdate.fresh ArchUpdate.quiet ArchUpdate.quiet
                         ArchUpdate.quiet) H)).
  vm_compute. reflexivity.
Defined.

(** C2 fails where a page switch is switched off by configuration: the
    plugin has stored a count of two, the next check finds five, and no
    page switch is requested. *)
Lemma silent_plugin_requests_no_page_switch :
  let before := arch_after 2 ArchUpdate.silent in
  let y := ArchUpdate._check_updates (ProcCompleted (ArchUpdate.pending 5))
             ArchUpdate.quiet ArchUpdate.quiet before in
  ArchUpdate.last_update_count before = 2
  /\ ArchUpdate.current_update_count (state_of y) = 5
  /\ requests_page_switch (trace_of y) = false.
Proof. vm_compute. repeat split. Qed.

(** ** Expiry of the attention window *)

(** C3.  On a tick made while attention mode is active, attention mode is
    still active when the tick reaches its expiry check, and the tick
    clears it exactly when [current_time - flash_start_time >=
    flash_duration]; it stays active exactly when the difference is
    smaller.  The start of the window the check reads is the stored one,
    unless the poll of this same tick has restarted it; when no poll is
    due it is the stored one. *)
Theorem flash_clears_at_expiry :
  forall (p : AlertManager.AlertManagerPlugin) current_time response poll_now
         (Hflash : AlertManager.is_flashing p = true),
    let p1 := state_of (AlertManager.poll_phase current_time response poll_now p) in
    let p' := state_of (AlertManager.update current_time response poll_now p) in
    AlertManager.is_flashing p1 = true
    /\ (AlertManager.is_flashing p' = false
        <-> (inject_Z (AlertManager.flash_duration p)
             <= current_time - AlertManager.flash_start_time p1)%Q)
    /\ (AlertManager.is_flashing p' = true
        <-> (current_time - AlertManager.flash_start_time p1
             < inject_Z (AlertManager.flash_duration p))%Q)
    /\ (elapsed current_time (AlertManager.last_poll_time p)
          (AlertManager.poll_interval p) = false ->
        AlertManager.flash_start_time p1 = AlertManager.flash_start_time p)
    /\ (AlertManager.flash_start_time p1 = AlertManager.flash_start_time p
        \/ AlertManager.flash_start_time p1 = poll_now).
Proof.
  intros.
  assert (H1 : AlertManager.is_flashing p1 = true).
  { subst p1. rewrite poll_phase_run.
    destruct (elapsed current_time (AlertManager.last_poll_time p) _);
      cbn [state_of fst snd]; [| exact Hflash].
    apply (poll_keeps_flashing response poll_now p Hflash). }
  assert (Hd : AlertManager.flash_duration p1 = AlertManager.flash_duration p).
  { subst p1. rewrite poll_phase_run.
    destruct (elapsed current_time (AlertManager.last_poll_time p) _);
      cbn [state_of fst snd]; [| reflexivity].
    apply (poll_keeps_flash_duration response poll_now p). }
  assert (Hp' : AlertManager.is_flashing p'
                = negb (elapsed current_time (AlertManager.flash_start_time p1)
                          (AlertManager.flash_duration p))).
  { subst p'. rewrite update_run. cbv zeta. fold p1.
    rewrite flash_phase_run, H1, Hd. cbn [state_of fst snd].
    destruct (elapsed current_time (AlertManager.flash_start_time p1) _);
      [reflexivity |].
    cbn. exact H1. }
  clear Hd. split; [exact H1 |]. split; [| split; [| split]].
  - rewrite Hp', negb_false_iff. apply elapsed_iff.
  - rewrite Hp', negb_true_iff. rewrite <- not_true_iff_false, elapsed_iff.
    split; [apply Qnot_le_lt | apply Qlt_not_le].
  - intros Hno. subst p1. rewrite poll_phase_run, Hno. reflexivity.
  - subst p1. rewrite poll_phase_run.
    destruct (elapsed current_time (AlertManager.last_poll_time p) _);
      cbn [state_of fst snd]; [| left; reflexivity].
    change (AlertManager.flash_start_time
              (AlertManager.set_last_poll_time current_time ?q))
      with (AlertManager.flash_start_time q).
    rewrite poll_flash_start.
    destruct response as [e | alerts]; [left; reflexivity |].
    destruct (raises_attention _ p); [right | left]; reflexivity.
Qed.

(** Flashing since time 2 with a flash duration of 10: the tick at 12.1
    ends attention mode, the tick at 11.9 does not. *)
Lemma flash_clears_at_expiry_witness :
  AlertManager.is_flashing alerted = true
  /\ AlertManager.is_flashing
       (state_of (AlertManager.update (121 # 10) (AlertManager.firing 2)
                    (121 # 10) alerted)) = false
  /\ AlertManager.is_flashing
       (state_of (AlertManager.update (119 # 10) (AlertManager.firing 2)
                    (119 # 10) alerted)) = true.
Proof.
  assert (H : AlertManager.is_flashing alerted = true) by reflexivity.
  split; [exact H |]. split.
  - apply (proj1 (proj2 (flash_clears_at_expiry alerted (121 # 10)
                           (AlertManager.firing 2) (121 # 10) H))).
    vm_compute. discriminate.
  - apply (proj1 (proj2 (proj2 (flash_clears_at_expiry alerted (119 # 10)
                                  (AlertManager.firing 2) (119 # 10) H)))).
    vm_compute. reflexivity.
Defined.

(** ** Acknowledging with the button *)

(** When the browser starts, a press ends attention mode and renders the
    count view; a press outside attention mode changes nothing. *)
Lemma button_press_acknowledges (p : AlertManager.AlertManagerPlugin) :
  let x := AlertManager.on_button_pressed None p in
  AlertManager.is_flashing (state_of x) = false
  /\ (AlertManager.is_flashing p = true ->
      ends_with_render (AlertManager.display (state_of x)) (trace_of x))
  /\ (AlertManager.is_flashing p = false -> state_of x = p).
Proof.
  destruct p as [url env pi fd bc au lc cc lp fl fs fst' ip ie].
  destruct bc; destruct fl; cbn;
    (split; [reflexivity |]);
    (split; [intros H; try discriminate H | intros H; try discriminate H; reflexivity]);
    eexists (_ :: _ :: nil); reflexivity.
Qed.

(** C6 at its failing input.  The plugin is in attention mode and its
    configured browser command does not exist, so [subprocess.Popen]
    raises: the press logs the failure and returns with attention mode
    still active and without a render. *)
Theorem failed_launch_keeps_flashing :
  let x := AlertManager.on_button_pressed (Some no_such_file)
             alerted_without_browser in
  AlertManager.is_flashing alerted_without_browser = true
  /\ outcome_of x = Ok tt
  /\ state_of x = alerted_without_browser
  /\ AlertManager.is_flashing (state_of x) = true
  /\ renders (trace_of x) = false
  /\ trace_of x =
       [Log INFO "Button pressed, opening AlertManager";
        Log ERROR "Failed to open browser: [Errno 2] No such file or directory"].
Proof. vm_compute. repeat split. Qed.

(** ** A further increase while attention mode is active *)

(** With a positive stored count, a poll that finds more alerts while
    attention mode is active restarts the window at the reading of the
    poll and requests the page switch again. *)
Lemma poll_restarts_window (p : AlertManager.AlertManagerPlugin) alerts now :
  AlertManager.is_flashing p = true ->
  0 < AlertManager.last_alert_count p ->
  AlertManager.firing_count alerts > AlertManager.last_alert_count p ->
  let x := AlertManager._poll_alertmanager (AlertManager.HttpAlerts alerts) now p in
  AlertManager.flash_start_time (state_of x) = now
  /\ AlertManager.is_flashing (state_of x) = true
  /\ In (RequestPageSwitch (AlertManager.flash_duration p)) (trace_of x).
Proof.
  intros Hf Hpos Hgt x. subst x.
  destruct (poll_success alerts now p) as (t & E & _ & Hin & _).
  assert (Ha : raises_attention (AlertManager.firing_count alerts) p = true).
  { unfold raises_attention. apply andb_true_iff.
    split; apply Z.gtb_lt; lia. }
  rewrite E, Ha. cbn. repeat split. exact (Hin Ha).
Qed.

(** C7 at its failing input.  Attention mode is active since time 2 (one
    alert, then two); a poll at time 3 finds no alert and stores zero; the
    poll at time 4 finds three alerts, more than the stored count, and
    neither restarts the window nor requests a page switch. *)
Theorem increase_from_zero_keeps_window :
  let x := AlertManager._poll_alertmanager (AlertManager.firing 3) 4%Q
             alerted_then_clear in
  AlertManager.is_flashing alerted_then_clear = true
  /\ AlertManager.last_alert_count alerted_then_clear = 0
  /\ AlertManager.current_alert_count (state_of x) = 3
  /\ AlertManager.is_flashing (state_of x) = true
  /\ AlertManager.flash_start_time (state_of x) = 2%Q
  /\ AlertManager.flash_start_time (state_of x) <> 4%Q
  /\ requests_page_switch (trace_of x) = false.
Proof. vm_compute. repeat split. discriminate. Qed.

(** ** The count view of the AlertManager plugin *)

(** C9.  The render has white text; its background is red exactly in the
    flashing NEW! state; otherwise it shows the count on green for no
    alert, on orange for one to four, on orange-red for five or more. *)
Theorem count_view_colors :
  forall (p : AlertManager.AlertManagerPlugin),
    let r := AlertManager.display p in
    let n := AlertManager.current_alert_count p in
    font_color r = "#FFFFFF"
    /\ (background_color r = "#FF0000"
        <-> AlertManager.is_flashing p && AlertManager.flash_state p = true)
    /\ (AlertManager.is_flashing p && AlertManager.flash_state p = true ->
        text r = AlertManager.environment_name p ++ nl ++ nl ++ "NEW!")
    /\ (AlertManager.is_flashing p && AlertManager.flash_state p = false ->
        (n = 0 -> background_color r = "#2E7D32")
        /\ (1 <= n <= 4 -> background_color r = "#FFA500")
        /\ (5 <= n -> background_color r = "#FF4500")
        /\ background_color r <> "#FF0000"
        /\ text r = AlertManager.environment_name p ++ nl ++ nl
                    ++ str_of_int n ++ " alerts").
Proof.
  intros p r n. subst r. unfold AlertManager.display. fold n.
  destruct (AlertManager.is_flashing p && AlertManager.flash_state p).
  - cbn. repeat split; auto; discriminate.
  - cbn [font_color background_color text].
    destruct (n >? 0) eqn:H0; destruct (n >=? 5) eqn:H5;
      try (apply Z.gtb_lt in H0); try (apply Z.geb_le in H5);
      try (rewrite Z.gtb_ltb, Z.ltb_ge in H0);
      try (rewrite Z.geb_leb, Z.leb_gt in H5);
      repeat split; intros; try reflexivity; try discriminate; try lia.
Qed.

Lemma count_view_colors_witness :
  AlertManager.is_flashing ticked_once && AlertManager.flash_state ticked_once = false
  /\ 1 <= AlertManager.current_alert_count ticked_once <= 4
  /\ background_color (AlertManager.display ticked_once) = "#FFA500".
Proof.
  assert (H : AlertManager.is_flashing ticked_once
              && AlertManager.flash_state ticked_once = false) by reflexivity.
  assert (Hn : 1 <= AlertManager.current_alert_count ticked_once <= 4)
    by (vm_compute; split; discriminate).
  split; [exact H |]. split; [exact Hn |].
  exact (proj1 (proj2 (proj2 (proj2 (proj2 (count_view_colors ticked_once))) H)) Hn).
Defined.

(** ** When a tick renders *)

Section ArchTick.
Import ArchUpdate.

Lemma display_ignores_check_time t (a : ArchUpdatePlugin) :
  display (set_last_check_time t a) = display a.
Proof. destruct a; reflexivity. Qed.

(** The tick of the Arch update plugin. *)
Lemma arch_update_run t pacman aur flatpak (a : ArchUpdatePlugin) :
  exists tr,
    update t pacman aur flatpak a =
      if negb (is_checking a)
         && elapsed t (last_check_time a) (check_interval a)
      then (Ok tt, set_last_check_time t (checked pacman aur flatpak a),
            (tr ++ [UpdateImageRender (display (checked pacman aur flatpak a))])%list)
      else (Ok tt, a, []).
Proof.
  destruct (check_updates_run pacman aur flatpak a) as (tr & E & _).
  exists tr. unfold update, bind, get, when.
  destruct (negb (is_checking a)
            && elapsed t (last_check_time a) (check_interval a));
    [| reflexivity].
  rewrite E. cbn. rewrite !app_nil_r. reflexivity.
Qed.
End ArchTick.

(** C5, as the code has it.  A tick of the AlertManager plugin whose flash
    handling finds attention mode active ends with a render of the state
    it leaves; a tick of the Arch update plugin that runs a check ends with
    a render of the checked state.  A tick with no poll due and, for
    AlertManager, attention mode not active does nothing at all: no render
    and no change of state. *)
Theorem tick_renders_when_active :
  forall (p : AlertManager.AlertManagerPlugin) current_time response poll_now
         (a : ArchUpdate.ArchUpdatePlugin) t pacman aur flatpak,
    let p1 := state_of (AlertManager.poll_phase current_time response poll_now p) in
    let x := AlertManager.update current_time response poll_now p in
    let y := ArchUpdate.update t pacman aur flatpak a in
    (AlertManager.is_flashing p1 = true ->
     ends_with_render (AlertManager.display (state_of x)) (trace_of x))
    /\ (elapsed current_time (AlertManager.last_poll_time p)
          (AlertManager.poll_interval p) = false ->
        AlertManager.is_flashing p = false ->
        x = (Ok tt, p, []))
    /\ (ArchUpdate.is_checking a = false ->
        elapsed t (ArchUpdate.last_check_time a) (ArchUpdate.check_interval a) = true ->
        ends_with_render (ArchUpdate.display (state_of y)) (trace_of y))
    /\ (elapsed t (ArchUpdate.last_check_time a) (ArchUpdate.check_interval a) = false ->
        y = (Ok tt, a, [])).
Proof.
  intros. split; [| split; [| split]].
  - intros H1. subst x. rewrite update_run. cbv zeta. fold p1.
    cbn [state_of trace_of fst snd].
    rewrite flash_phase_run, H1. cbn [state_of trace_of fst snd].
    eexists. rewrite app_assoc. reflexivity.
  - intros Hno Hf. subst x. rewrite update_run. cbv zeta.
    rewrite poll_phase_run, Hno. cbn [state_of trace_of fst snd].
    rewrite flash_phase_run, Hf. reflexivity.
  - intros Hc He. subst y.
    destruct (arch_update_run t pacman aur flatpak a) as (tr & ->).
    rewrite Hc, He. cbn [negb andb state_of trace_of fst snd].
    rewrite display_ignores_check_time. exists tr. reflexivity.
  - intros He. subst y.
    destruct (arch_update_run t pacman aur flatpak a) as (tr & ->).
    rewrite He, andb_false_r. reflexivity.
Qed.

Lemma tick_renders_when_active_witness :
  renders (trace_of (AlertManager.update 5%Q (AlertManager.firing 2) 5%Q alerted))
  = true
  /\ AlertManager.update 101%Q (AlertManager.firing 3) 101%Q ticked_once
     = (Ok tt, ticked_once, [])
  /\ renders (trace_of (ArchUpdate.update 3600%Q ArchUpdate.quiet ArchUpdate.quiet
                          ArchUpdate.quiet ArchUpdate.fresh)) = true
  /\ ArchUpdate.update 10%Q ArchUpdate.quiet ArchUpdate.quiet ArchUpdate.quiet
       ArchUpdate.fresh = (Ok tt, ArchUpdate.fresh, []).
Proof.
  pose proof (tick_renders_when_active alerted 5%Q (AlertManager.firing 2) 5%Q
                ArchUpdate.fresh 3600%Q ArchUpdate.quiet ArchUpdate.quiet
                ArchUpdate.quiet) as (H1 & _ & H3 & _).
  pose proof (tick_renders_when_active ticked_once 101%Q (AlertManager.firing 3)
                101%Q ArchUpdate.fresh 10%Q ArchUpdate.quiet ArchUpdate.quiet
                ArchUpdate.quiet) as (_ & H2 & _ & H4).
  split; [| split; [| split]].
  - destruct (H1 eq_refl) as [t0 ->]. unfold renders.
    rewrite existsb_snoc_render. apply orb_true_r.
  - apply H2; reflexivity.
  - destruct (H3 eq_refl eq_refl) as [t0 ->]. unfold renders.
    rewrite existsb_snoc_render. apply orb_true_r.
  - apply H4; reflexivity.
Defined.

(** C5 fails on a tick with nothing to do: the AlertManager plugin, one
    second after a poll and outside attention mode, renders nothing, and
    neither does the Arch update plugin between two checks. *)
Lemma idle_tick_renders_nothing :
  renders (trace_of (AlertManager.update 101%Q (AlertManager.firing 3) 101%Q
                       ticked_once)) = false
  /\ renders (trace_of (ArchUpdate.update 10%Q ArchUpdate.quiet ArchUpdate.quiet
                          ArchUpdate.quiet (arch_after 0 ArchUpdate.fresh))) = false.
Proof. vm_compute. split; reflexivity. Qed.

(** ** Source errors *)

Section ArchErrors.
Import ArchUpdate.

Lemma check_pacman_raises e (a : ArchUpdatePlugin) :
  exists msg,
    _check_pacman (ProcRaises e) a =
      (Ok 0, set_check_error (pacman_error (ProcRaises e) a) a,
       [Log ERROR msg]).
Proof.
  destruct (check_pacman_run (ProcRaises e) a) as (t & E & _ & _ & H).
  destruct (H e eq_refl) as [msg ->]. exists msg. exact E.
Qed.

Lemma checked_error pacman aur flatpak (a : ArchUpdatePlugin) :
  check_error (checked pacman aur flatpak a) =
    match pacman with
    | ProcRaises e =>
        match exn_cls e with
        | FileNotFoundError => Some ("Command not found: " ++ check_command a)
        | _ => None
        end
    | ProcCompleted _ => None
    end.
Proof.
  destruct a. destruct pacman as [[cls msg] | stdout]; [destruct cls |];
    reflexivity.
Qed.

Lemma display_without_error (a : ArchUpdatePlugin) :
  check_error a = None -> background_color (display a) <> "#AA0000".
Proof.
  intros H. unfold display. rewrite H. cbn [truthy_opt].
  destruct (is_checking a); [cbn; discriminate |].
  destruct (last_update_count a <? 0); [cbn; discriminate |].
  destruct (current_update_count a =? 0); [cbn; discriminate |].
  cbn [background_color].
  destruct (current_update_count a >=? 20); [discriminate |].
  destruct (current_update_count a >=? 10); discriminate.
Qed.

Lemma display_with_error (a : ArchUpdatePlugin) msg :
  is_checking a = false ->
  check_error a = Some ("Command not found: " ++ msg) ->
  display a = status_render a "Error" "#AA0000".
Proof. intros Hc He. unfold display. rewrite Hc, He. reflexivity. Qed.
End ArchErrors.

(** C4, as the code has it.  A failed AlertManager poll, by timeout or by
    any other exception, leaves the plugin and so both counts as they
    were, and logs exactly one message, at error level; the poll renders
    nothing, and a later render shows what it showed before, as the
    AlertManager display has no error state.  In the Arch update plugin a
    failing pacman check logs exactly one message, at error level, and
    counts as zero updates; when the check command is not found the check
    ends with the Error display, and after any other failure, a timeout
    among them, it ends with a display that is not the Error display. *)
Theorem source_error_is_logged :
  forall (p : AlertManager.AlertManagerPlugin) e now
         (a : ArchUpdate.ArchUpdatePlugin) e' aur flatpak,
    let x := AlertManager._poll_alertmanager (AlertManager.HttpRaises e) now p in
    let y := ArchUpdate._check_updates (ProcRaises e') aur flatpak a in
    (exists msg, x = (Ok tt, p, [Log ERROR msg]))
    /\ AlertManager.display (state_of x) = AlertManager.display p
    /\ (exists msg,
          ArchUpdate._check_pacman (ProcRaises e') a =
            (Ok 0,
             ArchUpdate.set_check_error
               (ArchUpdate.pacman_error (ProcRaises e') a) a,
             [Log ERROR msg]))
    /\ ArchUpdate.pacman_updates (state_of y) = 0
    /\ ends_with_render (ArchUpdate.display (state_of y)) (trace_of y)
    /\ (exn_cls e' = FileNotFoundError ->
        ArchUpdate.display (state_of y)
        = ArchUpdate.status_render (state_of y) "Error" "#AA0000")
    /\ (exn_cls e' <> FileNotFoundError ->
        background_color (ArchUpdate.display (state_of y)) <> "#AA0000").
Proof.
  intros. subst x y.
  destruct (poll_failure e now p) as [msg E].
  destruct (check_updates_run (ProcRaises e') aur flatpak a) as (t & E' & _).
  rewrite E, E'. cbn [state_of trace_of fst snd].
  pose proof (checked_error (ProcRaises e') aur flatpak a) as Herr.
  cbv beta iota in Herr.
  repeat split.
  - exists msg. reflexivity.
  - apply check_pacman_raises.
  - exists t. reflexivity.
  - intros Hcls. rewrite Hcls in Herr.
    apply (display_with_error _ (ArchUpdate.check_command a)); [reflexivity | exact Herr].
  - intros Hcls. apply display_without_error. rewrite Herr.
    destruct (exn_cls e'); try reflexivity. contradiction Hcls; reflexivity.
Qed.

Lemma source_error_is_logged_witness :
  exn_cls no_such_file = FileNotFoundError
  /\ text (ArchUpdate.display
             (state_of (ArchUpdate._check_updates (ProcRaises no_such_file)
                          ArchUpdate.quiet ArchUpdate.quiet ArchUpdate.fresh)))
     = "System" ++ nl ++ nl ++ "Error".
Proof.
  split; [reflexivity |].
  rewrite (proj1 (proj2 (proj2 (proj2 (proj2 (proj2
             (source_error_is_logged AlertManager.fresh request_timeout 0%Q
                ArchUpdate.fresh no_such_file ArchUpdate.quiet ArchUpdate.quiet))))))
           eq_refl).
  reflexivity.
Defined.

(** C4 fails where it asks for an Error display after a timeout.  After an
    AlertManager poll that timed out, the render shows the three alerts of
    the poll before it, as it did before the failure; after an Arch update
    check whose pacman command timed out, the render is the green
    up-to-date view and both counts, five before, are zero. *)
Lemma timeout_shows_no_error :
  let p' := state_of (AlertManager._poll_alertmanager
                        (AlertManager.HttpRaises request_timeout) 130%Q
                        ticked_once) in
  let a' := state_of (ArchUpdate._check_updates ArchUpdate.timed_out
                        ArchUpdate.quiet ArchUpdate.quiet
                        (arch_after 5 ArchUpdate.fresh)) in
  AlertManager.display p' = AlertManager.display ticked_once
  /\ text (AlertManager.display p') = "Unknown" ++ nl ++ nl ++ "3 alerts"
  /\ text (ArchUpdate.display a') = "System" ++ nl ++ nl ++ "Up to date"
  /\ background_color (ArchUpdate.display a') = "#2E7D32"
  /\ ArchUpdate.current_update_count a' = 0
  /\ ArchUpdate.last_update_count a' = 0.
Proof. vm_compute. repeat split. Qed.

(** ** The total of the three sub-sources *)

Section ArchTotal.
Import ArchUpdate.

Lemma lines_found_nonneg_lines r : 0 <= lines_found count_lines r.
Proof.
  destruct r as [e | stdout]; cbn; [lia |].
  destruct (truthy stdout); [apply Nat2Z.is_nonneg | lia].
Qed.

Lemma lines_found_nonneg_arrows r : 0 <= lines_found count_arrow_lines r.
Proof.
  destruct r as [e | stdout]; cbn; [lia |].
  destruct (truthy stdout); [apply Nat2Z.is_nonneg | lia].
Qed.

(** What [parts] holds: one entry for each sub-source with a positive
    count. *)
Lemma breakdown_members (a : ArchUpdatePlugin) x :
  In x (breakdown a) <->
    (x = "P:" ++ str_of_int (pacman_updates a) /\ 0 < pacman_updates a)
    \/ (x = "A:" ++ str_of_int (aur_updates a) /\ 0 < aur_updates a)
    \/ (x = "F:" ++ str_of_int (flatpak_updates a) /\ 0 < flatpak_updates a).
Proof.
  unfold breakdown. rewrite !in_app_iff.
  destruct (pacman_updates a >? 0) eqn:Hp;
    destruct (aur_updates a >? 0) eqn:Ha;
    destruct (flatpak_updates a >? 0) eqn:Hf;
    rewrite ?Z.gtb_lt in *; rewrite ?Z.gtb_ltb, ?Z.ltb_ge in *; cbn;
    intuition (subst; auto; try lia).
Qed.

Lemma checked_counts pacman aur flatpak (a : ArchUpdatePlugin) :
  let a' := checked pacman aur flatpak a in
  pacman_updates a' = pacman_found pacman
  /\ aur_updates a' = aur_found aur a
  /\ flatpak_updates a' = flatpak_found flatpak a
  /\ current_update_count a' = total_found pacman aur flatpak a.
Proof. destruct a. repeat split. Qed.

Lemma gtb_nonzero n : 0 <= n -> (n >? 0) = negb (n =? 0).
Proof.
  intros H. destruct (Z.eqb_spec n 0) as [-> | Hn]; cbn; [reflexivity |].
  apply Z.gtb_lt. lia.
Qed.

Lemma breakdown_nonzero (a : ArchUpdatePlugin) :
  0 <= pacman_updates a -> 0 <= aur_updates a -> 0 <= flatpak_updates a ->
  breakdown a = nonzero_parts a.
Proof.
  intros Hp Hu Hf. unfold breakdown, nonzero_parts.
  cbn [List.filter List.map fst snd].
  rewrite (gtb_nonzero _ Hp), (gtb_nonzero _ Hu), (gtb_nonzero _ Hf).
  destruct (pacman_updates a =? 0), (aur_updates a =? 0),
    (flatpak_updates a =? 0); reflexivity.
Qed.

(** The text of the count view after a check. *)
Lemma checked_count_text pacman aur flatpak (a : ArchUpdatePlugin) :
  let a' := checked pacman aur flatpak a in
  check_error a' = None ->
  current_update_count a' <> 0 ->
  text (display a')
  = system_name a ++ nl ++ nl
    ++ str_of_int (current_update_count a') ++ " update"
    ++ (if current_update_count a' =? 1 then EmptyString else "s")
    ++ (if (1 <? List.length (breakdown a'))%nat
        then nl ++ "(" ++ join " " (breakdown a') ++ ")"
        else EmptyString).
Proof.
  cbv zeta. intros He Hn. unfold display.
  change (is_checking (checked pacman aur flatpak a)) with false.
  rewrite He. cbn [truthy_opt].
  assert (Hl : last_update_count (checked pacman aur flatpak a)
               = total_found pacman aur flatpak a) by (destruct a; reflexivity).
  assert (H0 : 0 <= total_found pacman aur flatpak a).
  { unfold total_found, pacman_found, aur_found, flatpak_found.
    pose proof (lines_found_nonneg_lines pacman).
    pose proof (lines_found_nonneg_arrows aur).
    pose proof (lines_found_nonneg_lines flatpak).
    destruct (truthy _), (flatpak_check a); lia. }
  replace (last_update_count (checked pacman aur flatpak a) <? 0) with false
    by (symmetry; apply Z.ltb_ge; rewrite Hl; exact H0).
  replace (current_update_count (checked pacman aur flatpak a) =? 0) with false
    by (symmetry; apply Z.eqb_neq; exact Hn).
  cbn [text]. destruct a; reflexivity.
Qed.
End ArchTotal.

(** C8.  After a check the total equals the sum of the pacman, AUR and
    Flatpak counts, each being what its sub-source found, and zero for a
    sub-source that is not configured; every entry of the breakdown names
    a sub-source whose count is not zero, and after a check every
    sub-source whose count is not zero has its entry.  With five pacman
    updates, two AUR updates and no Flatpak update the total is 7 and the
    display reads [7 updates] over [(P:5 A:2)].  In general the breakdown
    is the list of the sub-sources whose count is not zero, in the order
    pacman, AUR, Flatpak, and the text of the count view after a check
    ends with exactly that list, between brackets and separated by
    spaces, when it has two entries or more, and with no breakdown line
    otherwise. *)
Theorem total_is_sum_of_sources :
  forall (a : ArchUpdate.ArchUpdatePlugin) pacman aur flatpak x,
    let a' := state_of (ArchUpdate._check_updates pacman aur flatpak a) in
    let s := state_of (ArchUpdate._check_updates
                         (ProcCompleted (ArchUpdate.pending 5))
                         (ProcCompleted (ArchUpdate.pending 2))
                         ArchUpdate.quiet ArchUpdate.three_sources) in
    ArchUpdate.current_update_count a'
      = ArchUpdate.pacman_updates a' + ArchUpdate.aur_updates a'
        + ArchUpdate.flatpak_updates a'
    /\ ArchUpdate.pacman_updates a' = pacman_found pacman
    /\ ArchUpdate.aur_updates a' = aur_found aur a
    /\ ArchUpdate.flatpak_updates a' = flatpak_found flatpak a
    /\ (In x (ArchUpdate.breakdown a') ->
        (x = "P:" ++ str_of_int (ArchUpdate.pacman_updates a')
         /\ ArchUpdate.pacman_updates a' <> 0)
        \/ (x = "A:" ++ str_of_int (ArchUpdate.aur_updates a')
            /\ ArchUpdate.aur_updates a' <> 0)
        \/ (x = "F:" ++ str_of_int (ArchUpdate.flatpak_updates a')
            /\ ArchUpdate.flatpak_updates a' <> 0))
    /\ (ArchUpdate.pacman_updates a' <> 0 ->
        In ("P:" ++ str_of_int (ArchUpdate.pacman_updates a')) (ArchUpdate.breakdown a'))
    /\ (ArchUpdate.aur_updates a' <> 0 ->
        In ("A:" ++ str_of_int (ArchUpdate.aur_updates a')) (ArchUpdate.breakdown a'))
    /\ (ArchUpdate.flatpak_updates a' <> 0 ->
        In ("F:" ++ str_of_int (ArchUpdate.flatpak_updates a')) (ArchUpdate.breakdown a'))
    /\ (ArchUpdate.pacman_updates s = 5 /\ ArchUpdate.aur_updates s = 2
        /\ ArchUpdate.flatpak_updates s = 0 /\ ArchUpdate.current_update_count s = 7
        /\ ArchUpdate.breakdown s = ["P:5"; "A:2"]
        /\ text (ArchUpdate.display s)
           = "System" ++ nl ++ nl ++ "7 updates" ++ nl ++ "(P:5 A:2)")
    /\ ArchUpdate.breakdown a' = nonzero_parts a'
    /\ (ArchUpdate.check_error a' = None ->
        ArchUpdate.current_update_count a' <> 0 ->
        text (ArchUpdate.display a')
        = ArchUpdate.system_name a ++ nl ++ nl
          ++ str_of_int (ArchUpdate.current_update_count a') ++ " update"
          ++ (if ArchUpdate.current_update_count a' =? 1 then EmptyString else "s")
          ++ (if (1 <? List.length (nonzero_parts a'))%nat
              then nl ++ "(" ++ join " " (nonzero_parts a') ++ ")"
              else EmptyString)).
Proof.
  intros.
  assert (Ha' : a' = checked pacman aur flatpak a).
  { subst a'. destruct (check_updates_run pacman aur flatpak a) as (t & -> & _).
    reflexivity. }
  destruct (checked_counts pacman aur flatpak a) as (Hp & Hu & Hf & Ht).
  cbv zeta in Hp, Hu, Hf, Ht. rewrite <- Ha' in Hp, Hu, Hf, Ht.
  assert (Hp0 : 0 <= ArchUpdate.pacman_updates a')
    by (rewrite Hp; apply lines_found_nonneg_lines).
  assert (Hu0 : 0 <= ArchUpdate.aur_updates a').
  { rewrite Hu. unfold aur_found.
    destruct (truthy _); [apply lines_found_nonneg_arrows | lia]. }
  assert (Hf0 : 0 <= ArchUpdate.flatpak_updates a').
  { rewrite Hf. unfold flatpak_found.
    destruct (ArchUpdate.flatpak_check a); [apply lines_found_nonneg_lines | lia]. }
  split; [rewrite Ht, Hp, Hu, Hf; reflexivity |].
  split; [exact Hp |]. split; [exact Hu |]. split; [exact Hf |].
  assert (Hb : ArchUpdate.breakdown a' = nonzero_parts a')
    by (apply breakdown_nonzero; assumption).
  split; [| split; [| split; [| split; [| split; [| split]]]]].
  - intros Hin. apply breakdown_members in Hin.
    destruct Hin as [[-> H] | [[-> H] | [-> H]]];
      [left | right; left | right; right]; split; auto; lia.
  - intros H. apply breakdown_members. left. split; [reflexivity | lia].
  - intros H. apply breakdown_members. right; left. split; [reflexivity | lia].
  - intros H. apply breakdown_members. right; right. split; [reflexivity | lia].
  - subst s. vm_compute. repeat split.
  - exact Hb.
  - intros He Hn. rewrite <- Hb. rewrite Ha' in *.
    apply checked_count_text; assumption.
Qed.

Lemma total_is_sum_of_sources_witness :
  let s := state_of (ArchUpdate._check_updates
                       (ProcCompleted (ArchUpdate.pending 5))
                       (ProcCompleted (ArchUpdate.pending 2))
                       ArchUpdate.quiet ArchUpdate.three_sources) in
  In "A:2" (ArchUpdate.breakdown s)
  /\ ArchUpdate.aur_updates s <> 0
  /\ ArchUpdate.current_update_count s = 7.
Proof.
  cbv zeta.
  pose proof (total_is_sum_of_sources ArchUpdate.three_sources
                (ProcCompleted (ArchUpdate.pending 5))
                (ProcCompleted (ArchUpdate.pending 2))
                ArchUpdate.quiet "A:2") as H.
  cbv zeta in H.
  destruct H as (_ & _ & _ & _ & Honly & _ & Haur & _ & (_ & _ & _ & Htotal & _) & _).
  assert (Hin : In "A:2"
                  (ArchUpdate.breakdown
                     (state_of (ArchUpdate._check_updates
                                  (ProcCompleted (ArchUpdate.pending 5))
                                  (ProcCompleted (ArchUpdate.pending 2))
                                  ArchUpdate.quiet ArchUpdate.three_sources)))).
  { apply Haur. vm_compute. discriminate. }
  split; [exact Hin |]. split; [| exact Htotal].
  destruct (Honly Hin) as [[E _] | [[_ Hnz] | [E _]]];
    [vm_compute in E; discriminate E | exact Hnz | vm_compute in E; discriminate E].
Defined.

(** ** The checking flag *)

Section ArchChecking.
Import ArchUpdate.

Lemma display_run (a : ArchUpdatePlugin) :
  _update_display a = (Ok tt, a, [UpdateImageRender (display a)]).
Proof. reflexivity. Qed.

Lemma check_updates_idle pacman aur flatpak (a : ArchUpdatePlugin) :
  is_checking (state_of (_check_updates pacman aur flatpak a)) = false.
Proof.
  destruct (check_updates_run pacman aur flatpak a) as (t & -> & _).
  reflexivity.
Qed.

(** No callback returns with the flag set. *)
Lemma dispatch_keeps_idle cb (a : ArchUpdatePlugin) :
  is_checking a = false ->
  is_checking (state_of (dispatch cb a)) = false.
Proof.
  intros Hidle.
  destruct cb as [pacman aur flatpak | launch | | page button | |
                  c pacman aur flatpak | t pacman aur flatpak];
    cbn [dispatch].
  - unfold on_start, bind, get, log, emit. rewrite display_run.
    destruct (check_updates_run pacman aur flatpak a) as (tr & -> & _).
    reflexivity.
  - destruct launch as [e |]; cbn; exact Hidle.
  - exact Hidle.
  - exact Hidle.
  - exact Hidle.
  - pose proof (arch_on_config_update_run c pacman aur flatpak a) as H.
    cbv zeta in H. destruct H as (tr & -> & _).
    destruct (arch_apply_config_shape c a) as (_ & _ & _ & _ & _ & _ & _ & _ & _ & Hc).
    cbv zeta in Hc.
    destruct (outcome_of (apply_config c a)); cbn [state_of fst snd];
      [reflexivity | rewrite Hc; exact Hidle].
  - destruct (arch_update_run t pacman aur flatpak a) as (tr & ->).
    destruct (negb (is_checking a) && elapsed t _ _); [reflexivity | exact Hidle].
Qed.

Lemma run_callbacks_idle cbs :
  forall a, is_checking a = false -> is_checking (run_callbacks cbs a) = false.
Proof.
  induction cbs as [| cb rest IH]; intros a Hidle; cbn [run_callbacks].
  - exact Hidle.
  - apply IH, dispatch_keeps_idle, Hidle.
Qed.
End ArchChecking.

(** C10.  A tick that finds [is_checking] set starts no check: it returns
    at once, with no effect.  [_check_updates] returns with [is_checking]
    false whatever the body of its [try] does, return or raise, and so
    does the check the plugin runs.  Hence [is_checking] is false after
    every sequence of host callbacks from start. *)
Theorem is_checking_guard :
  forall (a : ArchUpdate.ArchUpdatePlugin) t pacman aur flatpak
         (body : M ArchUpdate.ArchUpdatePlugin unit) cbs c path present,
    (ArchUpdate.is_checking a = true ->
     ArchUpdate.update t pacman aur flatpak a = (Ok tt, a, []))
    /\ ArchUpdate.is_checking (state_of (ArchUpdate.guarded_check body a)) = false
    /\ outcome_of (ArchUpdate.guarded_check body a) = Ok tt
    /\ ArchUpdate.is_checking
         (state_of (ArchUpdate._check_updates pacman aur flatpak a)) = false
    /\ ArchUpdate.is_checking
         (ArchUpdate.run_callbacks cbs (ArchUpdate.init c path present)) = false.
Proof.
  intros. split; [| split; [| split; [| split]]].
  - intros Hbusy. destruct (arch_update_run t pacman aur flatpak a) as (tr & ->).
    rewrite Hbusy. reflexivity.
  - destruct (guarded_check_any body a) as (q & tr & ->). reflexivity.
  - destruct (guarded_check_any body a) as (q & tr & ->). reflexivity.
  - apply check_updates_idle.
  - apply run_callbacks_idle. reflexivity.
Qed.

(** A tick at the hour on a plugin whose flag is set starts no check; a
    check whose body raises still returns with the flag cleared. *)
Lemma is_checking_guard_witness :
  ArchUpdate.is_checking busy = true
  /\ ArchUpdate.update 3600%Q ArchUpdate.timed_out ArchUpdate.quiet
       ArchUpdate.quiet busy = (Ok tt, busy, [])
  /\ ArchUpdate.is_checking
       (state_of (ArchUpdate.guarded_check (raise no_such_file) busy)) = false.
Proof.
  pose proof (is_checking_guard busy 3600%Q ArchUpdate.timed_out ArchUpdate.quiet
                ArchUpdate.quiet (raise no_such_file) []
                ArchUpdate.default_config "arch_icon.png" false)
    as (Hguard & Hclear & _).
  split; [reflexivity |]. split; [apply Hguard; reflexivity | exact Hclear].
Defined.

(** ** Further properties of the AlertManager plugin *)

Section AlertManagerMore.
Import AlertManager.

Lemma is_active_iff (a : alert) :
  is_active a = true <-> status_state a = Some "active".
Proof.
  unfold is_active. destruct (status_state a) as [st |].
  - rewrite String.eqb_eq. split; [intros -> | intros [= ->]]; reflexivity.
  - split; discriminate.
Qed.

Lemma firing_count_cons a alerts :
  firing_count (a :: alerts)
  = (if is_active a then 1 else 0) + firing_count alerts.
Proof.
  unfold firing_count. cbn [List.filter].
  destruct (is_active a); cbn [List.length]; lia.
Qed.

Lemma firing_count_bounds alerts :
  0 <= firing_count alerts <= Z.of_nat (List.length alerts).
Proof.
  induction alerts as [| a rest IH].
  - cbn. lia.
  - rewrite firing_count_cons. cbn [List.length].
    destruct (is_active a); lia.
Qed.

(** X1.  The poll counts the alerts whose state is [active] and no other:
    the count lies between zero and the number of alerts returned, an
    alert in any other state, or with no state at all, leaves it as it
    is, and it reaches the number of alerts exactly when all are active. *)
Theorem firing_count_counts_active :
  forall (a : alert) (alerts more : list alert),
    0 <= firing_count alerts <= Z.of_nat (List.length alerts)
    /\ firing_count (alerts ++ more) = firing_count alerts + firing_count more
    /\ (status_state a = Some "active" ->
        firing_count (a :: alerts) = 1 + firing_count alerts)
    /\ (status_state a <> Some "active" ->
        firing_count (a :: alerts) = firing_count alerts)
    /\ (firing_count alerts = Z.of_nat (List.length alerts)
        <-> Forall (fun x => status_state x = Some "active") alerts).
Proof.
  intros a alerts more. split; [apply firing_count_bounds |].
  split; [| split; [| split]].
  - unfold firing_count. rewrite List.filter_app, List.length_app. lia.
  - intros H. rewrite firing_count_cons.
    apply is_active_iff in H. rewrite H. reflexivity.
  - intros H. rewrite firing_count_cons.
    destruct (is_active a) eqn:E; [| lia].
    apply is_active_iff in E. contradiction.
  - induction alerts as [| x rest IH].
    + split; [constructor | reflexivity].
    + rewrite firing_count_cons. cbn [List.length].
      pose proof (firing_count_bounds rest) as Hb.
      destruct (is_active x) eqn:E.
      * split.
        -- intros H. constructor; [apply is_active_iff, E | apply IH; lia].
        -- intros H. inversion H; subst.
           assert (firing_count rest = Z.of_nat (List.length rest))
             by (apply IH; assumption).
           lia.
      * split; [intros H; lia |].
        intros H. inversion H as [| ? ? Hx]; subst.
        apply is_active_iff in Hx. congruence.
Qed.

Lemma firing_count_counts_active_witness :
  status_state (mkAlert (Some "suppressed")) <> Some "active"
  /\ firing_count [mkAlert (Some "suppressed"); mkAlert (Some "active");
                   mkAlert None] = 1.
Proof.
  assert (H : status_state (mkAlert (Some "suppressed")) <> Some "active")
    by discriminate.
  split; [exact H |].
  rewrite (proj1 (proj2 (proj2 (proj2
             (firing_count_counts_active (mkAlert (Some "suppressed"))
                [mkAlert (Some "active"); mkAlert None] []))))  H).
  reflexivity.
Defined.

End AlertManagerMore.

(** ** The AlertManager plugin under the host loop *)

Section AlertManagerLoop.
Import AlertManager.
Import AlertManagerHost.

Lemma am_display_run (p : AlertManagerPlugin) :
  _update_display p = (Ok tt, p, [UpdateImageRender (display p)]).
Proof. reflexivity. Qed.

Lemma on_button_pressed_run launch (p : AlertManagerPlugin) :
  exists t,
    on_button_pressed launch p =
      (Ok tt,
       match launch with
       | None => set_is_flashing false p
       | Some _ => p
       end, t)
    /\ requests_page_switch t = false.
Proof.
  destruct p as [url env pi fd bc au lc cc lp fl fs fst' ip ie].
  destruct launch as [e |]; destruct bc; destruct fl; cbn;
    eexists; split; reflexivity.
Qed.

Lemma passive_run cb (p : AlertManagerPlugin) :
  is_passive cb = true ->
  exists t, dispatch cb p = (Ok tt, p, t) /\ requests_page_switch t = false.
Proof.
  destruct cb; cbn [is_passive]; intros H; try discriminate H;
    cbn; eexists; split; reflexivity.
Qed.

(** Attention mode after a poll: on if the poll requested a page switch,
    and as before otherwise. *)
Lemma poll_flashing response now (p : AlertManagerPlugin) :
  let x := _poll_alertmanager response now p in
  is_flashing (state_of x) = requests_page_switch (trace_of x) || is_flashing p.
Proof.
  cbv zeta. destruct response as [e | alerts].
  - destruct (poll_failure e now p) as [msg ->]. reflexivity.
  - destruct (poll_success alerts now p) as (t & -> & Hsw & _).
    cbn [state_of trace_of fst snd]. rewrite Hsw.
    destruct (raises_attention _ p); reflexivity.
Qed.

Lemma poll_nonneg response now (p : AlertManagerPlugin) :
  last_alert_count p = current_alert_count p ->
  0 <= current_alert_count p ->
  let q := state_of (_poll_alertmanager response now p) in
  last_alert_count q = current_alert_count q /\ 0 <= current_alert_count q.
Proof.
  intros He Hn. pose proof (poll_counts response now p) as H. cbv zeta in *.
  destruct response as [e | alerts].
  - rewrite H. auto.
  - destruct H as [Hc Hl]. split; [exact Hl |]. rewrite Hc.
    apply firing_count_bounds.
Qed.

Lemma flash_phase_counts t (p : AlertManagerPlugin) :
  let q := state_of (flash_phase t p) in
  last_alert_count q = last_alert_count p
  /\ current_alert_count q = current_alert_count p
  /\ last_poll_time q = last_poll_time p
  /\ poll_interval q = poll_interval p.
Proof.
  cbv zeta. rewrite flash_phase_run.
  destruct (is_flashing p); [| repeat split].
  destruct (elapsed t (flash_start_time p) (flash_duration p)); repeat split.
Qed.

Lemma dispatch_counts cb (p : AlertManagerPlugin) :
  last_alert_count p = current_alert_count p ->
  0 <= current_alert_count p ->
  let q := state_of (dispatch cb p) in
  last_alert_count q = current_alert_count q /\ 0 <= current_alert_count q.
Proof.
  intros He Hn. cbv zeta.
  destruct (is_passive cb) eqn:Hp.
  - destruct (passive_run cb p Hp) as (t & -> & _). auto.
  - destruct cb as [| launch | | page button | | c response now | t response pn];
      try discriminate Hp; cbn [dispatch].
    + destruct (on_button_pressed_run launch p) as (t & -> & _).
      destruct launch; auto.
    + pose proof (on_config_update_run c response now p) as E. cbv zeta in E.
      rewrite E.
      destruct (am_apply_config_shape c p) as (_ & _ & Hl & Hc & _).
      cbv zeta in Hl, Hc.
      destruct (outcome_of (apply_config c p)); cbn [state_of fst snd].
      * apply (poll_nonneg response now (state_of (apply_config c p)));
          [rewrite Hl, Hc; assumption | rewrite Hc; assumption].
      * rewrite Hl, Hc. auto.
    + pose proof (update_run t response pn p) as E. cbv zeta in E. rewrite E.
      cbn [state_of fst snd].
      destruct (flash_phase_counts t (state_of (poll_phase t response pn p)))
        as (-> & -> & _).
      rewrite poll_phase_run.
      destruct (elapsed t (last_poll_time p) (poll_interval p));
        cbn [state_of fst snd]; [| auto].
      apply (poll_nonneg response pn p); assumption.
Qed.

(** X2.  From start, under any sequence of host callbacks (ticks, presses,
    visibility changes, configuration updates), with any responses and
    failures, the stored previous count equals the current count and
    neither is negative. *)
Theorem alert_counts_agree_and_nonnegative :
  forall (cbs : list callback) c path present,
    let q := run_callbacks cbs (init c path present) in
    last_alert_count q = current_alert_count q
    /\ 0 <= current_alert_count q
    /\ 0 <= last_alert_count q.
Proof.
  intros cbs c path present.
  assert (H : forall p,
             last_alert_count p = current_alert_count p ->
             0 <= current_alert_count p ->
             last_alert_count (run_callbacks cbs p)
             = current_alert_count (run_callbacks cbs p)
             /\ 0 <= current_alert_count (run_callbacks cbs p)).
  { induction cbs as [| cb rest IH]; intros p He Hn; cbn [run_callbacks].
    - auto.
    - destruct (dispatch_counts cb p He Hn) as [He' Hn']. apply IH; assumption. }
  cbv zeta. destruct (H (init c path present)) as [He Hn];
    [reflexivity | cbn; lia |].
  repeat split; [exact He | exact Hn | rewrite He; exact Hn].
Qed.

(** X3.  Attention mode starts only together with a page switch request: a
    callback that finds attention mode off and leaves it on has asked the
    host for a page switch.  The start, release, visible and hidden
    callbacks leave the plugin as it is, and a configuration update never
    ends attention mode. *)
Theorem attention_starts_with_page_switch :
  forall (cb : callback) (p : AlertManagerPlugin) c response now,
    let x := dispatch cb p in
    (is_flashing p = false -> is_flashing (state_of x) = true ->
     requests_page_switch (trace_of x) = true)
    /\ (is_passive cb = true -> state_of x = p)
    /\ (is_flashing p = true ->
        is_flashing (state_of (dispatch (OnConfigUpdate c response now) p)) = true).
Proof.
  intros cb p c response now. cbv zeta. split; [| split].
  - intros Hoff Hon.
    destruct (is_passive cb) eqn:Hp.
    { destruct (passive_run cb p Hp) as (t & E & _). rewrite E in Hon.
      cbn in Hon. congruence. }
    destruct cb as [| launch | | page button | | c' r' now' | t r' pn];
      try discriminate Hp; cbn [dispatch] in *.
    + destruct (on_button_pressed_run launch p) as (t & E & _).
      rewrite E in Hon. cbn [state_of fst snd] in Hon.
      destruct launch; cbn in Hon; congruence.
    + pose proof (on_config_update_run c' r' now' p) as E. cbv zeta in E.
      rewrite E in *.
      destruct (am_apply_config_shape c' p) as (_ & _ & _ & _ & _ & Hfl & _).
      cbv zeta in Hfl.
      destruct (outcome_of (apply_config c' p));
        cbn [state_of trace_of fst snd] in *; [| congruence].
      pose proof (poll_flashing r' now' (state_of (apply_config c' p))) as Hf.
      cbv zeta in Hf. rewrite Hon, Hfl, Hoff, orb_false_r in Hf.
      unfold requests_page_switch in *. cbn [existsb is_page_switch orb].
      rewrite existsb_app, <- Hf. reflexivity.
    + pose proof (update_run t r' pn p) as E. cbv zeta in E.
      rewrite E in *. cbn [state_of trace_of fst snd] in *.
      rewrite flash_phase_run in Hon.
      rewrite poll_phase_run in *.
      destruct (elapsed t (last_poll_time p) (poll_interval p));
        cbn [state_of trace_of fst snd] in *.
      * pose proof (poll_flashing r' pn p) as Hf. cbv zeta in Hf.
        rewrite Hoff, orb_false_r in Hf.
        change (is_flashing (set_last_poll_time t ?q)) with (is_flashing q) in Hon.
        unfold requests_page_switch in *. rewrite existsb_app, <- Hf.
        destruct (is_flashing (state_of (_poll_alertmanager r' pn p))) eqn:Hq;
          [reflexivity |].
        assert (Hon' : is_flashing (state_of (_poll_alertmanager r' pn p)) = true)
          by exact Hon.
        congruence.
      * rewrite Hoff in Hon. cbn in Hon. congruence.
  - intros Hp. destruct (passive_run cb p Hp) as (t & -> & _). reflexivity.
  - intros Hon. cbn [dispatch].
    pose proof (on_config_update_run c response now p) as E. cbv zeta in E.
    rewrite E.
    destruct (am_apply_config_shape c p) as (_ & _ & _ & _ & _ & Hfl & _).
    cbv zeta in Hfl.
    destruct (outcome_of (apply_config c p)); cbn [state_of fst snd];
      [| congruence].
    apply poll_keeps_flashing. congruence.
Qed.

Lemma attention_starts_with_page_switch_witness :
  is_flashing (poll_run [(firing 1, 1%Q)] fresh) = false
  /\ requests_page_switch
       (trace_of (dispatch (Update 100%Q (firing 2) 100%Q)
                    (poll_run [(firing 1, 1%Q)] fresh))) = true.
Proof.
  split; [reflexivity |].
  apply (proj1 (attention_starts_with_page_switch
                  (Update 100%Q (firing 2) 100%Q)
                  (poll_run [(firing 1, 1%Q)] fresh)
                  (am_accepted default_config) (firing 0) 0%Q));
    reflexivity.
Defined.

End AlertManagerLoop.

(** ** Blinking, poll cadence and reconfiguration *)

Lemma string_length_append (s1 s2 : string) :
  String.length (s1 ++ s2) = (String.length s1 + String.length s2)%nat.
Proof. induction s1 as [| c s1 IH]; cbn; [reflexivity | rewrite IH; reflexivity]. Qed.

Section AlertManagerTicks.
Import AlertManager.

(** X4.  While attention mode is active and no poll is due, a tick toggles
    [flash_state] and renders once.  Before expiry the render is the red
    NEW! view exactly when [flash_state] was off before the tick, so
    successive ticks alternate between NEW! and the count view; the tick
    that finds the window expired logs the expiry and renders the count
    view. *)
Theorem flashing_tick_alternates :
  forall (p : AlertManagerPlugin) t response poll_now
         (Hflash : is_flashing p = true)
         (Hquiet : elapsed t (last_poll_time p) (poll_interval p) = false),
    let x := update t response poll_now p in
    let expired := elapsed t (flash_start_time p) (flash_duration p) in
    flash_state (state_of x) = negb (flash_state p)
    /\ (expired = false ->
        trace_of x = [UpdateImageRender (display (state_of x))]
        /\ (background_color (display (state_of x)) = "#FF0000"
            <-> flash_state p = false)
        /\ (text (display (state_of x)) = environment_name p ++ nl ++ nl ++ "NEW!"
            <-> flash_state p = false))
    /\ (expired = true ->
        trace_of x = [Log INFO "Flash duration expired";
                      UpdateImageRender (display (state_of x))]
        /\ text (display (state_of x))
           = environment_name p ++ nl ++ nl
             ++ str_of_int (current_alert_count p) ++ " alerts").
Proof.
  intros. subst x expired.
  pose proof (update_run t response poll_now p) as E. cbv zeta in E.
  rewrite E. clear E. rewrite poll_phase_run, Hquiet.
  cbn [state_of trace_of fst snd]. rewrite flash_phase_run, Hflash.
  cbn [state_of trace_of fst snd app].
  destruct (elapsed t (flash_start_time p) (flash_duration p)).
  - split; [reflexivity |]. split; [discriminate |]. intros _.
    split; reflexivity.
  - split; [reflexivity |]. split; [| discriminate]. intros _.
    split; [reflexivity |].
    unfold display. cbn [is_flashing flash_state set_flash_state].
    rewrite Hflash. cbn [andb].
    destruct (flash_state p); cbn [negb background_color text].
    + split; split; intros H; try discriminate H;
        cbn [current_alert_count environment_name set_flash_state] in H.
      * destruct (current_alert_count p >? 0);
          [destruct (current_alert_count p >=? 5) |]; discriminate H.
      * apply (f_equal String.length) in H.
        repeat (rewrite string_length_append in H; cbn [String.length nl] in H).
        lia.
    + split; split; reflexivity.
Qed.

Lemma flashing_tick_alternates_witness :
  is_flashing alerted = true
  /\ background_color
       (display (state_of (update 3%Q (firing 2) 3%Q alerted))) <> "#FF0000"
  /\ background_color
       (display (state_of (update 4%Q (firing 2) 4%Q
                             (state_of (update 3%Q (firing 2) 3%Q alerted)))))
     = "#FF0000".
Proof.
  split; [reflexivity |]. split.
  - intros H.
    apply (proj1 (proj2 (proj1 (proj2 (flashing_tick_alternates alerted 3%Q
                                         (firing 2) 3%Q eq_refl eq_refl))
                           eq_refl))) in H.
    discriminate H.
  - apply (proj1 (proj2 (proj1 (proj2 (flashing_tick_alternates
                                         (state_of (update 3%Q (firing 2) 3%Q alerted))
                                         4%Q (firing 2) 4%Q eq_refl eq_refl))
                           eq_refl))).
    reflexivity.
Defined.

End AlertManagerTicks.

Section AlertManagerCadence.
Import AlertManager.

Lemma poll_keeps_settings response now (p : AlertManagerPlugin) :
  let q := state_of (_poll_alertmanager response now p) in
  poll_interval q = poll_interval p
  /\ flash_duration q = flash_duration p
  /\ environment_name q = environment_name p
  /\ alertmanager_url q = alertmanager_url p
  /\ browser_command q = browser_command p
  /\ last_poll_time q = last_poll_time p.
Proof.
  cbv zeta. destruct response as [e | alerts].
  - destruct (poll_failure e now p) as [msg ->]. repeat split.
  - destruct (poll_success alerts now p) as (t & -> & _).
    cbn [state_of fst snd]. destruct (raises_attention _ p); repeat split.
Qed.

Lemma update_poll_time t response poll_now (p : AlertManagerPlugin) :
  elapsed t (last_poll_time p) (poll_interval p) = true ->
  let q := state_of (update t response poll_now p) in
  last_poll_time q = t /\ poll_interval q = poll_interval p.
Proof.
  intros Hdue. cbv zeta.
  pose proof (update_run t response poll_now p) as E. cbv zeta in E.
  rewrite E. cbn [state_of fst snd].
  destruct (flash_phase_counts t (state_of (poll_phase t response poll_now p)))
    as (_ & _ & -> & ->).
  rewrite poll_phase_run, Hdue. cbn [state_of fst snd].
  split; [reflexivity |].
  apply (poll_keeps_settings response poll_now p).
Qed.

Lemma am_waiting_callback t cb (p : AlertManagerPlugin) :
  am_waits t (poll_interval p) cb ->
  last_poll_time p = t ->
  let q := state_of (AlertManagerHost.dispatch cb p) in
  current_alert_count q = current_alert_count p
  /\ last_alert_count q = last_alert_count p
  /\ last_poll_time q = last_poll_time p
  /\ poll_interval q = poll_interval p.
Proof.
  intros Hw Ht. cbv zeta.
  destruct cb as [| launch | | page button | | c response now | t' response pn];
    cbn [am_waits AlertManagerHost.dispatch] in *;
    try contradiction; try (repeat split; reflexivity).
  - destruct (on_button_pressed_run launch p) as (tr & -> & _).
    destruct launch; repeat split.
  - pose proof (update_run t' response pn p) as E. cbv zeta in E. rewrite E.
    cbn [state_of fst snd].
    destruct (flash_phase_counts t' (state_of (poll_phase t' response pn p)))
      as (-> & -> & -> & ->).
    rewrite poll_phase_run.
    replace (elapsed t' (last_poll_time p) (poll_interval p)) with false;
      [repeat split |].
    symmetry. apply not_true_iff_false. rewrite elapsed_iff, Ht.
    apply Qlt_not_le. exact Hw.
Qed.

(** X5.  The ticks poll at most once per poll interval.  A tick that
    finds the interval elapsed polls and stores its own clock reading as
    the time of the poll, whether the request succeeds or fails; when it
    succeeds the count is the number of active alerts.  From then on, no
    sequence of presses, visibility callbacks and ticks polls again as
    long as the ticks come before a full interval has passed: the counts
    and the time of the poll stay as they are.  A configuration update is
    outside this cadence: it polls at once, whatever the time of the last
    poll, and leaves that time as it is. *)
Theorem ticks_poll_once_per_interval :
  forall (p : AlertManagerPlugin) t response poll_now
         (cbs : list AlertManagerHost.callback) c alerts now
         (Hdue : elapsed t (last_poll_time p) (poll_interval p) = true)
         (Hwait : Forall (am_waits t (poll_interval p)) cbs),
    let p1 := state_of (update t response poll_now p) in
    let q := AlertManagerHost.run_callbacks cbs p1 in
    let x := on_config_update (am_accepted c) (HttpAlerts alerts) now q in
    last_poll_time p1 = t
    /\ (response = HttpAlerts alerts ->
        current_alert_count p1 = firing_count alerts)
    /\ current_alert_count q = current_alert_count p1
    /\ last_alert_count q = last_alert_count p1
    /\ last_poll_time q = t
    /\ current_alert_count (state_of x) = firing_count alerts
    /\ last_poll_time (state_of x) = t.
Proof.
  intros. destruct (update_poll_time t response poll_now p Hdue) as [Ht Hi].
  fold p1 in Ht, Hi.
  assert (Hrun : forall l p0,
             Forall (am_waits t (poll_interval p)) l ->
             last_poll_time p0 = t -> poll_interval p0 = poll_interval p ->
             current_alert_count (AlertManagerHost.run_callbacks l p0)
             = current_alert_count p0
             /\ last_alert_count (AlertManagerHost.run_callbacks l p0)
                = last_alert_count p0
             /\ last_poll_time (AlertManagerHost.run_callbacks l p0) = t).
  { induction l as [| cb rest IH]; intros p0 Hl Ht0 Hi0;
      cbn [AlertManagerHost.run_callbacks]; [auto |].
    apply Forall_cons_iff in Hl as [Hcb Hrest].
    rewrite <- Hi0 in Hcb.
    destruct (am_waiting_callback t cb p0 Hcb Ht0) as (Hc & Hla & Hpt & Hpi).
    destruct (IH (state_of (AlertManagerHost.dispatch cb p0)) Hrest)
      as (Hc' & Hla' & Hpt'); [congruence | congruence |].
    repeat split; congruence. }
  destruct (Hrun cbs p1 Hwait Ht Hi) as (Hc & Hl & Hpt). fold q in Hc, Hl, Hpt.
  split; [exact Ht |]. split.
  { intros ->. unfold p1.
    pose proof (update_run t (HttpAlerts alerts) poll_now p) as E.
    cbv zeta in E. rewrite E. cbn [state_of fst snd].
    destruct (flash_phase_counts t
                (state_of (poll_phase t (HttpAlerts alerts) poll_now p)))
      as (_ & -> & _).
    rewrite poll_phase_run, Hdue. cbn [state_of fst snd].
    change (current_alert_count (set_last_poll_time t ?q))
      with (current_alert_count q).
    apply (poll_counts (HttpAlerts alerts) poll_now p). }
  split; [exact Hc |]. split; [exact Hl |]. split; [exact Hpt |].
  subst x. pose proof (on_config_update_run (am_accepted c) (HttpAlerts alerts) now q) as E.
  cbv zeta in E. rewrite E, am_apply_config_accepted.
  cbn [outcome_of state_of fst snd].
  split.
  - apply (poll_counts (HttpAlerts alerts) now (am_configured c q)).
  - destruct (poll_keeps_settings (HttpAlerts alerts) now (am_configured c q))
      as (_ & _ & _ & _ & _ & ->).
    exact Hpt.
Qed.

Lemma ticks_poll_once_per_interval_witness :
  elapsed 100 (last_poll_time fresh) (poll_interval fresh) = true
  /\ Forall (am_waits 100 (poll_interval fresh))
       [AlertManagerHost.Update 110%Q (firing 7) 110%Q;
        AlertManagerHost.OnButtonPressed None;
        AlertManagerHost.Update 129%Q (firing 9) 129%Q]
  /\ current_alert_count
       (AlertManagerHost.run_callbacks
          [AlertManagerHost.Update 110%Q (firing 7) 110%Q;
           AlertManagerHost.OnButtonPressed None;
           AlertManagerHost.Update 129%Q (firing 9) 129%Q]
          (state_of (update 100%Q (HttpRaises request_timeout) 100%Q fresh)))
     = 0.
Proof.
  assert (H1 : elapsed 100 (last_poll_time fresh) (poll_interval fresh) = true)
    by reflexivity.
  assert (H2 : Forall (am_waits 100 (poll_interval fresh))
                 [AlertManagerHost.Update 110%Q (firing 7) 110%Q;
                  AlertManagerHost.OnButtonPressed None;
                  AlertManagerHost.Update 129%Q (firing 9) 129%Q]).
  { repeat constructor. }
  split; [exact H1 |]. split; [exact H2 |].
  rewrite (proj1 (proj2 (proj2
             (ticks_poll_once_per_interval fresh 100%Q
                (HttpRaises request_timeout) 100%Q _ default_config [] 0%Q
                H1 H2)))).
  reflexivity.
Defined.



End AlertManagerCadence.

(** ** The request of the poll *)

Section AlertManagerRequestFacts.
Import AlertManagerRequest.

Lemma both_some a b x y :
  both a b = Some (x, y) ->
  a = Some x /\ b = Some y /\ x <> EmptyString /\ y <> EmptyString.
Proof.
  unfold both. destruct a as [u |]; [| discriminate].
  destruct b as [v |]; [| discriminate].
  destruct u; [discriminate |]. destruct v; [discriminate |].
  cbn. intros [= <- <-]. repeat split; discriminate.
Qed.

Lemma both_none a b :
  both a b = None <-> truthy_opt a && truthy_opt b = false.
Proof.
  unfold both. destruct a as [u |]; [| cbn; tauto].
  destruct b as [v |]; [| cbn; rewrite andb_false_r; tauto].
  cbn [truthy_opt]. destruct (truthy u && truthy v); split; congruence.
Qed.

(** X7.  The request carries at most one kind of credentials: basic
    authentication only for [auth_type] ['basic'] with a user name and a
    password that are both non-empty, a bearer header only for
    [auth_type] ['bearer'] with a non-empty token, and nothing for any
    other [auth_type].  A client certificate is sent only when both the
    certificate and its key are configured; certificate verification is
    switched off exactly when no CA certificate is configured; the timeout
    is always ten seconds. *)
Theorem request_credentials :
  forall (cr : credentials),
    let k := build_kwargs cr in
    kw_timeout k = 10
    /\ (kw_auth k = None \/ kw_headers k = None)
    /\ (forall u pw, kw_auth k = Some (u, pw) ->
        auth_type cr = "basic" /\ username cr = Some u /\ password cr = Some pw
        /\ u <> EmptyString /\ pw <> EmptyString)
    /\ (forall h, kw_headers k = Some h ->
        auth_type cr = "bearer"
        /\ exists tok, bearer_token cr = Some tok /\ tok <> EmptyString
                       /\ h = [("Authorization", "Bearer " ++ tok)])
    /\ (auth_type cr <> "basic" -> auth_type cr <> "bearer" ->
        kw_auth k = None /\ kw_headers k = None)
    /\ (kw_cert k = None
        <-> truthy_opt (client_cert cr) && truthy_opt (client_key cr) = false)
    /\ (kw_verify k = VerifyFalse <-> truthy_opt (ca_cert cr) = false).
Proof.
  intros cr k. subst k. unfold build_kwargs.
  cbn [kw_timeout kw_auth kw_headers kw_cert kw_verify].
  split; [reflexivity |]. split; [| split; [| split; [| split; [| split]]]].
  - destruct (String.eqb (auth_type cr) "basic"); [| left; reflexivity].
    destruct (both (username cr) (password cr)); [right | left]; reflexivity.
  - intros u pw H.
    destruct (String.eqb (auth_type cr) "basic") eqn:Hb; [| discriminate H].
    apply String.eqb_eq in Hb. split; [exact Hb |].
    apply both_some. exact H.
  - intros h H.
    destruct (if String.eqb (auth_type cr) "basic"
              then both (username cr) (password cr) else None);
      [discriminate H |].
    destruct (String.eqb (auth_type cr) "bearer") eqn:Hb; [| discriminate H].
    apply String.eqb_eq in Hb. split; [exact Hb |].
    destruct (bearer_token cr) as [tok |]; [| discriminate H].
    cbn [truthy_opt andb] in H. destruct tok as [| ch tok]; [discriminate H |].
    cbn [truthy] in H. injection H as <-.
    eexists. repeat split. discriminate.
  - intros Hb Hr.
    apply String.eqb_neq in Hb. apply String.eqb_neq in Hr.
    rewrite Hb, Hr. split; reflexivity.
  - apply both_none.
  - destruct (ca_cert cr) as [ca |]; [| split; reflexivity].
    cbn [truthy_opt]. destruct (truthy ca); split; congruence.
Qed.

Lemma request_credentials_witness :
  kw_auth (build_kwargs (mkCredentials None None None None "basic"
                           (Some "admin") (Some EmptyString) (Some "tok")))
  = None.
Proof.
  destruct (kw_auth (build_kwargs (mkCredentials None None None None "basic"
                                     (Some "admin") (Some EmptyString)
                                     (Some "tok")))) as [[u pw] |] eqn:E;
    [| reflexivity].
  destruct (proj1 (proj2 (proj2 (request_credentials
              (mkCredentials None None None None "basic" (Some "admin")
                 (Some EmptyString) (Some "tok")))))
              u pw E) as (_ & _ & Hp & _ & Hne).
  cbn in Hp. injection Hp as <-. contradiction Hne. reflexivity.
Defined.

End AlertManagerRequestFacts.

(** ** The Arch update plugin under the host loop *)

Section ArchLoop.
Import ArchUpdate.

Lemma found_nonneg pacman aur flatpak (a : ArchUpdatePlugin) :
  0 <= pacman_found pacman /\ 0 <= aur_found aur a /\ 0 <= flatpak_found flatpak a.
Proof.
  split; [apply lines_found_nonneg_lines |]. split.
  - unfold aur_found. destruct (truthy _); [apply lines_found_nonneg_arrows | lia].
  - unfold flatpak_found.
    destruct (flatpak_check a); [apply lines_found_nonneg_lines | lia].
Qed.

Lemma checked_counts_ok pacman aur flatpak (a : ArchUpdatePlugin) :
  arch_counts_ok (checked pacman aur flatpak a)
  /\ 0 <= last_update_count (checked pacman aur flatpak a).
Proof.
  destruct (found_nonneg pacman aur flatpak a) as (Hp & Hu & Hf).
  destruct (checked_counts pacman aur flatpak a) as (Ep & Eu & Ef & Et).
  cbv zeta in Ep, Eu, Ef, Et.
  assert (El : last_update_count (checked pacman aur flatpak a)
               = total_found pacman aur flatpak a)
    by (destruct a; reflexivity).
  unfold arch_counts_ok. rewrite Ep, Eu, Ef, Et, El. unfold total_found.
  repeat split; try assumption; lia.
Qed.

Lemma arch_on_button_pressed_run launch (a : ArchUpdatePlugin) :
  on_button_pressed launch a =
    match launch with
    | None =>
        (Ok tt, a,
         [Log INFO "Button pressed, launching update command";
          Popen (terminal_cmd a) true;
          Log INFO ("Launched: " ++ join " " (terminal_cmd a))])
    | Some e =>
        let a' := set_check_error (Some ("Launch error: " ++ exn_str e)) a in
        (Ok tt, a',
         [Log INFO "Button pressed, launching update command";
          Log ERROR ("Failed to launch update command: " ++ exn_str e);
          UpdateImageRender (display a')])
    end.
Proof. destruct launch as [e |]; reflexivity. Qed.

Lemma arch_on_start_run pacman aur flatpak (a : ArchUpdatePlugin) :
  exists t,
    on_start pacman aur flatpak a =
      (Ok tt, checked pacman aur flatpak a,
       (Log INFO ("Arch Update plugin started for " ++ system_name a)
        :: Log INFO ("Check command: " ++ check_command a)
        :: UpdateImageRender (display a)
        :: t ++ [UpdateImageRender (display (checked pacman aur flatpak a))])%list)
    /\ requests_page_switch t = notifies (total_found pacman aur flatpak a) a
    /\ renders t = false.
Proof.
  destruct (check_updates_run pacman aur flatpak a) as (t & E & Hs & Hr).
  exists t. split; [| split; assumption].
  unfold on_start, bind, get, log, emit. rewrite display_run, E. reflexivity.
Qed.

Lemma arch_dispatch_counts cb (a : ArchUpdatePlugin) :
  arch_counts_ok a -> arch_counts_ok (state_of (dispatch cb a)).
Proof.
  intros Hok.
  destruct cb as [pacman aur flatpak | launch | | page button | |
                  c pacman aur flatpak | t pacman aur flatpak];
    cbn [dispatch]; try exact Hok.
  - destruct (arch_on_start_run pacman aur flatpak a) as (t & -> & _).
    apply checked_counts_ok.
  - rewrite arch_on_button_pressed_run. destruct launch; exact Hok.
  - pose proof (arch_on_config_update_run c pacman aur flatpak a) as H.
    cbv zeta in H. destruct H as (t & -> & _).
    destruct (arch_apply_config_shape c a)
      as (_ & _ & _ & Hl & Hc & Hp & Hu & Hf & _).
    cbv zeta in Hl, Hc, Hp, Hu, Hf.
    destruct (outcome_of (apply_config c a)); cbn [state_of fst snd];
      [apply checked_counts_ok |].
    unfold arch_counts_ok in *. rewrite Hl, Hc, Hp, Hu, Hf. exact Hok.
  - destruct (arch_update_run t pacman aur flatpak a) as (tr & ->).
    destruct (negb (is_checking a) && elapsed t _ _); [| exact Hok].
    cbn [state_of fst snd].
    destruct (checked_counts_ok pacman aur flatpak a) as [H _].
    exact H.
Qed.

(** X9.  From start, under any sequence of host callbacks, with any output or
    failure of the pacman, AUR and Flatpak commands, no count is ever
    negative, the total is the sum of the three sub-source counts, and
    the stored previous count is either the total or still -1, the value
    for no check yet. *)
Theorem update_counts_stay_consistent :
  forall (cbs : list callback) c path present,
    let a := run_callbacks cbs (init c path present) in
    0 <= pacman_updates a
    /\ 0 <= aur_updates a
    /\ 0 <= flatpak_updates a
    /\ 0 <= current_update_count a
    /\ current_update_count a = pacman_updates a + aur_updates a + flatpak_updates a
    /\ (last_update_count a = -1 \/ last_update_count a = current_update_count a).
Proof.
  intros cbs c path present.
  assert (H : forall a0, arch_counts_ok a0 -> arch_counts_ok (run_callbacks cbs a0)).
  { induction cbs as [| cb rest IH]; intros a0 Hok; cbn [run_callbacks].
    - exact Hok.
    - apply IH, arch_dispatch_counts, Hok. }
  cbv zeta.
  destruct (H (init c path present)) as (Hp & Hu & Hf & Hs & Hl).
  { unfold arch_counts_ok. cbn. repeat split; lia. }
  repeat split; try assumption. lia.
Qed.

End ArchLoop.

(** ** What the Arch update button shows *)

Section ArchDisplay.
Import ArchUpdate.

Lemma breakdown_length (a : ArchUpdatePlugin) :
  List.length (breakdown a) = positive_sources a.
Proof.
  unfold breakdown, positive_sources. rewrite !List.length_app.
  destruct (pacman_updates a >? 0), (aur_updates a >? 0),
    (flatpak_updates a >? 0); reflexivity.
Qed.

Lemma count_view (a : ArchUpdatePlugin) :
  shows_count a ->
  current_update_count a <> 0 ->
  display a =
    let many := (1 <? List.length (breakdown a))%nat in
    {| text := system_name a ++ nl ++ nl
               ++ str_of_int (current_update_count a) ++ " update"
               ++ (if current_update_count a =? 1 then EmptyString else "s")
               ++ (if many then nl ++ "(" ++ join " " (breakdown a) ++ ")"
                   else EmptyString);
       icon := icon_arg a;
       background_color :=
         if current_update_count a >=? 20 then "#D32F2F"
         else if current_update_count a >=? 10 then "#F57C00"
         else "#1976D2";
       font_color := "#FFFFFF";
       font_size := if (current_update_count a >? 0) && many then 11 else 12;
       text_vertical_align := "middle";
       text_horizontal_align := "center" |}.
Proof.
  intros (Hc & He & Hl) Hn. unfold display. rewrite Hc, He.
  replace (last_update_count a <? 0) with false
    by (symmetry; apply Z.ltb_ge; exact Hl).
  replace (current_update_count a =? 0) with false
    by (symmetry; apply Z.eqb_neq; exact Hn).
  reflexivity.
Qed.

(** X10.  In its count view the button is green for no update, blue for 1 to
    9, orange for 10 to 19 and red for 20 or more, always with white
    text.  With no update the label is [Up to date], or [0 updates] when
    [show_count_when_zero] is set; one update is labelled [1 update]
    and any other count [n updates]. *)
Theorem update_count_colors :
  forall (a : ArchUpdatePlugin) (Hview : shows_count a),
    let n := current_update_count a in
    let r := display a in
    font_color r = "#FFFFFF"
    /\ (n = 0 ->
        background_color r = "#2E7D32"
        /\ text r = system_name a ++ nl ++ nl
                    ++ (if show_count_when_zero a then "0 updates"
                        else "Up to date"))
    /\ (1 <= n <= 9 -> background_color r = "#1976D2")
    /\ (10 <= n <= 19 -> background_color r = "#F57C00")
    /\ (20 <= n -> background_color r = "#D32F2F")
    /\ (n = 1 -> (positive_sources a <= 1)%nat ->
        text r = system_name a ++ nl ++ nl ++ "1 update")
    /\ (n <> 0 -> n <> 1 -> (positive_sources a <= 1)%nat ->
        text r = system_name a ++ nl ++ nl ++ str_of_int n ++ " updates").
Proof.
  intros a Hview n r.
  destruct (Z.eq_dec n 0) as [H0 | H0].
  - subst r. destruct Hview as (Hc & He & Hl). unfold display.
    rewrite Hc, He.
    replace (last_update_count a <? 0) with false
      by (symmetry; apply Z.ltb_ge; exact Hl).
    fold n. rewrite H0. cbn [Z.eqb].
    repeat split; intros; try reflexivity; try lia.
  - subst r. rewrite (count_view a Hview H0). cbv zeta. fold n.
    cbn [font_color background_color text].
    split; [reflexivity |]. split; [intros; contradiction |].
    split; [| split; [| split; [| split]]].
    + intros H. replace (n >=? 20) with false by (symmetry; rewrite Z.geb_leb; apply Z.leb_gt; lia).
      replace (n >=? 10) with false by (symmetry; rewrite Z.geb_leb; apply Z.leb_gt; lia).
      reflexivity.
    + intros H. replace (n >=? 20) with false by (symmetry; rewrite Z.geb_leb; apply Z.leb_gt; lia).
      replace (n >=? 10) with true by (symmetry; apply Z.geb_le; lia).
      reflexivity.
    + intros H. replace (n >=? 20) with true by (symmetry; apply Z.geb_le; lia).
      reflexivity.
    + intros H1 Hp. rewrite breakdown_length.
      replace (1 <? positive_sources a)%nat with false
        by (symmetry; apply Nat.ltb_ge; exact Hp).
      rewrite H1. reflexivity.
    + intros _ H1 Hp. rewrite breakdown_length.
      replace (1 <? positive_sources a)%nat with false
        by (symmetry; apply Nat.ltb_ge; exact Hp).
      replace (n =? 1) with false by (symmetry; apply Z.eqb_neq; exact H1).
      reflexivity.
Qed.

Lemma update_count_colors_witness :
  shows_count (arch_after 12 fresh)
  /\ background_color (display (arch_after 12 fresh)) = "#F57C00"
  /\ text (display (arch_after 1 fresh)) = "System" ++ nl ++ nl ++ "1 update".
Proof.
  assert (H12 : shows_count (arch_after 12 fresh))
    by (vm_compute; repeat split; discriminate).
  assert (H1 : shows_count (arch_after 1 fresh))
    by (vm_compute; repeat split; discriminate).
  split; [exact H12 |]. split.
  - apply (proj1 (proj2 (proj2 (proj2 (update_count_colors _ H12))))).
    vm_compute. split; discriminate.
  - apply (proj1 (proj2 (proj2 (proj2 (proj2 (proj2 (update_count_colors _ H1))))))).
    + reflexivity.
    + vm_compute. apply le_n.
Defined.

End ArchDisplay.

Lemma string_append_nil_r (s : string) : s ++ EmptyString = s.
Proof. induction s as [| c s IH]; cbn; [reflexivity | rewrite IH; reflexivity]. Qed.

Section ArchDisplayStates.
Import ArchUpdate.




(** X12.  After a check has run, the button is never left in the gray
    [Starting...] or [Checking...] state: it shows the red [Error] view
    when the pacman command was not found, and a count view otherwise.
    Before the first check the button shows [Starting...]. *)
Theorem check_leaves_count_or_error :
  forall (a : ArchUpdatePlugin) pacman aur flatpak c path present,
    let a' := state_of (_check_updates pacman aur flatpak a) in
    background_color (display a') <> "#555555"
    /\ (check_error a' = None -> shows_count a')
    /\ (check_error a' <> None ->
        display a' = status_render a' "Error" "#AA0000")
    /\ display (init c path present)
       = status_render (init c path present) "Starting..." "#555555".
Proof.
  intros. subst a'.
  destruct (check_updates_run pacman aur flatpak a) as (t & -> & _).
  cbn [state_of fst snd].
  pose proof (checked_error pacman aur flatpak a) as He.
  destruct (checked_counts_ok pacman aur flatpak a) as [_ Hl].
  assert (Hc : is_checking (checked pacman aur flatpak a) = false) by reflexivity.
  split; [| split; [| split]].
  - unfold display. rewrite Hc.
    destruct (truthy_opt _); [cbn; discriminate |].
    replace (last_update_count _ <? 0) with false
      by (symmetry; apply Z.ltb_ge; exact Hl).
    destruct (current_update_count _ =? 0); [cbn; discriminate |].
    cbn [background_color].
    destruct (current_update_count _ >=? 20); [discriminate |].
    destruct (current_update_count _ >=? 10); discriminate.
  - intros Hnone. unfold shows_count. rewrite Hnone. repeat split. exact Hl.
  - intros Hsome. rewrite He in Hsome.
    destruct pacman as [e | stdout]; cbv beta iota in He, Hsome;
      [| contradiction Hsome; reflexivity].
    revert He Hsome. destruct (exn_cls e); intros He Hsome;
      try (contradiction Hsome; reflexivity).
    apply (display_with_error _ (check_command a)); [exact Hc | exact He].
  - reflexivity.
Qed.

Lemma check_leaves_count_or_error_witness :
  check_error (state_of (_check_updates timed_out timed_out timed_out
                           three_sources)) = None
  /\ shows_count (state_of (_check_updates timed_out timed_out timed_out
                              three_sources)).
Proof.
  split; [reflexivity |].
  apply (proj1 (proj2 (check_leaves_count_or_error three_sources timed_out
                         timed_out timed_out default_config "arch_icon.png" false))).
  reflexivity.
Defined.

End ArchDisplayStates.

(** ** Launching the update command *)

Section ArchLaunch.
Import ArchUpdate.

(** X13.  The command line of the terminal always starts with the terminal and
    ends with the update command.  With the execute flag [--], [-e] or
    [-x] the update command runs under [bash -c] after that flag; with an
    empty flag it runs under [bash -c] with no flag; any other flag is
    followed by the update command itself.  A press whose launch succeeds
    starts exactly this command, once, in a new session, and changes
    nothing in the plugin. *)
Theorem launch_command_shape :
  forall (a : ArchUpdatePlugin),
    let cmd := terminal_cmd a in
    let flag := terminal_execute_flag a in
    List.hd_error cmd = Some (terminal a)
    /\ List.last cmd EmptyString = update_command a
    /\ (flag = "--" \/ flag = "-e" \/ flag = "-x" ->
        cmd = [terminal a; flag; "bash"; "-c"; update_command a])
    /\ (flag = EmptyString -> cmd = [terminal a; "bash"; "-c"; update_command a])
    /\ (flag <> EmptyString -> flag <> "--" -> flag <> "-e" -> flag <> "-x" ->
        cmd = [terminal a; flag; update_command a])
    /\ on_button_pressed None a
       = (Ok tt, a,
          [Log INFO "Button pressed, launching update command";
           Popen cmd true;
           Log INFO ("Launched: " ++ join " " cmd)]).
Proof.
  intros a cmd flag. subst cmd flag. unfold terminal_cmd.
  split; [reflexivity |]. split; [| split; [| split; [| split]]].
  - destruct (truthy (terminal_execute_flag a)); [| reflexivity].
    destruct (String.eqb (terminal_execute_flag a) "--"); [reflexivity |].
    destruct (String.eqb (terminal_execute_flag a) "-e"); [reflexivity |].
    destruct (String.eqb (terminal_execute_flag a) "-x"); reflexivity.
  - intros [H | [H | H]]; rewrite H; reflexivity.
  - intros H. rewrite H. reflexivity.
  - intros H0 H1 H2 H3.
    destruct (terminal_execute_flag a) as [| ch rest] eqn:Hflag;
      [contradiction H0; reflexivity |].
    cbn [truthy]. rewrite <- Hflag in *.
    apply String.eqb_neq in H1, H2, H3. rewrite H1, H2, H3. reflexivity.
  - apply (arch_on_button_pressed_run None a).
Qed.

Lemma launch_command_shape_witness :
  terminal_cmd (init (mkConfig None None None None (Some "kitty")
                        (Some "--hold") None None None None None)
                  "arch_icon.png" false)
  = ["kitty"; "--hold"; "sudo pacman -Syu"].
Proof.
  apply (proj1 (proj2 (proj2 (proj2 (proj2
           (launch_command_shape
              (init (mkConfig None None None None (Some "kitty")
                       (Some "--hold") None None None None None)
                 "arch_icon.png" false)))))));
    discriminate.
Defined.

(** X14.  A press whose launch fails logs the failure at error level, records
    a launch error and, unless a check is running, ends with a render of
    the red [Error] view; the counts are as before.  The next check clears
    the launch error: after it, the error state is what that check alone
    determines. *)
Theorem launch_failure_shows_error :
  forall (a : ArchUpdatePlugin) e pacman aur flatpak,
    let x := on_button_pressed (Some e) a in
    let a' := state_of x in
    outcome_of x = Ok tt
    /\ check_error a' = Some ("Launch error: " ++ exn_str e)
    /\ In (Log ERROR ("Failed to launch update command: " ++ exn_str e)) (trace_of x)
    /\ current_update_count a' = current_update_count a
    /\ last_update_count a' = last_update_count a
    /\ ends_with_render (display a') (trace_of x)
    /\ (is_checking a = false -> display a' = status_render a' "Error" "#AA0000")
    /\ check_error (state_of (_check_updates pacman aur flatpak a'))
       = check_error (state_of (_check_updates pacman aur flatpak a)).
Proof.
  intros. subst a' x. rewrite arch_on_button_pressed_run. cbv zeta.
  cbn [outcome_of state_of trace_of fst snd].
  split; [reflexivity |]. split; [reflexivity |].
  split; [right; left; reflexivity |].
  split; [reflexivity |]. split; [reflexivity |]. split.
  { eexists (_ :: _ :: nil). reflexivity. }
  split.
  - intros Hc. unfold display.
    cbn [is_checking check_error set_check_error]. rewrite Hc. reflexivity.
  - destruct (check_updates_run pacman aur flatpak
                (set_check_error (Some ("Launch error: " ++ exn_str e)) a))
      as (t1 & -> & _).
    destruct (check_updates_run pacman aur flatpak a) as (t2 & -> & _).
    cbn [state_of fst snd]. rewrite !checked_error. reflexivity.
Qed.

Lemma launch_failure_shows_error_witness :
  is_checking (arch_after 3 fresh) = false
  /\ text (display (state_of (on_button_pressed (Some no_such_file)
                                (arch_after 3 fresh))))
     = "System" ++ nl ++ nl ++ "Error".
Proof.
  split; [reflexivity |].
  rewrite (proj1 (proj2 (proj2 (proj2 (proj2 (proj2 (proj2
             (launch_failure_shows_error (arch_after 3 fresh) no_such_file
                quiet quiet quiet)))))))
           eq_refl).
  reflexivity.
Defined.

End ArchLaunch.

(** ** Counting the lines of a check command *)

Section LineCount.
Import ArchUpdate.

Lemma string_append_assoc (a b c : string) : (a ++ b) ++ c = a ++ b ++ c.
Proof. induction a as [| ch a IH]; cbn; [reflexivity | rewrite IH; reflexivity]. Qed.

Lemma lstrip_all_space s : all_space s = true -> lstrip s = EmptyString.
Proof.
  induction s as [| c r IH]; cbn; [reflexivity |].
  intros H. apply andb_true_iff in H as [Hc Hr]. rewrite Hc. auto.
Qed.

Lemma lstrip_app s t :
  lstrip (s ++ t) = if all_space s then lstrip t else lstrip s ++ t.
Proof.
  induction s as [| c r IH]; cbn; [reflexivity |].
  destruct (is_space c); cbn; [exact IH | reflexivity].
Qed.

Lemma rstrip_snoc_space s c :
  is_space c = true -> rstrip (s ++ String c EmptyString) = rstrip s.
Proof.
  intros Hc. induction s as [| ch r IH]; cbn.
  - rewrite Hc. reflexivity.
  - rewrite IH. reflexivity.
Qed.

Lemma strip_snoc_space s c :
  is_space c = true -> strip (s ++ String c EmptyString) = strip s.
Proof.
  intros Hc. unfold strip. rewrite lstrip_app.
  destruct (all_space s) eqn:Hs.
  - rewrite (lstrip_all_space s Hs). cbn. rewrite Hc. reflexivity.
  - apply rstrip_snoc_space. exact Hc.
Qed.

Lemma strip_cons_space s c : is_space c = true -> strip (String c s) = strip s.
Proof. intros Hc. unfold strip. cbn. rewrite Hc. reflexivity. Qed.

Lemma lstrip_clean s : starts_clean s = true -> lstrip s = s.
Proof.
  destruct s as [| c r]; cbn; [discriminate |].
  intros H. apply negb_true_iff in H. rewrite H. reflexivity.
Qed.

Lemma rstrip_clean s : ends_clean s = true -> rstrip s = s.
Proof.
  induction s as [| c r IH]; [discriminate |].
  destruct r as [| c' r'].
  - cbn. intros H. apply negb_true_iff in H. rewrite H. reflexivity.
  - intros H. change (ends_clean (String c' r') = true) in H.
    change (rstrip (String c (String c' r')))
      with (match rstrip (String c' r') with
            | EmptyString =>
                if is_space c then EmptyString else String c EmptyString
            | r0 => String c r0
            end).
    rewrite (IH H). reflexivity.
Qed.

Lemma strip_clean s :
  starts_clean s = true -> ends_clean s = true -> strip s = s.
Proof.
  intros Hs He. unfold strip. rewrite (lstrip_clean s Hs). apply rstrip_clean, He.
Qed.

Lemma split_lines_nonempty s : split_lines s <> [].
Proof.
  induction s as [| c r IH]; cbn [split_lines]; [discriminate |].
  destruct (Ascii.eqb c (ascii_of_nat 10)); [discriminate |].
  destruct (split_lines r); discriminate.
Qed.

Lemma split_lines_line l rest :
  no_newline l = true ->
  split_lines (l ++ nl ++ rest) = l :: split_lines rest.
Proof.
  induction l as [| c r IH]; intros H.
  - reflexivity.
  - cbn [no_newline] in H. apply andb_true_iff in H as [Hc Hr].
    apply negb_true_iff in Hc.
    change (split_lines (String c r ++ nl ++ rest))
      with (if Ascii.eqb c (ascii_of_nat 10)
            then EmptyString :: split_lines (r ++ nl ++ rest)
            else match split_lines (r ++ nl ++ rest) with
                 | h :: t => String c h :: t
                 | [] => [String c EmptyString]
                 end).
    rewrite Hc, (IH Hr). reflexivity.
Qed.

Lemma split_lines_single l : no_newline l = true -> split_lines l = [l].
Proof.
  induction l as [| c r IH]; intros H; [reflexivity |].
  cbn [no_newline] in H. apply andb_true_iff in H as [Hc Hr].
  apply negb_true_iff in Hc.
  cbn [split_lines]. rewrite Hc, (IH Hr). reflexivity.
Qed.

(** Splitting undoes joining: lines without a newline, joined by
    newlines, split back into the same lines. *)
Lemma split_join (l : string) (ls : list string) :
  forallb no_newline (l :: ls) = true ->
  split_lines (join nl (l :: ls)) = l :: ls.
Proof.
  revert l. induction ls as [| l' rest IH]; intros l H.
  - cbn in H. rewrite andb_true_r in H. apply split_lines_single, H.
  - cbn [forallb] in H. apply andb_true_iff in H as [Hl Hrest].
    change (join nl (l :: l' :: rest)) with (l ++ nl ++ join nl (l' :: rest)).
    rewrite (split_lines_line l _ Hl), (IH l' Hrest). reflexivity.
Qed.

Lemma lines_text_join (l : string) (ls : list string) :
  lines_text (l :: ls) = join nl (l :: ls) ++ nl.
Proof.
  revert l. induction ls as [| l' rest IH]; intros l.
  - cbn [lines_text join]. rewrite string_append_nil_r. reflexivity.
  - change (lines_text (l :: l' :: rest)) with (l ++ nl ++ lines_text (l' :: rest)).
    change (join nl (l :: l' :: rest)) with (l ++ nl ++ join nl (l' :: rest)).
    rewrite (IH l'), !string_append_assoc. reflexivity.
Qed.

Lemma starts_clean_app s t : starts_clean s = true -> starts_clean (s ++ t) = true.
Proof. destruct s; [discriminate | auto]. Qed.

Lemma ends_clean_app s t : ends_clean t = true -> ends_clean (s ++ t) = true.
Proof.
  intros Ht. induction s as [| c r IH]; [exact Ht |].
  change (String c r ++ t) with (String c (r ++ t)).
  remember (r ++ t) as x eqn:E. destruct x; [discriminate IH | exact IH].
Qed.

Lemma join_clean (l : string) (ls : list string) :
  forallb clean_line (l :: ls) = true ->
  starts_clean (join nl (l :: ls)) = true
  /\ ends_clean (join nl (l :: ls)) = true.
Proof.
  revert l. induction ls as [| l' rest IH]; intros l H.
  - cbn in H. rewrite andb_true_r in H. unfold clean_line in H.
    apply andb_true_iff in H as [H _]. apply andb_true_iff in H as [Hs He].
    cbn [join]. auto.
  - cbn [forallb] in H. apply andb_true_iff in H as [Hl Hrest].
    change (join nl (l :: l' :: rest)) with (l ++ nl ++ join nl (l' :: rest)).
    unfold clean_line in Hl. apply andb_true_iff in Hl as [Hl _].
    apply andb_true_iff in Hl as [Hs _].
    destruct (IH l' Hrest) as [_ He].
    split; [apply starts_clean_app, Hs |].
    apply ends_clean_app. apply (ends_clean_app nl). exact He.
Qed.

Lemma clean_lines_split (ls : list string) :
  forallb clean_line ls = true ->
  List.filter truthy (split_lines (strip (lines_text ls))) = ls.
Proof.
  destruct ls as [| l rest]; intros H; [reflexivity |].
  rewrite lines_text_join.
  unfold nl at 2. rewrite strip_snoc_space by reflexivity.
  destruct (join_clean l rest H) as [Hs He].
  rewrite (strip_clean _ Hs He).
  assert (Hnn : forallb no_newline (l :: rest) = true).
  { rewrite forallb_forall in *. intros x Hx. specialize (H x Hx).
    unfold clean_line in H. apply andb_true_iff in H as [_ H]. exact H. }
  rewrite (split_join l rest Hnn).
  assert (Hall : forall x, In x (l :: rest) -> truthy x = true).
  { rewrite forallb_forall in H. intros x Hx. specialize (H x Hx).
    unfold clean_line in H. apply andb_true_iff in H as [H _].
    apply andb_true_iff in H as [H _]. destruct x; [discriminate H | reflexivity]. }
  clear -Hall. induction (l :: rest) as [| x xs IH]; [reflexivity |].
  cbn [List.filter]. rewrite (Hall x (or_introl eq_refl)).
  f_equal. apply IH. intros y Hy. apply Hall. right. exact Hy.
Qed.

End LineCount.

Section LineCountTheorems.
Import ArchUpdate.

Lemma filter_and_le {A} (f g : A -> bool) (l : list A) :
  (List.length (List.filter (fun x => f x && g x) l)
   <= List.length (List.filter f l))%nat.
Proof.
  induction l as [| x xs IH]; cbn [List.filter]; [apply le_n |].
  destruct (f x), (g x); cbn [andb List.length]; lia.
Qed.

Lemma strip_all_space s : all_space s = true -> strip s = EmptyString.
Proof. intros H. unfold strip. rewrite (lstrip_all_space s H). reflexivity. Qed.

(** X15.  White space around the output of a check command does not count:
    a leading or trailing white space character, a final newline among
    them, leaves the number of updates as it is, and output made of
    white space only counts as no update.  White space is what
    [str.strip] removes: of the code points below 256, the characters 9
    to 13, 28 to 32, 133 (next line) and 160 (no-break space).  The AUR count, which keeps
    only the lines with an arrow, is never negative and never more than
    the number of non-empty lines. *)
Theorem count_ignores_surrounding_space :
  forall (s : string) (c : ascii),
    (is_space c = true ->
     count_lines (s ++ String c EmptyString) = count_lines s
     /\ count_lines (String c s) = count_lines s
     /\ count_arrow_lines (s ++ String c EmptyString) = count_arrow_lines s
     /\ count_arrow_lines (String c s) = count_arrow_lines s)
    /\ count_lines (s ++ nl) = count_lines s
    /\ (all_space s = true -> count_lines s = 0 /\ count_arrow_lines s = 0)
    /\ 0 <= count_arrow_lines s <= count_lines s.
Proof.
  intros s c. split; [| split; [| split]].
  - intros Hc. unfold count_lines, count_arrow_lines.
    rewrite (strip_snoc_space s c Hc), (strip_cons_space s c Hc).
    repeat split.
  - unfold count_lines, nl. rewrite strip_snoc_space by reflexivity.
    reflexivity.
  - intros H. unfold count_lines, count_arrow_lines.
    rewrite (strip_all_space s H). split; reflexivity.
  - unfold count_lines, count_arrow_lines. split; [apply Nat2Z.is_nonneg |].
    apply Nat2Z.inj_le. apply filter_and_le.
Qed.

Lemma count_ignores_surrounding_space_witness :
  count_lines ("core 1-1 -> 1-2" ++ String (ascii_of_nat 9) EmptyString)
  = count_lines "core 1-1 -> 1-2".
Proof.
  apply (proj1 (proj1 (count_ignores_surrounding_space "core 1-1 -> 1-2"
                         (ascii_of_nat 9)) eq_refl)).
Defined.

Lemma clean_line_truthy l : clean_line l = true -> truthy l = true.
Proof.
  unfold clean_line. intros H. apply andb_true_iff in H as [H _].
  apply andb_true_iff in H as [H _]. destruct l; [discriminate H | reflexivity].
Qed.

Lemma lines_text_truthy l ls : clean_line l = true -> truthy (lines_text (l :: ls)) = true.
Proof.
  intros H. apply clean_line_truthy in H. destruct l; [discriminate H | reflexivity].
Qed.

(** X16.  The pacman and Flatpak checks count the lines the command printed,
    and the AUR check those of them that hold an arrow: for output made
    of clean lines (not empty, without a newline, and with no white
    space, in the sense of [str.strip], at either end), each ended by a
    newline, the check returns the number of lines, whatever the plugin
    state; splitting undoes joining by newlines. *)
Theorem count_is_number_of_lines :
  forall (ls : list string) (a : ArchUpdatePlugin)
         (Hclean : forallb clean_line ls = true),
    count_lines (lines_text ls) = Z.of_nat (List.length ls)
    /\ count_arrow_lines (lines_text ls)
       = Z.of_nat (List.length (List.filter (contains "->") ls))
    /\ outcome_of (_check_pacman (ProcCompleted (lines_text ls)) a)
       = Ok (Z.of_nat (List.length ls))
    /\ outcome_of (_check_flatpak (ProcCompleted (lines_text ls)) a)
       = Ok (Z.of_nat (List.length ls))
    /\ outcome_of (_check_aur (ProcCompleted (lines_text ls)) a)
       = Ok (Z.of_nat (List.length (List.filter (contains "->") ls)))
    /\ (ls <> [] -> split_lines (join nl ls) = ls).
Proof.
  intros ls a Hclean.
  pose proof (clean_lines_split ls Hclean) as Hsplit.
  assert (Hc : count_lines (lines_text ls) = Z.of_nat (List.length ls)).
  { unfold count_lines. rewrite Hsplit. reflexivity. }
  assert (Ha : count_arrow_lines (lines_text ls)
               = Z.of_nat (List.length (List.filter (contains "->") ls))).
  { unfold count_arrow_lines.
    assert (E : forall l : list string,
               List.filter (fun line => truthy line && contains "->" line) l
               = List.filter (contains "->") (List.filter truthy l)).
    { induction l as [| x xs IH]; [reflexivity |].
      cbn [List.filter]. destruct (truthy x); cbn [andb List.filter];
        rewrite IH; reflexivity. }
    rewrite E, Hsplit. reflexivity. }
  assert (Hfound : forall count n,
             count (lines_text ls) = Z.of_nat n ->
             (ls = [] -> n = 0%nat) ->
             lines_found count (ProcCompleted (lines_text ls)) = Z.of_nat n).
  { intros count n Hn H0. unfold lines_found.
    destruct ls as [| l rest]; [rewrite (H0 eq_refl); reflexivity |].
    cbn [forallb] in Hclean. apply andb_true_iff in Hclean as [Hl _].
    rewrite (lines_text_truthy l rest Hl). exact Hn. }
  split; [exact Hc |]. split; [exact Ha |]. split; [| split; [| split]].
  - destruct (check_pacman_run (ProcCompleted (lines_text ls)) a) as (t & -> & _).
    cbn [outcome_of fst]. unfold pacman_found.
    rewrite (Hfound count_lines _ Hc); [reflexivity |]. intros ->. reflexivity.
  - destruct (check_flatpak_run (ProcCompleted (lines_text ls)) a) as (t & -> & _).
    cbn [outcome_of fst].
    rewrite (Hfound count_lines _ Hc); [reflexivity |]. intros ->. reflexivity.
  - destruct (check_aur_run (ProcCompleted (lines_text ls)) a) as (t & -> & _).
    cbn [outcome_of fst].
    rewrite (Hfound count_arrow_lines _ Ha); [reflexivity |]. intros ->. reflexivity.
  - intros Hne. destruct ls as [| l rest]; [contradiction Hne; reflexivity |].
    apply split_join. rewrite forallb_forall in *. intros x Hx.
    specialize (Hclean x Hx). unfold clean_line in Hclean.
    apply andb_true_iff in Hclean as [_ H]. exact H.
Qed.

Lemma count_is_number_of_lines_witness :
  forallb clean_line ["linux 6.1-1 -> 6.2-1"; ":: ignoring package upgrade";
                      "vim 9.0-1 -> 9.1-1"] = true
  /\ outcome_of (_check_aur
                   (ProcCompleted
                      (lines_text ["linux 6.1-1 -> 6.2-1";
                                   ":: ignoring package upgrade";
                                   "vim 9.0-1 -> 9.1-1"])) three_sources)
     = Ok 2
  /\ outcome_of (_check_pacman
                   (ProcCompleted
                      (lines_text ["linux 6.1-1 -> 6.2-1";
                                   ":: ignoring package upgrade";
                                   "vim 9.0-1 -> 9.1-1"])) three_sources)
     = Ok 3.
Proof.
  assert (H : forallb clean_line ["linux 6.1-1 -> 6.2-1";
                                  ":: ignoring package upgrade";
                                  "vim 9.0-1 -> 9.1-1"] = true) by reflexivity.
  split; [exact H |].
  destruct (count_is_number_of_lines _ three_sources H)
    as (_ & _ & Hp & _ & Ha & _).
  split; [exact Ha | exact Hp].
Defined.

End LineCountTheorems.

(** ** The optional sub-sources and the cadence of checks *)

Section ArchSources.
Import ArchUpdate.

Lemma existsb_false_filter {A} (f : A -> bool) (l : list A) :
  List.existsb f l = false -> List.filter f l = [].
Proof.
  induction l as [| x xs IH]; [reflexivity |].
  cbn [List.existsb List.filter]. intros H.
  apply orb_false_iff in H as [Hx Hxs]. rewrite Hx. apply IH, Hxs.
Qed.

(** X17.  A failing AUR or Flatpak command never fails the check and never
    puts the button in its error state: the sub-check returns zero, leaves
    the plugin as it is and logs one line, at error level, except that a
    missing [flatpak] program is logged as a warning.  The error state
    after a check does not depend on what the AUR and Flatpak commands
    did, and when both fail the total is the pacman count. *)
Theorem optional_sources_degrade_to_zero :
  forall (a : ArchUpdatePlugin) e pacman aur flatpak aur' flatpak' e1 e2,
    (exists msg, _check_aur (ProcRaises e) a = (Ok 0, a, [Log ERROR msg]))
    /\ (exists msg,
          _check_flatpak (ProcRaises e) a
          = (Ok 0, a,
             [Log (match exn_cls e with
                   | FileNotFoundError => WARNING
                   | _ => ERROR
                   end) msg]))
    /\ check_error (state_of (_check_updates pacman aur flatpak a))
       = check_error (state_of (_check_updates pacman aur' flatpak' a))
    /\ current_update_count
         (state_of (_check_updates pacman (ProcRaises e1) (ProcRaises e2) a))
       = pacman_found pacman.
Proof.
  intros. split; [| split; [| split]].
  - destruct e as [cls msg]. destruct cls; eexists; reflexivity.
  - destruct e as [cls msg]. destruct cls; eexists; reflexivity.
  - destruct (check_updates_run pacman aur flatpak a) as (t1 & -> & _).
    destruct (check_updates_run pacman aur' flatpak' a) as (t2 & -> & _).
    cbn [state_of fst snd]. rewrite !checked_error. reflexivity.
  - destruct (check_updates_run pacman (ProcRaises e1) (ProcRaises e2) a)
      as (t & -> & _).
    cbn [state_of fst snd].
    destruct (checked_counts pacman (ProcRaises e1) (ProcRaises e2) a)
      as (_ & _ & _ & ->).
    unfold total_found, aur_found, flatpak_found.
    destruct (truthy (aur_check_command a)), (flatpak_check a); cbn; lia.
Qed.

Lemma arch_update_due t pacman aur flatpak (a : ArchUpdatePlugin) :
  is_checking a = false ->
  elapsed t (last_check_time a) (check_interval a) = true ->
  state_of (update t pacman aur flatpak a)
  = set_last_check_time t (checked pacman aur flatpak a).
Proof.
  intros Hc Hd. destruct (arch_update_run t pacman aur flatpak a) as (tr & ->).
  rewrite Hc, Hd. reflexivity.
Qed.

Lemma checked_keeps_cadence pacman aur flatpak (a : ArchUpdatePlugin) :
  last_check_time (checked pacman aur flatpak a) = last_check_time a
  /\ check_interval (checked pacman aur flatpak a) = check_interval a
  /\ is_checking (checked pacman aur flatpak a) = false
  /\ current_update_count (checked pacman aur flatpak a)
     = total_found pacman aur flatpak a
  /\ last_update_count (checked pacman aur flatpak a)
     = total_found pacman aur flatpak a.
Proof. destruct a. repeat split. Qed.

Lemma arch_waiting_callback t cb (a : ArchUpdatePlugin) :
  arch_waits t (check_interval a) cb ->
  last_check_time a = t ->
  let q := state_of (dispatch cb a) in
  current_update_count q = current_update_count a
  /\ last_update_count q = last_update_count a
  /\ last_check_time q = last_check_time a
  /\ check_interval q = check_interval a.
Proof.
  intros Hw Ht. cbv zeta.
  destruct cb as [pacman aur flatpak | launch | | page button | |
                  c pacman aur flatpak | t' pacman aur flatpak];
    cbn [arch_waits dispatch] in *;
    try contradiction; try (repeat split; reflexivity).
  - rewrite arch_on_button_pressed_run. destruct launch; repeat split.
  - destruct (arch_update_run t' pacman aur flatpak a) as (tr & ->).
    replace (elapsed t' (last_check_time a) (check_interval a)) with false;
      [rewrite andb_false_r; repeat split |].
    symmetry. apply not_true_iff_false. rewrite elapsed_iff, Ht.
    apply Qlt_not_le. exact Hw.
Qed.

(** X18.  The ticks check at most once per check interval.  A tick that
    finds no check running and the interval elapsed runs a check and
    stores its own clock reading as the time of the check.  From then
    on, no sequence of presses, visibility callbacks and ticks checks
    again as long as the ticks come before a full interval has passed:
    the counts and the time of the check stay as they are, and such a
    tick runs no command, renders nothing and changes nothing.  The
    start callback and a configuration update are outside this cadence:
    each of them checks at once, whatever the time of the last check,
    and leaves that time as it is.  So the first tick after start, whose
    clock reading is at least one interval after zero, checks again, however
    short the time since the check of the start callback. *)
Theorem ticks_check_once_per_interval :
  forall (a : ArchUpdatePlugin) t pacman aur flatpak (cbs : list callback)
         t' pacman' aur' flatpak' c c0 path present
         (Hidle : is_checking a = false)
         (Hdue : elapsed t (last_check_time a) (check_interval a) = true)
         (Hwait : Forall (arch_waits t (check_interval a)) cbs)
         (Hsoon : (t' - t < inject_Z (check_interval a))%Q),
    let a1 := state_of (update t pacman aur flatpak a) in
    let q := run_callbacks cbs a1 in
    let s := state_of (on_start pacman' aur' flatpak' q) in
    let x := state_of (on_config_update (arch_accepted c) pacman' aur' flatpak' q) in
    let started := state_of (on_start pacman aur flatpak (init c0 path present)) in
    last_check_time a1 = t
    /\ current_update_count a1 = total_found pacman aur flatpak a
    /\ last_update_count a1 = total_found pacman aur flatpak a
    /\ current_update_count q = current_update_count a1
    /\ last_update_count q = last_update_count a1
    /\ last_check_time q = t
    /\ update t' pacman' aur' flatpak' q = (Ok tt, q, [])
    /\ (current_update_count s = total_found pacman' aur' flatpak' q
        /\ last_check_time s = t)
    /\ (current_update_count x
        = total_found pacman' aur' flatpak' (arch_configured c q)
        /\ last_check_time x = t)
    /\ (current_update_count started
        = total_found pacman aur flatpak (init c0 path present)
        /\ last_check_time started = 0%Q
        /\ (elapsed t' 0 (check_interval (init c0 path present)) = true ->
            state_of (update t' pacman' aur' flatpak' started)
            = set_last_check_time t' (checked pacman' aur' flatpak' started))).
Proof.
  intros.
  assert (Ea1 : a1 = set_last_check_time t (checked pacman aur flatpak a))
    by (apply arch_update_due; assumption).
  destruct (checked_keeps_cadence pacman aur flatpak a)
    as (_ & Hci & _ & Hcur & Hlast).
  assert (Ht : last_check_time a1 = t) by (rewrite Ea1; reflexivity).
  assert (Hi : check_interval a1 = check_interval a)
    by (rewrite Ea1, <- Hci; reflexivity).
  assert (Hrun : forall l a0,
             Forall (arch_waits t (check_interval a)) l ->
             last_check_time a0 = t -> check_interval a0 = check_interval a ->
             current_update_count (run_callbacks l a0) = current_update_count a0
             /\ last_update_count (run_callbacks l a0) = last_update_count a0
             /\ last_check_time (run_callbacks l a0) = t
             /\ check_interval (run_callbacks l a0) = check_interval a).
  { induction l as [| cb rest IH]; intros a0 Hl Ht0 Hi0;
      cbn [run_callbacks]; [auto |].
    apply Forall_cons_iff in Hl as [Hcb Hrest].
    rewrite <- Hi0 in Hcb.
    destruct (arch_waiting_callback t cb a0 Hcb Ht0) as (Hc & Hla & Hpt & Hpi).
    destruct (IH (state_of (dispatch cb a0)) Hrest)
      as (Hc' & Hla' & Hpt' & Hpi'); [congruence | congruence |].
    repeat split; congruence. }
  destruct (Hrun cbs a1 Hwait Ht Hi) as (Hc & Hl & Hqt & Hqi).
  fold q in Hc, Hl, Hqt, Hqi.
  split; [exact Ht |].
  split; [rewrite Ea1, <- Hcur; reflexivity |].
  split; [rewrite Ea1, <- Hlast; reflexivity |].
  split; [exact Hc |]. split; [exact Hl |]. split; [exact Hqt |].
  split.
  { destruct (arch_update_run t' pacman' aur' flatpak' q) as (tr & ->).
    replace (elapsed t' (last_check_time q) (check_interval q)) with false;
      [rewrite andb_false_r; reflexivity |].
    symmetry. apply not_true_iff_false. rewrite elapsed_iff, Hqt, Hqi.
    apply Qlt_not_le. exact Hsoon. }
  split.
  { subst s. destruct (arch_on_start_run pacman' aur' flatpak' q) as (tr & -> & _).
    cbn [state_of fst snd].
    destruct (checked_keeps_cadence pacman' aur' flatpak' q)
      as (-> & _ & _ & -> & _).
    split; [reflexivity | exact Hqt]. }
  split.
  { subst x.
    pose proof (arch_on_config_update_run (arch_accepted c) pacman' aur' flatpak' q)
      as E.
    cbv zeta in E. destruct E as (tr & -> & _).
    rewrite arch_apply_config_accepted. cbn [outcome_of state_of fst snd].
    destruct (checked_keeps_cadence pacman' aur' flatpak' (arch_configured c q))
      as (-> & _ & _ & -> & _).
    split; [reflexivity |]. rewrite <- Hqt. destruct q; reflexivity. }
  subst started.
  destruct (arch_on_start_run pacman aur flatpak (init c0 path present))
    as (tr & -> & _).
  cbn [state_of fst snd].
  destruct (checked_keeps_cadence pacman aur flatpak (init c0 path present))
    as (Hst & Hsi & Hsc & Hscur & _).
  split; [exact Hscur |]. split; [rewrite Hst; reflexivity |].
  intros Hd. apply arch_update_due; [exact Hsc |].
  rewrite Hst, Hsi. exact Hd.
Qed.

Lemma ticks_check_once_per_interval_witness :
  is_checking fresh = false
  /\ elapsed 3600 (last_check_time fresh) (check_interval fresh) = true
  /\ Forall (arch_waits 3600 (check_interval fresh))
       [Update 4000%Q (ProcCompleted (pending 9)) quiet quiet;
        OnButtonPressed None;
        Update 7199%Q (ProcCompleted (pending 9)) quiet quiet]
  /\ (7199 - 3600 < inject_Z (check_interval fresh))%Q
  /\ current_update_count
       (run_callbacks
          [Update 4000%Q (ProcCompleted (pending 9)) quiet quiet;
           OnButtonPressed None;
           Update 7199%Q (ProcCompleted (pending 9)) quiet quiet]
          (state_of (update 3600%Q (ProcCompleted (pending 2)) quiet quiet fresh)))
     = 2.
Proof.
  assert (H0 : is_checking fresh = false) by reflexivity.
  assert (H1 : elapsed 3600 (last_check_time fresh) (check_interval fresh) = true)
    by reflexivity.
  assert (H2 : Forall (arch_waits 3600 (check_interval fresh))
                 [Update 4000%Q (ProcCompleted (pending 9)) quiet quiet;
                  OnButtonPressed None;
                  Update 7199%Q (ProcCompleted (pending 9)) quiet quiet]).
  { repeat constructor. }
  assert (H3 : (7199 - 3600 < inject_Z (check_interval fresh))%Q) by reflexivity.
  split; [exact H0 |]. split; [exact H1 |]. split; [exact H2 |].
  split; [exact H3 |].
  destruct (ticks_check_once_per_interval fresh 3600%Q
              (ProcCompleted (pending 2)) quiet quiet _ 7199%Q
              (ProcCompleted (pending 9)) quiet quiet
              default_config default_config EmptyString false H0 H1 H2 H3)
    as (_ & Hcur & _ & Hq & _).
  rewrite Hq, Hcur. vm_compute. reflexivity.
Defined.

End ArchSources.

(** ** Page switch requests, start and reconfiguration *)

Section ArchNotify.
Import ArchUpdate.

Lemma filter_snoc_render (f : event -> bool) t r :
  List.filter f (t ++ [UpdateImageRender r])%list
  = (List.filter f t ++ (if f (UpdateImageRender r) then [UpdateImageRender r] else []))%list.
Proof. rewrite List.filter_app. reflexivity. Qed.

Ltac step_check :=
  match goal with
  | |- context [_check_pacman ?r ?s] =>
      let t := fresh "t" in
      let E := fresh "E" in
      let P := fresh "P" in
      destruct (check_pacman_run r s) as (t & E & P & _ & _);
      apply existsb_false_filter in P; rewrite E; clear E; cbn
  | |- context [_check_aur ?r ?s] =>
      let t := fresh "t" in
      let E := fresh "E" in
      let P := fresh "P" in
      destruct (check_aur_run r s) as (t & E & P & _);
      apply existsb_false_filter in P; rewrite E; clear E; cbn
  | |- context [_check_flatpak ?r ?s] =>
      let t := fresh "t" in
      let E := fresh "E" in
      let P := fresh "P" in
      destruct (check_flatpak_run r s) as (t & E & P & _);
      apply existsb_false_filter in P; rewrite E; clear E; cbn
  end.

Opaque _check_pacman _check_aur _check_flatpak.

Lemma check_updates_body_switches pacman aur flatpak (p : ArchUpdatePlugin) :
  List.filter is_page_switch (trace_of (check_updates_body pacman aur flatpak p))
  = if notifies (total_found pacman aur flatpak p) p
    then [RequestPageSwitch (notify_duration p)] else [].
Proof.
  unfold notifies, total_found, aur_found, flatpak_found, trace_of.
  destruct p. unfold check_updates_body, bind. cbn.
  step_check.
  destruct (truthy aur_check_command0); cbn; [step_check |];
    (destruct flatpak_check0; cbn; [step_check |]).
  all: repeat match goal with
       | |- context [if ?b then _ else _] => destruct b eqn:?
       | |- context [when ?b _] => destruct b eqn:?; cbn
       end.
  all: try (exfalso;
            match goal with
            | H : _ = true |- _ => cbn in H; discriminate H
            | H : _ = false |- _ => cbn in H; discriminate H
            end).
  all: cbn; repeat (rewrite List.filter_app; cbn);
    rewrite ?P, ?P0, ?P1; reflexivity.
Qed.

Transparent _check_pacman _check_aur _check_flatpak.

Lemma check_updates_trace pacman aur flatpak (a : ArchUpdatePlugin) :
  trace_of (_check_updates pacman aur flatpak a)
  = (trace_of (check_updates_body pacman aur flatpak
                 (set_check_error None (set_is_checking true a)))
     ++ [UpdateImageRender (display (checked pacman aur flatpak a))])%list.
Proof.
  destruct (check_updates_body_run pacman aur flatpak
              (set_check_error None (set_is_checking true a)))
    as (t & E & _).
  unfold _check_updates. rewrite (guarded_check_ok _ _ _ _ E), E. reflexivity.
Qed.

Lemma check_updates_page_switches pacman aur flatpak (a : ArchUpdatePlugin) :
  List.filter is_page_switch (trace_of (_check_updates pacman aur flatpak a))
  = if notifies (total_found pacman aur flatpak a) a
    then [RequestPageSwitch (notify_duration a)] else [].
Proof.
  rewrite check_updates_trace, filter_snoc_render. cbn [is_page_switch].
  rewrite app_nil_r, check_updates_body_switches. destruct a; reflexivity.
Qed.

Lemma check_updates_renders pacman aur flatpak (a : ArchUpdatePlugin) :
  List.filter is_render (trace_of (_check_updates pacman aur flatpak a))
  = [UpdateImageRender (display (checked pacman aur flatpak a))].
Proof.
  destruct (check_updates_run pacman aur flatpak a) as (t & -> & _ & Hr).
  cbn [trace_of snd]. rewrite filter_snoc_render. cbn [is_render].
  apply existsb_false_filter in Hr. rewrite Hr. reflexivity.
Qed.

(** X19.  A check asks the host for a page switch at most once, and then for
    the configured notify duration; it asks for none when the total has
    not grown beyond the stored count, when no check has completed
    before, or when [notify_on_updates] is off.  A check renders exactly
    once, at its end. *)
Theorem check_notifies_at_most_once :
  forall (a : ArchUpdatePlugin) pacman aur flatpak,
    let x := _check_updates pacman aur flatpak a in
    let total := total_found pacman aur flatpak a in
    (List.filter is_page_switch (trace_of x) = []
     \/ List.filter is_page_switch (trace_of x)
        = [RequestPageSwitch (notify_duration a)])
    /\ (total <= last_update_count a -> List.filter is_page_switch (trace_of x) = [])
    /\ (last_update_count a = -1 -> List.filter is_page_switch (trace_of x) = [])
    /\ (notify_on_updates a = false -> List.filter is_page_switch (trace_of x) = [])
    /\ List.filter is_render (trace_of x)
       = [UpdateImageRender (display (state_of x))].
Proof.
  intros a pacman aur flatpak x total. subst x.
  rewrite check_updates_page_switches, check_updates_renders. fold total.
  split; [destruct (notifies total a); [right | left]; reflexivity |].
  split; [| split; [| split]].
  - intros H. unfold notifies.
    replace (total >? last_update_count a) with false
      by (symmetry; rewrite Z.gtb_ltb; apply Z.ltb_ge; exact H).
    rewrite andb_false_r. reflexivity.
  - intros H. unfold notifies. rewrite H. reflexivity.
  - intros H. unfold notifies. rewrite H, andb_false_r. reflexivity.
  - destruct (check_updates_run pacman aur flatpak a) as (t & -> & _).
    reflexivity.
Qed.

Lemma check_notifies_at_most_once_witness :
  last_update_count fresh = -1
  /\ List.filter is_page_switch
       (trace_of (_check_updates (ProcCompleted (pending 40)) quiet quiet fresh))
     = [].
Proof.
  split; [reflexivity |].
  apply (proj1 (proj2 (proj2 (check_notifies_at_most_once fresh
                                (ProcCompleted (pending 40)) quiet quiet)))).
  reflexivity.
Defined.

(** X20.  At start the Arch update plugin renders the gray [Starting...] view,
    runs its first check at once and renders the outcome: two renders
    in all, no page switch request, and a stored count that is no longer
    -1.  The AlertManager plugin, at start, only renders its count view:
    it sends no request and changes nothing. *)
Theorem start_runs_first_check :
  forall c path present pacman aur flatpak (p : AlertManager.AlertManagerPlugin),
    let a0 := init c path present in
    let x := on_start pacman aur flatpak a0 in
    List.filter is_render (trace_of x)
    = [UpdateImageRender (status_render a0 "Starting..." "#555555");
       UpdateImageRender (display (state_of x))]
    /\ List.filter is_page_switch (trace_of x) = []
    /\ state_of x = checked pacman aur flatpak a0
    /\ last_update_count (state_of x) = total_found pacman aur flatpak a0
    /\ 0 <= last_update_count (state_of x)
    /\ AlertManager.on_start p
       = (Ok tt, p,
          [Log INFO ("AlertManager plugin started for "
                     ++ AlertManager.environment_name p);
           Log INFO ("Monitoring: " ++ AlertManager.alertmanager_url p);
           UpdateImageRender (AlertManager.display p)]).
Proof.
  intros. subst x.
  destruct (arch_on_start_run pacman aur flatpak a0) as (t & E & Hs & Hr).
  rewrite E. cbn [state_of trace_of fst snd].
  apply existsb_false_filter in Hr.
  assert (Hn : notifies (total_found pacman aur flatpak a0) a0 = false) by reflexivity.
  rewrite Hn in Hs. apply existsb_false_filter in Hs.
  destruct (checked_counts_ok pacman aur flatpak a0) as [_ Hl].
  split; [| split; [| split; [| split; [| split]]]].
  - cbn [List.filter is_render]. rewrite filter_snoc_render, Hr. reflexivity.
  - cbn [List.filter is_page_switch]. rewrite filter_snoc_render, Hs. reflexivity.
  - reflexivity.
  - reflexivity.
  - exact Hl.
  - reflexivity.
Qed.

(** X21.  A configuration update of the Arch update plugin whose integer
    values convert keeps the value of every key the new configuration
    leaves out, applies the new values and then checks with them: a
    Flatpak check switched off or an AUR command emptied by the update
    contributes nothing to this very check, and with [notify_on_updates]
    switched off no page switch is requested.  It renders the outcome
    twice, once at the end of the check and once more after it.  When
    [int] rejects the value of [check_interval], the update raises at that
    assignment: the six attributes assigned before it have their new
    values, the others their old ones, and there is neither a check nor a
    render.  When [int] accepts it and rejects the value of
    [notify_duration], the update raises at that assignment, with
    [notify_on_updates] at its new value, the notify duration, the zero
    label switch and the system name as they were, and again neither a
    check nor a render.  An update raises whenever one of the two values
    is rejected. *)
Theorem arch_config_update_takes_effect :
  forall (c : config Z) (bad : config int_arg) pacman aur flatpak
         (a : ArchUpdatePlugin) e,
    let x := on_config_update (arch_accepted c) pacman aur flatpak a in
    let y := on_config_update bad pacman aur flatpak a in
    arch_configured default_config a = a
    /\ outcome_of x = Ok tt
    /\ state_of x = checked pacman aur flatpak (arch_configured c a)
    /\ List.filter is_render (trace_of x)
       = [UpdateImageRender (display (state_of x));
          UpdateImageRender (display (state_of x))]
    /\ (cfg_flatpak_check c = Some false -> flatpak_updates (state_of x) = 0)
    /\ (cfg_aur_check_command c = Some EmptyString -> aur_updates (state_of x) = 0)
    /\ (cfg_notify_on_updates c = Some false ->
        requests_page_switch (trace_of x) = false)
    /\ (cfg_check_interval bad = Some (Rejected e) ->
        outcome_of y = Raise e
        /\ trace_of y = [Log INFO "Configuration updated"]
        /\ check_command (state_of y)
           = dict_get (cfg_check_command bad) (check_command a)
        /\ aur_check_command (state_of y)
           = dict_get (cfg_aur_check_command bad) (aur_check_command a)
        /\ flatpak_check (state_of y)
           = dict_get (cfg_flatpak_check bad) (flatpak_check a)
        /\ update_command (state_of y)
           = dict_get (cfg_update_command bad) (update_command a)
        /\ terminal (state_of y) = dict_get (cfg_terminal bad) (terminal a)
        /\ terminal_execute_flag (state_of y)
           = dict_get (cfg_terminal_execute_flag bad) (terminal_execute_flag a)
        /\ check_interval (state_of y) = check_interval a
        /\ notify_on_updates (state_of y) = notify_on_updates a
        /\ notify_duration (state_of y) = notify_duration a
        /\ show_count_when_zero (state_of y) = show_count_when_zero a
        /\ system_name (state_of y) = system_name a
        /\ current_update_count (state_of y) = current_update_count a
        /\ last_update_count (state_of y) = last_update_count a
        /\ last_check_time (state_of y) = last_check_time a)
    /\ (cfg_notify_duration bad = Some (Rejected e) ->
        (forall e', cfg_check_interval bad <> Some (Rejected e')) ->
        outcome_of y = Raise e
        /\ trace_of y = [Log INFO "Configuration updated"]
        /\ notify_on_updates (state_of y)
           = dict_get (cfg_notify_on_updates bad) (notify_on_updates a)
        /\ notify_duration (state_of y) = notify_duration a
        /\ show_count_when_zero (state_of y) = show_count_when_zero a
        /\ system_name (state_of y) = system_name a
        /\ current_update_count (state_of y) = current_update_count a
        /\ last_update_count (state_of y) = last_update_count a
        /\ last_check_time (state_of y) = last_check_time a)
    /\ ((exists c', bad = arch_accepted c') \/ (exists e', outcome_of y = Raise e')).
Proof.
  intros. subst x y.
  pose proof (arch_on_config_update_run (arch_accepted c) pacman aur flatpak a) as H.
  cbv zeta in H. destruct H as (t & E & Hs & Hr).
  rewrite E. clear E. rewrite arch_apply_config_accepted in *.
  cbn [outcome_of state_of trace_of fst snd] in *.
  destruct (checked_counts pacman aur flatpak (arch_configured c a))
    as (_ & Eu & Ef & _). cbv zeta in Eu, Ef.
  split; [destruct a; reflexivity |]. split; [reflexivity |].
  split; [reflexivity |]. split; [| split; [| split; [| split; [| split; [| split]]]]].
  - cbn [List.filter is_render]. rewrite !filter_snoc_render. cbn [is_render].
    rewrite (existsb_false_filter _ _ Hr). reflexivity.
  - intros Hc. rewrite Ef. unfold flatpak_found. cbn [flatpak_check arch_configured].
    rewrite Hc. reflexivity.
  - intros Hc. rewrite Eu. unfold aur_found. cbn [aur_check_command arch_configured].
    rewrite Hc. reflexivity.
  - intros Hc. unfold requests_page_switch in *.
    cbn [existsb is_page_switch orb]. rewrite !existsb_snoc_render.
    cbn [is_page_switch]. rewrite !orb_false_r, Hs. unfold notifies.
    cbn [notify_on_updates arch_configured]. rewrite Hc. apply andb_false_r.
  - intros Hbad. destruct a. destruct bad as [cc ac fc uc te tf ci nu nd sc sn].
    cbn in Hbad. subst ci. cbn. repeat split.
  - intros Hbad Hno. destruct a.
    destruct bad as [cc ac fc uc te tf ci nu nd sc sn].
    cbn in Hbad, Hno. subst nd.
    destruct ci as [[i | e'] |];
      [| exfalso; apply (Hno e'); reflexivity |]; cbn; repeat split.
  - destruct a. destruct bad as [cc ac fc uc te tf ci nu nd sc sn].
    destruct ci as [[i | e1] |]; try (right; eexists; reflexivity);
      destruct nd as [[j | e2] |]; try (right; eexists; reflexivity); left.
    + exists (mkConfig cc ac fc uc te tf (Some i) nu (Some j) sc sn).
      reflexivity.
    + exists (mkConfig cc ac fc uc te tf (Some i) nu None sc sn).
      reflexivity.
    + exists (mkConfig cc ac fc uc te tf None nu (Some j) sc sn).
      reflexivity.
    + exists (mkConfig cc ac fc uc te tf None nu None sc sn).
      reflexivity.
Qed.

Lemma arch_config_update_takes_effect_witness :
  flatpak_updates
    (state_of (on_config_update
                 (arch_accepted
                    (mkConfig None None (Some false) None None None None None
                       None None None))
                 quiet quiet (ProcCompleted (pending 6)) three_sources)) = 0
  /\ trace_of (on_config_update
                 (mkConfig (Some "checkupdates --nocolor") None None None None
                    None (Some (Rejected (mkExn OtherException
                                            "int() argument must be a string")))
                    None None None None)
                 quiet quiet quiet three_sources)
     = [Log INFO "Configuration updated"].
Proof.
  split.
  - destruct (arch_config_update_takes_effect
                (mkConfig None None (Some false) None None None None None None
                   None None)
                (arch_accepted default_config)
                quiet quiet (ProcCompleted (pending 6)) three_sources
                no_such_file) as (_ & _ & _ & _ & Hoff & _).
    apply Hoff. reflexivity.
  - destruct (arch_config_update_takes_effect default_config
                (mkConfig (Some "checkupdates --nocolor") None None None None
                   None (Some (Rejected (mkExn OtherException
                                           "int() argument must be a string")))
                   None None None None)
                quiet quiet quiet three_sources
                (mkExn OtherException "int() argument must be a string"))
      as (_ & _ & _ & _ & _ & _ & _ & Hbad & _).
    destruct (Hbad eq_refl) as (_ & Ht & _). exact Ht.
Defined.

End ArchNotify.

(** ** Opening AlertManager *)

Section AlertManagerPress.
Import AlertManager.



End AlertManagerPress.

(** ** What is never rendered *)

Section ArchNeverChecking.
Import ArchUpdate.

Lemma dispatch_renders cb (a : ArchUpdatePlugin) :
  is_checking a = false ->
  Forall idle_render (List.filter is_render (trace_of (dispatch cb a))).
Proof.
  intros Hidle.
  assert (Ha : idle_render (UpdateImageRender (display a)))
    by (exists a; auto).
  assert (Hc : forall pacman aur flatpak a0,
             idle_render (UpdateImageRender (display (checked pacman aur flatpak a0))))
    by (intros; eexists; split; reflexivity).
  destruct cb as [pacman aur flatpak | launch | | page button | |
                  c pacman aur flatpak | t pacman aur flatpak];
    cbn [dispatch].
  - destruct (arch_on_start_run pacman aur flatpak a) as (t & -> & _ & Hr).
    cbn [trace_of snd List.filter is_render].
    rewrite filter_snoc_render, (existsb_false_filter _ _ Hr).
    cbn [app is_render].
    apply Forall_cons; [exact Ha |]. apply Forall_cons; [apply Hc | apply Forall_nil].
  - rewrite arch_on_button_pressed_run. destruct launch as [e |];
      cbn [trace_of snd List.filter is_render].
    + apply Forall_cons; [| apply Forall_nil].
      eexists; split; [reflexivity | exact Hidle].
    + apply Forall_nil.
  - apply Forall_nil.
  - unfold on_button_visible, bind, log, emit. rewrite display_run.
    cbn [trace_of snd app List.filter is_render].
    apply Forall_cons; [exact Ha | apply Forall_nil].
  - apply Forall_nil.
  - pose proof (arch_on_config_update_run c pacman aur flatpak a) as H.
    cbv zeta in H. destruct H as (t & -> & _ & Hr).
    destruct (outcome_of (apply_config c a));
      cbn [trace_of snd List.filter is_render]; [| apply Forall_nil].
    rewrite !filter_snoc_render, (existsb_false_filter _ _ Hr).
    cbn [app is_render].
    apply Forall_cons; [apply Hc |]. apply Forall_cons; [apply Hc | apply Forall_nil].
  - destruct (check_updates_run pacman aur flatpak a) as (tr & E & _ & Hr).
    unfold update, bind, get, when.
    destruct (negb (is_checking a) && elapsed t _ _); [| apply Forall_nil].
    rewrite E. cbn [trace_of snd modify]. rewrite !app_nil_r.
    cbn [app]. rewrite filter_snoc_render, (existsb_false_filter _ _ Hr).
    cbn [app is_render].
    apply Forall_cons; [apply Hc | apply Forall_nil].
Qed.

(** X22.  No render is ever made while [is_checking] is set: under any
    sequence of host callbacks from start, every render the plugin sends
    is the display of a state whose [is_checking] flag is off.  The gray
    [Checking...] view of [_update_display] is therefore never shown. *)
Theorem checking_view_never_rendered :
  forall (cbs : list callback) c path present r,
    In (UpdateImageRender r) (callbacks_trace cbs (init c path present)) ->
    exists q, r = display q /\ is_checking q = false.
Proof.
  intros cbs c path present r.
  assert (H : forall a, is_checking a = false ->
              In (UpdateImageRender r) (callbacks_trace cbs a) ->
              exists q, r = display q /\ is_checking q = false).
  { induction cbs as [| cb rest IH]; intros a Hidle Hin; cbn [callbacks_trace] in Hin.
    - contradiction.
    - apply in_app_or in Hin as [Hin | Hin].
      + pose proof (dispatch_renders cb a Hidle) as Hall.
        rewrite Forall_forall in Hall.
        destruct (Hall (UpdateImageRender r)) as (q & Eq & Hq).
        { apply List.filter_In. split; [exact Hin | reflexivity]. }
        injection Eq as ->. exists q. auto.
      + apply (IH (state_of (dispatch cb a))); [| exact Hin].
        apply dispatch_keeps_idle, Hidle. }
  apply H. reflexivity.
Qed.

Lemma checking_view_never_rendered_witness :
  exists q,
    display (checked (ProcCompleted (pending 2)) quiet quiet fresh) = display q
    /\ is_checking q = false.
Proof.
  apply (checking_view_never_rendered
           [Update 3600%Q (ProcCompleted (pending 2)) quiet quiet]
           default_config "arch_icon.png" false).
  vm_compute. repeat (first [left; reflexivity | right]).
Defined.

End ArchNeverChecking.
